(** * The Renpho cloud client ([custom_components/renpho/api_renpho.py])

    A shallow embedding of class [RenphoWeight]: the authenticated HTTP
    client, its fetchers, the metric accessor and the poller.  Methods are
    state transformers over the client object and the trace of observable
    events (log records, network operations, sleeps); the outside world
    answers as a function of that trace.  Python exceptions are the [Raise]
    results of the monad [M]. *)

From Stdlib Require Import ZArith QArith Qround List String Bool Arith Lia.
Import ListNotations.

Set Warnings "-register-all".

Open Scope string_scope.
Open Scope Z_scope.

(** ** Python values *)

(** The JSON-shaped values the client handles.  A Python [str] is the
    string of its UTF-8 bytes, so [encode] and [decode] are the identity. *)
Inductive pyval : Type :=
| PyNone
| PyBool (b : bool)
| PyNum (q : Q)
| PyStr (s : string)
| PyBytes (b : string)
| PyList (l : list pyval)
| PyDict (d : list (string * pyval)).

(** [bool(v)]. *)
Definition truthy (v : pyval) : bool :=
  match v with
  | PyNone => false
  | PyBool b => b
  | PyNum q => negb (Qeq_bool q 0)
  | PyStr s => negb (s =? "")%string
  | PyBytes b => negb (b =? "")%string
  | PyList l => match l with [] => false | _ => true end
  | PyDict d => match d with [] => false | _ => true end
  end.

(** [v == "s"] for a string literal. *)
Definition eq_str (v : pyval) (s : string) : bool :=
  match v with
  | PyStr t => (t =? s)%string
  | _ => false
  end.

(** [v in (None, 0.0)]: identity with [None] or equality with [0.0]
    ([False == 0.0] holds in Python). *)
Definition in_None_zero (v : pyval) : bool :=
  match v with
  | PyNone => true
  | PyNum q => Qeq_bool q 0
  | PyBool b => negb b
  | _ => false
  end.

Definition pydict : Type := list (string * pyval).

Fixpoint dict_get (d : pydict) (k : string) : option pyval :=
  match d with
  | [] => None
  | (k', v) :: d' => if (k' =? k)%string then Some v else dict_get d' k
  end.

Definition dict_has (d : pydict) (k : string) : bool :=
  match dict_get d k with Some _ => true | None => false end.

(** [d.get(k)], with [None] for a missing key. *)
Definition dict_get_default (d : pydict) (k : string) : pyval :=
  match dict_get d k with Some v => v | None => PyNone end.

(** [d[k] = v]. *)
Fixpoint dict_set (d : pydict) (k : string) (v : pyval) : pydict :=
  match d with
  | [] => [(k, v)]
  | (k', v') :: d' =>
      if (k' =? k)%string then (k', v) :: d' else (k', v') :: dict_set d' k v
  end.

(** [s.endswith(suffix)]. *)
Definition endswith (s suffix : string) : bool :=
  let n := String.length s in
  let m := String.length suffix in
  (m <=? n)%nat && (substring (n - m) m s =? suffix)%string.

(** [RenphoWeight.prepare_data]: bytes become text, recursively. *)
Fixpoint prepare_data (data : pyval) : pyval :=
  match data with
  | PyBytes b => PyStr b
  | PyDict d => PyDict (map (fun '(key, value) => (key, prepare_data value)) d)
  | PyList l => PyList (map prepare_data l)
  | _ => data
  end.

(** ** Constants ([const.py] and the head of [api_renpho.py]) *)

Definition NL : string := String (Ascii.ascii_of_nat 10) EmptyString.

Definition CONF_PUBLIC_KEY : string :=
  "-----BEGIN PUBLIC KEY-----" ++ NL ++
  "MIGfMA0GCSqGSIb3DQEBAQUAA4GNADCBiQKBgQC+25I2upukpfQ7rIaaTZtVE744" ++ NL ++
  "u2zV+HaagrUhDOTq8fMVf9yFQvEZh2/HKxFudUxP0dXUa8F6X4XmWumHdQnum3zm" ++ NL ++
  "Jr04fz2b2WCcN0ta/rbF2nYAnMVAk2OJVZAMudOiMWhcxV1nNJiKgTNNr13de0EQ" ++ NL ++
  "IiOL2CUBzu+HmIfUbQIDAQAB" ++ NL ++
  "-----END PUBLIC KEY-----".

Definition METRIC_TYPE_WEIGHT : string := "weight".
Definition METRIC_TYPE_GROWTH_RECORD : string := "growth_record".
Definition METRIC_TYPE_GIRTH : string := "girth".
Definition METRIC_TYPE_GIRTH_GOAL : string := "girth_goals".

Definition API_AUTH_URL : string :=
  "https://renpho.qnclouds.com/api/v3/users/sign_in.json?app_id=Renpho".
Definition API_MEASUREMENTS_URL : string :=
  "https://renpho.qnclouds.com/api/v2/measurements/list.json".
Definition DEVICE_INFO_URL : string :=
  "https://renpho.qnclouds.com/api/v2/device_binds/get_device.json".
Definition GIRTH_URL : string :=
  "https://renpho.qnclouds.com/api/v3/girths/list_girth.json".
Definition GIRTH_GOAL_URL : string :=
  "https://renpho.qnclouds.com/api/v3/girth_goals/list_girth_goal.json".
Definition GROWTH_RECORD_URL : string :=
  "https://renpho.qnclouds.com/api/v3/growth_records/list_growth_record.json".
Definition MESSAGE_LIST_URL : string :=
  "https://renpho.qnclouds.com/api/v2/messages/list.json".
Definition LATEST_MODEL_URL : string :=
  "https://renpho.qnclouds.com/api/v3/devices/list_lastest_model.json".
Definition USER_REQUEST_URL : string :=
  "https://renpho.qnclouds.com/api/v2/users/request_user.json".
Definition USERS_REACH_GOAL : string :=
  "https://renpho.qnclouds.com/api/v3/users/reach_goal.json".

(** ** Exceptions *)

(** The three classes the module defines, the two aiohttp classes it
    catches by name, and any other subclass of [Exception] by its name. *)
Inductive exn_class : Type :=
| AuthenticationError
| APIError
| ClientSSLError
| ClientResponseError
| ClientConnectionError
| PyException (name : string).

Record exn : Type := Exn { exn_cls : exn_class; exn_msg : string }.

(** [except (aiohttp.ClientResponseError, aiohttp.ClientConnectionError)]. *)
Definition is_client_error (e : exn) : bool :=
  match exn_cls e with
  | ClientResponseError | ClientConnectionError => true
  | _ => false
  end.

Definition exn_class_eqb (a b : exn_class) : bool :=
  match a, b with
  | AuthenticationError, AuthenticationError => true
  | APIError, APIError => true
  | ClientSSLError, ClientSSLError => true
  | ClientResponseError, ClientResponseError => true
  | ClientConnectionError, ClientConnectionError => true
  | PyException n, PyException m => (n =? m)%string
  | _, _ => false
  end.

(** ** The objects of [api_object] *)

(** Modelled from the spec: [api_object.Girth] is not among the sources.
    A girth entry carries named girth values ([girth_attrs], the
    attributes other than the timestamp) and a timestamp; [getattr] with
    a default reads a named value. *)
Record Girth : Type := mkGirth { girth_time_stamp : Z; girth_attrs : pydict }.

Definition girth_getattr (g : Girth) (name : string) (default : pyval) : pyval :=
  match dict_get (girth_attrs g) name with
  | Some v => v
  | None => default
  end.

(** Modelled from the spec: [api_object.GirthGoal] is not among the
    sources.  A goal carries the girth type, the goal value and the time
    the goal was set up. *)
Record GirthGoal : Type :=
  mkGirthGoal { girth_type : pyval; goal_value : pyval; setup_goal_at : Z }.

(** Modelled from the spec: [api_object.MeasurementDetail], [DeviceBind]
    and [UserResponse] are not among the sources.  Each is the snapshot of
    the fields it was built from; [get(key, None)] reads a field. *)
Definition MeasurementDetail : Type := pydict.
Definition DeviceBind : Type := pydict.
Definition UserResponse : Type := pydict.

Definition obj_get (o : pydict) (key : string) : pyval := dict_get_default o key.

(** ** The client object *)

(** What [self.polling_task] holds once the attribute exists. *)
Inductive task_ref : Type := TaskNone | TaskHandle.

(** The attributes of a [RenphoWeight] instance that the methods below
    read or write.  Attributes that [__init__] does not create
    ([time_stamp], [polling_task], [refresh_interval]) are optional: [None]
    means the instance has no such attribute and reading it raises
    [AttributeError]. *)
Record RenphoWeight : Type := mkRenphoWeight {
  public_key : option string;
  email : string;
  password : string;
  user_id : pyval;
  refresh : Z;
  token : pyval;
  polling : bool;
  login_data : option UserResponse;
  weight_info : option MeasurementDetail;
  weight_history : list MeasurementDetail;
  weight : pyval;
  device_info : option (list DeviceBind);
  latest_model : pyval;
  girth_info : option (list Girth);
  girth_goal : option (list GirthGoal);
  growth_record : pyval;
  _last_updated_weight : option Q;
  _last_updated_girth : option Q;
  _last_updated_girth_goal : option Q;
  _last_updated_growth_record : option Q;
  auth_in_progress : bool;
  is_polling_active : bool;
  proxy : option string;
  time_stamp : option pyval;
  polling_task : option task_ref;
  refresh_interval : option Z
}.

(** Attribute assignment, one function per assigned attribute. *)
Definition set_user_id (v : pyval) (self : RenphoWeight) : RenphoWeight :=
  mkRenphoWeight (public_key self) (email self) (password self) v (refresh
    self) (token self) (polling self) (login_data self) (weight_info self)
    (weight_history self) (weight self) (device_info self) (latest_model
    self) (girth_info self) (girth_goal self) (growth_record self)
    (_last_updated_weight self) (_last_updated_girth self)
    (_last_updated_girth_goal self) (_last_updated_growth_record self)
    (auth_in_progress self) (is_polling_active self) (proxy self)
    (time_stamp self) (polling_task self) (refresh_interval self).

Definition set_token (v : pyval) (self : RenphoWeight) : RenphoWeight :=
  mkRenphoWeight (public_key self) (email self) (password self) (user_id
    self) (refresh self) v (polling self) (login_data self) (weight_info
    self) (weight_history self) (weight self) (device_info self)
    (latest_model self) (girth_info self) (girth_goal self) (growth_record
    self) (_last_updated_weight self) (_last_updated_girth self)
    (_last_updated_girth_goal self) (_last_updated_growth_record self)
    (auth_in_progress self) (is_polling_active self) (proxy self)
    (time_stamp self) (polling_task self) (refresh_interval self).

Definition set_login_data (v : option UserResponse)
    (self : RenphoWeight) : RenphoWeight :=
  mkRenphoWeight (public_key self) (email self) (password self) (user_id
    self) (refresh self) (token self) (polling self) v (weight_info self)
    (weight_history self) (weight self) (device_info self) (latest_model
    self) (girth_info self) (girth_goal self) (growth_record self)
    (_last_updated_weight self) (_last_updated_girth self)
    (_last_updated_girth_goal self) (_last_updated_growth_record self)
    (auth_in_progress self) (is_polling_active self) (proxy self)
    (time_stamp self) (polling_task self) (refresh_interval self).

Definition set_weight_info (v : option MeasurementDetail)
    (self : RenphoWeight) : RenphoWeight :=
  mkRenphoWeight (public_key self) (email self) (password self) (user_id
    self) (refresh self) (token self) (polling self) (login_data self) v
    (weight_history self) (weight self) (device_info self) (latest_model
    self) (girth_info self) (girth_goal self) (growth_record self)
    (_last_updated_weight self) (_last_updated_girth self)
    (_last_updated_girth_goal self) (_last_updated_growth_record self)
    (auth_in_progress self) (is_polling_active self) (proxy self)
    (time_stamp self) (polling_task self) (refresh_interval self).

Definition set_weight_history (v : list MeasurementDetail)
    (self : RenphoWeight) : RenphoWeight :=
  mkRenphoWeight (public_key self) (email self) (password self) (user_id
    self) (refresh self) (token self) (polling self) (login_data self)
    (weight_info self) v (weight self) (device_info self) (latest_model
    self) (girth_info self) (girth_goal self) (growth_record self)
    (_last_updated_weight self) (_last_updated_girth self)
    (_last_updated_girth_goal self) (_last_updated_growth_record self)
    (auth_in_progress self) (is_polling_active self) (proxy self)
    (time_stamp self) (polling_task self) (refresh_interval self).

Definition set_weight (v : pyval) (self : RenphoWeight) : RenphoWeight :=
  mkRenphoWeight (public_key self) (email self) (password self) (user_id
    self) (refresh self) (token self) (polling self) (login_data self)
    (weight_info self) (weight_history self) v (device_info self)
    (latest_model self) (girth_info self) (girth_goal self) (growth_record
    self) (_last_updated_weight self) (_last_updated_girth self)
    (_last_updated_girth_goal self) (_last_updated_growth_record self)
    (auth_in_progress self) (is_polling_active self) (proxy self)
    (time_stamp self) (polling_task self) (refresh_interval self).

Definition set_device_info (v : option (list DeviceBind))
    (self : RenphoWeight) : RenphoWeight :=
  mkRenphoWeight (public_key self) (email self) (password self) (user_id
    self) (refresh self) (token self) (polling self) (login_data self)
    (weight_info self) (weight_history self) (weight self) v (latest_model
    self) (girth_info self) (girth_goal self) (growth_record self)
    (_last_updated_weight self) (_last_updated_girth self)
    (_last_updated_girth_goal self) (_last_updated_growth_record self)
    (auth_in_progress self) (is_polling_active self) (proxy self)
    (time_stamp self) (polling_task self) (refresh_interval self).

Definition set_girth_info (v : option (list Girth))
    (self : RenphoWeight) : RenphoWeight :=
  mkRenphoWeight (public_key self) (email self) (password self) (user_id
    self) (refresh self) (token self) (polling self) (login_data self)
    (weight_info self) (weight_history self) (weight self) (device_info
    self) (latest_model self) v (girth_goal self) (growth_record self)
    (_last_updated_weight self) (_last_updated_girth self)
    (_last_updated_girth_goal self) (_last_updated_growth_record self)
    (auth_in_progress self) (is_polling_active self) (proxy self)
    (time_stamp self) (polling_task self) (refresh_interval self).

Definition set_girth_goal (v : option (list GirthGoal))
    (self : RenphoWeight) : RenphoWeight :=
  mkRenphoWeight (public_key self) (email self) (password self) (user_id
    self) (refresh self) (token self) (polling self) (login_data self)
    (weight_info self) (weight_history self) (weight self) (device_info
    self) (latest_model self) (girth_info self) v (growth_record self)
    (_last_updated_weight self) (_last_updated_girth self)
    (_last_updated_girth_goal self) (_last_updated_growth_record self)
    (auth_in_progress self) (is_polling_active self) (proxy self)
    (time_stamp self) (polling_task self) (refresh_interval self).

Definition set_growth_record (v : pyval) (self : RenphoWeight) : RenphoWeight :=
  mkRenphoWeight (public_key self) (email self) (password self) (user_id
    self) (refresh self) (token self) (polling self) (login_data self)
    (weight_info self) (weight_history self) (weight self) (device_info
    self) (latest_model self) (girth_info self) (girth_goal self) v
    (_last_updated_weight self) (_last_updated_girth self)
    (_last_updated_girth_goal self) (_last_updated_growth_record self)
    (auth_in_progress self) (is_polling_active self) (proxy self)
    (time_stamp self) (polling_task self) (refresh_interval self).

Definition set__last_updated_weight (v : option Q)
    (self : RenphoWeight) : RenphoWeight :=
  mkRenphoWeight (public_key self) (email self) (password self) (user_id
    self) (refresh self) (token self) (polling self) (login_data self)
    (weight_info self) (weight_history self) (weight self) (device_info
    self) (latest_model self) (girth_info self) (girth_goal self)
    (growth_record self) v (_last_updated_girth self)
    (_last_updated_girth_goal self) (_last_updated_growth_record self)
    (auth_in_progress self) (is_polling_active self) (proxy self)
    (time_stamp self) (polling_task self) (refresh_interval self).

Definition set__last_updated_girth (v : option Q)
    (self : RenphoWeight) : RenphoWeight :=
  mkRenphoWeight (public_key self) (email self) (password self) (user_id
    self) (refresh self) (token self) (polling self) (login_data self)
    (weight_info self) (weight_history self) (weight self) (device_info
    self) (latest_model self) (girth_info self) (girth_goal self)
    (growth_record self) (_last_updated_weight self) v
    (_last_updated_girth_goal self) (_last_updated_growth_record self)
    (auth_in_progress self) (is_polling_active self) (proxy self)
    (time_stamp self) (polling_task self) (refresh_interval self).

Definition set__last_updated_girth_goal (v : option Q)
    (self : RenphoWeight) : RenphoWeight :=
  mkRenphoWeight (public_key self) (email self) (password self) (user_id
    self) (refresh self) (token self) (polling self) (login_data self)
    (weight_info self) (weight_history self) (weight self) (device_info
    self) (latest_model self) (girth_info self) (girth_goal self)
    (growth_record self) (_last_updated_weight self) (_last_updated_girth
    self) v (_last_updated_growth_record self) (auth_in_progress self)
    (is_polling_active self) (proxy self) (time_stamp self) (polling_task
    self) (refresh_interval self).

Definition set__last_updated_growth_record (v : option Q)
    (self : RenphoWeight) : RenphoWeight :=
  mkRenphoWeight (public_key self) (email self) (password self) (user_id
    self) (refresh self) (token self) (polling self) (login_data self)
    (weight_info self) (weight_history self) (weight self) (device_info
    self) (latest_model self) (girth_info self) (girth_goal self)
    (growth_record self) (_last_updated_weight self) (_last_updated_girth
    self) (_last_updated_girth_goal self) v (auth_in_progress self)
    (is_polling_active self) (proxy self) (time_stamp self) (polling_task
    self) (refresh_interval self).

Definition set_auth_in_progress (v : bool)
    (self : RenphoWeight) : RenphoWeight :=
  mkRenphoWeight (public_key self) (email self) (password self) (user_id
    self) (refresh self) (token self) (polling self) (login_data self)
    (weight_info self) (weight_history self) (weight self) (device_info
    self) (latest_model self) (girth_info self) (girth_goal self)
    (growth_record self) (_last_updated_weight self) (_last_updated_girth
    self) (_last_updated_girth_goal self) (_last_updated_growth_record self)
    v (is_polling_active self) (proxy self) (time_stamp self) (polling_task
    self) (refresh_interval self).

Definition set_is_polling_active (v : bool)
    (self : RenphoWeight) : RenphoWeight :=
  mkRenphoWeight (public_key self) (email self) (password self) (user_id
    self) (refresh self) (token self) (polling self) (login_data self)
    (weight_info self) (weight_history self) (weight self) (device_info
    self) (latest_model self) (girth_info self) (girth_goal self)
    (growth_record self) (_last_updated_weight self) (_last_updated_girth
    self) (_last_updated_girth_goal self) (_last_updated_growth_record self)
    (auth_in_progress self) v (proxy self) (time_stamp self) (polling_task
    self) (refresh_interval self).

Definition set_time_stamp (v : option pyval)
    (self : RenphoWeight) : RenphoWeight :=
  mkRenphoWeight (public_key self) (email self) (password self) (user_id
    self) (refresh self) (token self) (polling self) (login_data self)
    (weight_info self) (weight_history self) (weight self) (device_info
    self) (latest_model self) (girth_info self) (girth_goal self)
    (growth_record self) (_last_updated_weight self) (_last_updated_girth
    self) (_last_updated_girth_goal self) (_last_updated_growth_record self)
    (auth_in_progress self) (is_polling_active self) (proxy self) v
    (polling_task self) (refresh_interval self).

Definition set_polling_task (v : option task_ref)
    (self : RenphoWeight) : RenphoWeight :=
  mkRenphoWeight (public_key self) (email self) (password self) (user_id
    self) (refresh self) (token self) (polling self) (login_data self)
    (weight_info self) (weight_history self) (weight self) (device_info
    self) (latest_model self) (girth_info self) (girth_goal self)
    (growth_record self) (_last_updated_weight self) (_last_updated_girth
    self) (_last_updated_girth_goal self) (_last_updated_growth_record self)
    (auth_in_progress self) (is_polling_active self) (proxy self)
    (time_stamp self) v (refresh_interval self).

Definition set_latest_model (v : pyval) (self : RenphoWeight) : RenphoWeight :=
  mkRenphoWeight (public_key self) (email self) (password self) (user_id
    self) (refresh self) (token self) (polling self) (login_data self)
    (weight_info self) (weight_history self) (weight self) (device_info
    self) v (girth_info self) (girth_goal self) (growth_record self)
    (_last_updated_weight self) (_last_updated_girth self)
    (_last_updated_girth_goal self) (_last_updated_growth_record self)
    (auth_in_progress self) (is_polling_active self) (proxy self)
    (time_stamp self) (polling_task self) (refresh_interval self).

(** [RenphoWeight.__init__]. *)
Definition __init__ (email password : string) (user_id : pyval) (refresh : Z)
    (proxy : option string) : RenphoWeight :=
  let user_id := if eq_str user_id "" then PyNone else user_id in
  {| public_key := Some CONF_PUBLIC_KEY;
     email := email;
     password := password;
     user_id := user_id;
     refresh := refresh;
     token := PyNone;
     polling := false;
     login_data := None;
     weight_info := None;
     weight_history := [];
     weight := PyNone;
     device_info := None;
     latest_model := PyNone;
     girth_info := None;
     girth_goal := None;
     growth_record := PyNone;
     _last_updated_weight := None;
     _last_updated_girth := None;
     _last_updated_girth_goal := None;
     _last_updated_growth_record := None;
     auth_in_progress := false;
     is_polling_active := false;
     proxy := proxy;
     time_stamp := None;
     polling_task := None;
     refresh_interval := None |}.

(** ** Observable events *)

Inductive level : Type := DEBUG | INFO | WARNING | ERROR.

Inductive event : Type :=
| EvLog (lvl : level) (msg : string)
| EvProbe (url : string)
| EvRequest (method url : string) (body : pyval)
| EvSleep (seconds : Z)
| EvCreateTask
| EvCancelTask.

(** ** The outside world *)

(** Everything the client calls that is not its own code: the RSA and
    base64 routines, the proxy connector, the network and the system time
    (both may depend on everything that happened so far, the trace), [str()],
    and the constructors of [api_object] that validate a payload.  A left
    injection is the exception raised. *)
Record Env : Type := mkEnv {
  RSA_importKey : string -> exn + string;
  PKCS1_v1_5_encrypt : string -> string -> exn + string;
  b64encode : string -> string;
  ProxyConnector_from_url : string -> option exn;
  httpbin_get : list event -> exn + Z;
  session_request : list event -> string -> string -> pyval -> exn + pyval;
  time_time : list event -> Q;
  mktime_1998 : Z;
  py_str : pyval -> string;
  new_MeasurementDetail : pyval -> exn + MeasurementDetail;
  new_DeviceBind : pyval -> exn + DeviceBind;
  GirthResponse_girths : pydict -> exn + list Girth;
  GirthGoalsResponse_girth_goals : pydict -> exn + list GirthGoal
}.

Record State : Type := mkState {
  client : RenphoWeight;
  trace : list event
}.

(** ** The state-and-exception monad *)

Inductive result (A : Type) : Type :=
| Ok (a : A)
| Raise (e : exn).
Arguments Ok {A} a.
Arguments Raise {A} e.

Definition M (A : Type) : Type := State -> result A * State.

Definition ret {A : Type} (a : A) : M A := fun s => (Ok a, s).

Definition bind {A B : Type} (m : M A) (k : A -> M B) : M B :=
  fun s => match m s with
           | (Ok a, s') => k a s'
           | (Raise e, s') => (Raise e, s')
           end.

Definition raise {A : Type} (e : exn) : M A := fun s => (Raise e, s).

Declare Scope py_scope.
Delimit Scope py_scope with py.
Notation "x <- c1 ;; c2" := (bind c1 (fun x => c2))
  (at level 61, c1 at next level, right associativity) : py_scope.
Notation "c1 ;; c2" := (bind c1 (fun _ => c2))
  (at level 61, right associativity) : py_scope.
Open Scope py_scope.

(** [try: m  except <classes>: h]; [handles e] says whether [e] is an
    instance of the listed classes. *)
Definition try_except {A : Type} (m : M A) (handles : exn -> bool)
    (h : exn -> M A) : M A :=
  fun s => match m s with
           | (Raise e, s') => if handles e then h e s' else (Raise e, s')
           | r => r
           end.

(** [try: m  finally: f]. *)
Definition try_finally {A : Type} (m : M A) (f : M unit) : M A :=
  fun s => let (r, s') := m s in
           match f s' with
           | (Ok _, s'') => (r, s'')
           | (Raise e, s'') => (Raise e, s'')
           end.

(** Every exception class of the model derives from [Exception]. *)
Definition is_Exception (e : exn) : bool := true.

Definition get_self : M RenphoWeight := fun s => (Ok (client s), s).

Definition modify (f : RenphoWeight -> RenphoWeight) : M unit :=
  fun s => (Ok tt, mkState (f (client s)) (trace s)).

Definition emit (ev : event) : M unit :=
  fun s => (Ok tt, mkState (client s) (trace s ++ [ev])).

(** What happened so far. *)
Definition history : M (list event) := fun s => (Ok (trace s), s).

Definition log (lvl : level) (msg : string) : M unit := emit (EvLog lvl msg).

Definition lift {A : Type} (r : exn + A) : M A :=
  match r with
  | inl e => raise e
  | inr a => ret a
  end.

Definition when (b : bool) (m : M unit) : M unit := if b then m else ret tt.

(** [[f(x) for x in l]], left to right, stopping at the first exception. *)
Fixpoint map_exn {A B : Type} (f : A -> exn + B) (l : list A) : exn + list B :=
  match l with
  | [] => inr []
  | x :: l' =>
      match f x with
      | inl e => inl e
      | inr y => match map_exn f l' with
                 | inl e => inl e
                 | inr ys => inr (y :: ys)
                 end
      end
  end.

(** The elements from which a comprehension over [v] builds one object
    each by keyword expansion, when it can run at all: those of a list,
    none for an empty container, and a [TypeError] otherwise (a scalar is
    not iterable, and the keys or characters of a non-empty mapping or
    string are not mappings). *)
Definition iter_mappings (v : pyval) : exn + list pyval :=
  match v with
  | PyList l => inr l
  | PyDict [] => inr []
  | PyStr "" => inr []
  | PyBytes "" => inr []
  | _ => inl (Exn (PyException "TypeError") "argument is not a list of mappings")
  end.

(** [self.<name>] for an attribute the instance may not have. *)
Definition getattr_or_raise {A : Type} (name : string) (slot : option A) : M A :=
  match slot with
  | Some a => ret a
  | None => raise (Exn (PyException "AttributeError")
                     ("'RenphoWeight' object has no attribute '" ++ name ++ "'"))
  end.

(** ** [sorted(..., key=..., reverse=True)] *)

(** Python's sort is stable, also with [reverse=True]: entries with equal
    keys keep their order.  Insertion from the right, each entry placed
    before the first one whose key is not larger, computes that list. *)
Fixpoint insert_desc {A : Type} (key : A -> Z) (x : A) (l : list A) : list A :=
  match l with
  | [] => [x]
  | y :: l' => if key y <=? key x then x :: l else y :: insert_desc key x l'
  end.

Definition sorted_reverse {A : Type} (key : A -> Z) (l : list A) : list A :=
  fold_right (insert_desc key) [] l.

(** ** The methods of [RenphoWeight] *)

Section Client.

Variable env : Env.

(** [self.proxy] when it is truthy. *)
Definition proxy_url (self : RenphoWeight) : option string :=
  match proxy self with
  | Some p => if (p =? "")%string then None else Some p
  | None => None
  end.

Definition str_of_Z (z : Z) : string := py_str env (PyNum (inject_Z z)).

(** [time.time()]. *)
Definition time_now : M Q := past <- history;; ret (time_time env past).

(** [RenphoWeight.get_timestamp]. *)
Definition get_timestamp : Z := mktime_1998 env.

(** [ProxyConnector.from_url(self.proxy) if self.proxy else None]. *)
Definition make_connector : M unit :=
  self <- get_self;;
  match proxy_url self with
  | Some p => match ProxyConnector_from_url env p with
              | Some e => raise e
              | None => ret tt
              end
  | None => ret tt
  end.

(** [RenphoWeight.check_proxy].  When building the connector raises, the
    handler logs and returns [False], but [session] was never bound, so the
    [finally] clause raises [UnboundLocalError] in place of the return. *)
Definition check_proxy : M bool :=
  let test_url := "http://httpbin.org/get" in
  self <- get_self;;
  match proxy_url self with
  | None => log INFO "No proxy configured. Proceeding without proxy."
  | Some p => log INFO ("Checking proxy connectivity using proxy: " ++ p)
  end;;
  let connector_error :=
    match proxy_url self with
    | Some p => ProxyConnector_from_url env p
    | None => None
    end in
  match connector_error with
  | Some e =>
      log ERROR ("Proxy connection failed: " ++ exn_msg e);;
      raise (Exn (PyException "UnboundLocalError")
               "local variable 'session' referenced before assignment")
  | None =>
      try_except
        (past <- history;;
         emit (EvProbe test_url);;
         status <- lift (httpbin_get env past);;
         if status =? 200 then
           log INFO (match proxy_url self with
                     | Some _ => "Proxy check successful."
                     | None => "Direct connection successful."
                     end);;
           ret true
         else
           log ERROR ("Failed to connect using " ++
                      match proxy_url self with
                      | Some _ => "proxy"
                      | None => "direct connection"
                      end ++ ". HTTP Status: " ++ str_of_Z status);;
           ret false)
        is_Exception
        (fun e => log ERROR ("Proxy connection failed: " ++ exn_msg e);;
                  ret false)
  end.

(** [session.request(method, url, ...)], [raise_for_status()] and
    [response.json()]: the world answers with the parsed body or with the
    exception one of the three raises. *)
Definition http (method url : string) (body : pyval) : M pyval :=
  past <- history;;
  emit (EvRequest method url body);;
  lift (session_request env past method url body).

(** [v.get] exists on a dict only. *)
Definition as_dict (v : pyval) : M pydict :=
  match v with
  | PyDict d => ret d
  | _ => raise (Exn (PyException "AttributeError") "object has no attribute 'get'")
  end.

(** [d[k]]. *)
Definition subscript (d : pydict) (k : string) : M pyval :=
  match dict_get d k with
  | Some v => ret v
  | None => raise (Exn (PyException "KeyError") k)
  end.

Definition is_None (v : pyval) : bool :=
  match v with PyNone => true | _ => false end.

(** [RenphoWeight.encrypt_password]. *)
Definition encrypt_password (public_key_str password : string) : M string :=
  try_except
    (rsa_key <- lift (RSA_importKey env public_key_str);;
     ciphertext <- lift (PKCS1_v1_5_encrypt env rsa_key password);;
     ret (b64encode env ciphertext))
    is_Exception
    (fun e => log ERROR ("Encryption error: " ++ exn_msg e);; raise e).

(** The [try] block of one attempt of [auth]; [Some v] is [return v],
    [None] is reaching the end of the block. *)
Definition auth_try (data : pyval) : M (option pyval) :=
  modify (set_token PyNone);;
  ok <- check_proxy;;
  when (negb ok)
    (log ERROR "Proxy check failed. Aborting authentication.";;
     raise (Exn APIError "Proxy check failed. Aborting authentication."));;
  make_connector;;
  parsed <- http "POST" API_AUTH_URL data;;
  when (is_None parsed)
    (log ERROR "Authentication failed. No response received.";;
     raise (Exn AuthenticationError "Authentication failed. No response received."));;
  d <- as_dict parsed;;
  let status_code := dict_get_default d "status_code" in
  let status_message := dict_get_default d "status_message" in
  when (eq_str status_code "50000" && eq_str status_message "Email was not registered")
    (log WARNING "Email was not registered.";;
     raise (Exn AuthenticationError "Email was not registered."));;
  when (eq_str status_code "500" && eq_str status_message "Internal Server Error")
    (log WARNING "Bad Password or Internal Server Error.";;
     raise (Exn AuthenticationError "Bad Password or Internal Server Error."));;
  when (negb (dict_has d "terminal_user_session_key"))
    (log ERROR "'terminal_user_session_key' not found in parsed object.";;
     raise (Exn AuthenticationError ("Authentication failed: " ++ py_str env parsed)));;
  if eq_str status_code "20000" && eq_str status_message "ok" then
    match dict_get d "terminal_user_session_key" with
    | Some key => modify (set_token key)
    | None =>
        modify (set_token PyNone);;
        raise (Exn AuthenticationError "Session key not found in response.")
    end;;
    binds <- match dict_get d "device_binds_ary" with
             | Some ary =>
                 devices <- lift (iter_mappings ary);;
                 objs <- lift (map_exn (new_DeviceBind env) devices);;
                 ret (PyList (map PyDict objs))
             | None => ret (PyList [])
             end;;
    let parsed := dict_set d "device_binds_ary" binds in
    modify (set_login_data (Some parsed));;
    key <- subscript parsed "terminal_user_session_key";;
    modify (set_token key);;
    self <- get_self;;
    when (is_None (user_id self))
      (modify (set_user_id (obj_get parsed "id")));;
    ret (Some (PyBool true))
  else ret None.

(** One iteration of [for attempt in range(3)]: the [try] block, the
    handler of the two aiohttp errors, and the [finally] clause. *)
Definition auth_attempt (attempt : nat) (data : pyval) : M (option pyval) :=
  try_finally
    (try_except (auth_try data) is_client_error
       (fun e =>
          log ERROR ("Authentication failed: " ++ exn_msg e);;
          if (attempt <? 3 - 1)%nat then
            emit (EvSleep 5);;
            ret None
          else
            raise (Exn AuthenticationError
                     ("Authentication failed after retries. " ++ exn_msg e))))
    (modify (set_auth_in_progress false)).

Fixpoint auth_for (attempts : list nat) (data : pyval) : M pyval :=
  match attempts with
  | [] => ret PyNone
  | attempt :: rest =>
      r <- auth_attempt attempt data;;
      match r with
      | Some v => ret v
      | None => auth_for rest data
      end
  end.

(** [RenphoWeight.auth]: [True], [False], or [None] when the loop ends
    without a return. *)
Definition auth : M pyval :=
  self <- get_self;;
  if auth_in_progress self then ret (PyBool false)
  else
    modify (set_auth_in_progress true);;
    when ((email self =? "")%string || (password self =? "")%string)
      (raise (Exn AuthenticationError
                "Email and password are required for authentication."));;
    match public_key self with
    | None =>
        log ERROR "Public key is None.";;
        raise (Exn AuthenticationError "Public key is None.")
    | Some key =>
        encrypted_password <- encrypt_password key (password self);;
        let data := prepare_data
                      (PyDict [("secure_flag", PyStr "1");
                               ("email", PyStr (email self));
                               ("password", PyStr encrypted_password)]) in
        auth_for (seq 0 3) data
    end.

(** How the body of one [while] iteration of [_request] ends. *)
Inductive flow : Type :=
| Continue
| Return (parsed_response : pydict).

Definition auth_or_raise : M unit :=
  auth_success <- auth;;
  when (negb (truthy auth_success))
    (raise (Exn AuthenticationError
              "Authentication failed. Unable to proceed with the request.")).

(** The [try] statement of one iteration of the loop of [_request]. *)
Definition request_try (method url : string) (kwargs : pyval) : M flow :=
  try_except
    (parsed <- http method url kwargs;;
     parsed_response <- as_dict parsed;;
     let status_code := dict_get_default parsed_response "status_code" in
     let status_message := dict_get_default parsed_response "status_message" in
     if eq_str status_code "40302" then
       auth_or_raise;;
       ret Continue
     else if eq_str status_code "50000" then
       raise (Exn APIError
                ("Internal server error: " ++ py_str env status_message))
     else if eq_str status_code "20000" && eq_str status_message "ok" then
       ret (Return parsed_response)
     else
       raise (Exn APIError
                ("API request failed " ++ method ++ " " ++ url ++ ": "
                 ++ py_str env status_message)))
    is_client_error
    (fun e =>
       log ERROR ("Client error: " ++ exn_msg e);;
       raise (Exn APIError ("API request failed " ++ method ++ " " ++ url))).

(** [not self.token and not url.endswith("sign_in.json") or not skip_auth]. *)
Definition must_auth (self : RenphoWeight) (url : string) (skip_auth : bool)
    : bool :=
  negb (truthy (token self)) && negb (endswith url "sign_in.json")
  || negb skip_auth.

(** The loop [while retries > 0] of [_request]; [retries] only ever
    decreases by one, so the number of iterations left is the recursion
    argument.  Leaving the loop returns [None]. *)
Fixpoint request_while (retries : nat) (method url : string) (skip_auth : bool)
    (kwargs : pyval) : M (option pydict) :=
  match retries with
  | O => ret None
  | S retries' =>
      make_connector;;
      self <- get_self;;
      when (must_auth self url skip_auth) auth_or_raise;;
      let kwargs := prepare_data kwargs in
      r <- request_try method url kwargs;;
      match r with
      | Continue => request_while retries' method url false kwargs
      | Return parsed_response => ret (Some parsed_response)
      end
  end.

(** [RenphoWeight._request]. *)
Definition _request (method url : string) (retries : Z) (skip_auth : bool)
    (kwargs : pyval) : M (option pydict) :=
  ok <- check_proxy;;
  when (negb ok)
    (log ERROR "Proxy check failed. Aborting authentication.";;
     raise (Exn APIError "Proxy check failed. Aborting authentication."));;
  request_while (Z.to_nat retries) method url skip_auth kwargs.

(** The query string every fetcher builds with an f-string. *)
Definition fetch_url (base stamp : string) (self : RenphoWeight) : string :=
  base ++ "?user_id=" ++ py_str env (user_id self) ++ "&" ++ stamp ++ "="
  ++ str_of_Z get_timestamp
  ++ "&locale=en&app_id=Renpho&terminal_user_session_key="
  ++ py_str env (token self).

(** [self._request("GET", url, skip_auth=True)]. *)
Definition fetch (url : string) : M (option pydict) :=
  _request "GET" url 3 true (PyDict []).

(** [not parsed]. *)
Definition no_body (parsed : option pydict) : bool :=
  match parsed with
  | None | Some [] => true
  | Some _ => false
  end.

Definition body_of (parsed : option pydict) : pydict :=
  match parsed with Some d => d | None => [] end.

(** ["status_code" in parsed and parsed["status_code"] == "20000"]. *)
Definition status_20000 (parsed : pydict) : bool :=
  dict_has parsed "status_code"
  && eq_str (dict_get_default parsed "status_code") "20000".

(** [obj.<name>] on an [api_object] snapshot. *)
Definition obj_attr (o : pydict) (name : string) : M pyval :=
  match dict_get o name with
  | Some v => ret v
  | None => raise (Exn (PyException "AttributeError") name)
  end.

(** [RenphoWeight.get_measurements]. *)
Definition get_measurements : M (option MeasurementDetail) :=
  self <- get_self;;
  let url := fetch_url API_MEASUREMENTS_URL "last_at" self in
  try_except
    (parsed <- fetch url;;
     if no_body parsed then
       log ERROR "Failed to fetch weight measurements.";;
       ret None
     else
       let parsed := body_of parsed in
       if status_20000 parsed then
         match dict_get parsed "last_ary" with
         | None =>
             log ERROR "No weight measurements found in the response.";;
             ret None
         | Some measurements =>
             if truthy measurements then
               items <- lift (iter_mappings measurements);;
               history <- lift (map_exn (new_MeasurementDetail env) items);;
               modify (set_weight_history history);;
               let info := match history with
                           | first :: _ => Some first
                           | [] => None
                           end in
               modify (set_weight_info info);;
               w <- match info with
                    | Some m => obj_attr m "weight"
                    | None => ret PyNone
                    end;;
               modify (set_weight w);;
               ts <- match info with
                     | Some m => obj_attr m "time_stamp"
                     | None => ret PyNone
                     end;;
               modify (set_time_stamp (Some ts));;
               now <- time_now;;
               modify (set__last_updated_weight (Some now));;
               ret info
             else
               log ERROR "No weight measurements found in the response.";;
               ret None
         end
       else
         (if negb (dict_has parsed "status_code") then
            log ERROR "Invalid response format received from weight measurements endpoint."
          else
            log ERROR ("Error fetching weight measurements: Status Code "
                       ++ py_str env (dict_get_default parsed "status_code")
                       ++ " - "
                       ++ py_str env (dict_get_default parsed "status_message")));;
         ret None)
    is_Exception
    (fun e =>
       log ERROR ("Failed to fetch weight measurements: " ++ exn_msg e);;
       ret None).

(** [RenphoWeight.get_info]. *)
Definition get_info : M (option MeasurementDetail) :=
  now <- time_now;;
  modify (set__last_updated_weight (Some now));;
  get_measurements.

(** [RenphoWeight.get_device_info]. *)
Definition get_device_info : M (option (list DeviceBind)) :=
  self <- get_self;;
  let url := fetch_url DEVICE_INFO_URL "last_updated_at" self in
  try_except
    (parsed <- fetch url;;
     if no_body parsed then
       log ERROR "Failed to fetch device info.";;
       ret None
     else
       let parsed := body_of parsed in
       if eq_str (dict_get_default parsed "status_code") "20000"
          && dict_has parsed "device_binds_ary" then
         ary <- subscript parsed "device_binds_ary";;
         devices <- lift (iter_mappings ary);;
         device_info <- lift (map_exn (new_DeviceBind env) devices);;
         modify (set_device_info (Some device_info));;
         ret (Some device_info)
       else
         (if negb (dict_has parsed "status_code") then
            log ERROR "Invalid response format received from device info endpoint."
          else
            log ERROR ("Error fetching device info: Status Code "
                       ++ py_str env (dict_get_default parsed "status_code")
                       ++ " - "
                       ++ py_str env (dict_get_default parsed "status_message")));;
         ret None)
    is_Exception
    (fun e =>
       log ERROR ("Failed to fetch device info: " ++ exn_msg e);;
       ret None).

(** [RenphoWeight.list_girth]. *)
Definition list_girth : M (option (list Girth)) :=
  self <- get_self;;
  let url := fetch_url GIRTH_URL "last_updated_at" self in
  try_except
    (parsed <- fetch url;;
     if no_body parsed then
       log ERROR "Failed to fetch girth info.";;
       ret None
     else
       let parsed := body_of parsed in
       if status_20000 parsed then
         girths <- lift (GirthResponse_girths env parsed);;
         now <- time_now;;
         modify (set__last_updated_girth (Some now));;
         modify (set_girth_info (Some girths));;
         ret (Some girths)
       else
         log ERROR ("Error fetching girth info: "
                    ++ py_str env (dict_get_default parsed "status_message"));;
         ret None)
    is_Exception
    (fun e =>
       log ERROR ("Failed to fetch girth info: " ++ exn_msg e);;
       ret None).

(** [RenphoWeight.list_girth_goal]. *)
Definition list_girth_goal : M (option (list GirthGoal)) :=
  self <- get_self;;
  let url := fetch_url GIRTH_GOAL_URL "last_updated_at" self in
  try_except
    (parsed <- fetch url;;
     if no_body parsed then
       log ERROR "Failed to fetch girth goal.";;
       ret None
     else
       let parsed := body_of parsed in
       if status_20000 parsed then
         goals <- lift (GirthGoalsResponse_girth_goals env parsed);;
         modify (set_girth_goal (Some goals));;
         now <- time_now;;
         modify (set__last_updated_girth_goal (Some now));;
         ret (Some goals)
       else
         log ERROR ("Error fetching girth goal: "
                    ++ py_str env (dict_get_default parsed "status_message"));;
         ret None)
    is_Exception
    (fun e =>
       log ERROR ("Failed to fetch girth goal: " ++ exn_msg e);;
       ret None).

(** [RenphoWeight.list_growth_record]. *)
Definition list_growth_record : M (option pydict) :=
  self <- get_self;;
  let url := fetch_url GROWTH_RECORD_URL "last_updated_at" self in
  try_except
    (parsed <- fetch url;;
     if no_body parsed then
       log ERROR "Failed to fetch growth record.";;
       ret None
     else
       let parsed := body_of parsed in
       if status_20000 parsed then
         modify (set_growth_record (PyDict parsed));;
         now <- time_now;;
         modify (set__last_updated_growth_record (Some now));;
         ret (Some parsed)
       else
         log ERROR ("Error fetching growth record: "
                    ++ py_str env (dict_get_default parsed "status_message"));;
         ret None)
    is_Exception
    (fun e =>
       log ERROR ("Failed to fetch growth record: " ++ exn_msg e);;
       ret None).

(** [RenphoWeight.message_list]. *)
Definition message_list : M (option pydict) :=
  self <- get_self;;
  let url := fetch_url MESSAGE_LIST_URL "last_updated_at" self in
  try_except
    (parsed <- fetch url;;
     if no_body parsed then
       log ERROR "Failed to fetch messages.";;
       ret None
     else
       let parsed := body_of parsed in
       if status_20000 parsed then ret (Some parsed)
       else
         log ERROR ("Error fetching messages: "
                    ++ py_str env (dict_get_default parsed "status_message"));;
         ret None)
    is_Exception
    (fun e =>
       log ERROR ("Failed to fetch messages: " ++ exn_msg e);;
       ret None).

(** [getattr(g, f"{metric}_value", 0) not in (None, 0.0)]. *)
Definition valid_girth (metric : string) (g : Girth) : bool :=
  negb (in_None_zero (girth_getattr g (metric ++ "_value") (PyNum 0))).

(** The loop over [valid_girths]: the first value that is neither [None]
    nor zero, else [None]. *)
Fixpoint first_girth_value (metric : string) (valid_girths : list Girth) : pyval :=
  match valid_girths with
  | [] => PyNone
  | girth :: rest =>
      let value := girth_getattr girth (metric ++ "_value") PyNone in
      if negb (in_None_zero value) then value
      else first_girth_value metric rest
  end.

(** [g.girth_type == metric and g.goal_value not in (None, 0.0)]. *)
Definition valid_goal (metric : string) (g : GirthGoal) : bool :=
  eq_str (girth_type g) metric && negb (in_None_zero (goal_value g)).

Fixpoint first_goal_value (valid_goals : list GirthGoal) : pyval :=
  match valid_goals with
  | [] => PyNone
  | goal :: rest =>
      if negb (in_None_zero (goal_value goal)) then goal_value goal
      else first_goal_value rest
  end.

Definition is_none {A : Type} (o : option A) : bool :=
  match o with None => true | Some _ => false end.

(** [RenphoWeight.get_specific_metric]. *)
Definition get_specific_metric (metric_type metric : string) (user_id : pyval)
    : M pyval :=
  when (truthy user_id) (modify (set_user_id user_id));;
  try_except
    (if (metric_type =? METRIC_TYPE_WEIGHT)%string then
       self <- get_self;;
       let fallback := match weight_info self with
                       | Some info => ret (obj_get info metric)
                       | None => ret PyNone
                       end in
       if is_none (_last_updated_weight self) || truthy (weight self) then
         match weight_info self with
         | Some info => ret (obj_get info metric)
         | None => fallback
         end
       else fallback
     else if (metric_type =? METRIC_TYPE_GIRTH)%string then
       self <- get_self;;
       when (is_none (_last_updated_girth self) || is_none (girth_info self))
         (list_girth;; ret tt);;
       self <- get_self;;
       match girth_info self with
       | Some ((_ :: _) as girth_info) =>
           let valid_girths :=
             sorted_reverse girth_time_stamp
               (filter (valid_girth metric) girth_info) in
           ret (first_girth_value metric valid_girths)
       | _ => ret PyNone
       end
     else if (metric_type =? METRIC_TYPE_GIRTH_GOAL)%string then
       self <- get_self;;
       when (is_none (_last_updated_girth_goal self) || is_none (girth_goal self))
         (list_girth_goal;; ret tt);;
       self <- get_self;;
       match girth_goal self with
       | Some ((_ :: _) as girth_goal) =>
           let valid_goals :=
             sorted_reverse setup_goal_at
               (filter (valid_goal metric) girth_goal) in
           ret (first_goal_value valid_goals)
       | _ => ret PyNone
       end
     else
       log ERROR ("Invalid metric type: " ++ metric_type);;
       ret PyNone)
    is_Exception
    (fun e =>
       log ERROR ("Failed to fetch specific metric: " ++ exn_msg e);;
       ret PyNone).

(** [asyncio.gather] applied to the three values the fetchers returned:
    none of them is awaitable, so scheduling them raises [TypeError]. *)
Definition gather_results {A B C : Type} (a : A) (b : B) (c : C) : M unit :=
  raise (Exn (PyException "TypeError")
           "An asyncio.Future, a coroutine or an awaitable is required").

(** [RenphoWeight.poll_data]: the three fetches are awaited one after the
    other while the arguments of [gather] are evaluated. *)
Definition poll_data : M unit :=
  try_except
    (info <- get_info;;
     girths <- list_girth;;
     goals <- list_girth_goal;;
     gather_results info girths goals;;
     log INFO "Data fetched successfully.")
    is_Exception
    (fun e => log ERROR ("Error fetching data: " ++ exn_msg e)).

(** The [while self.is_polling_active] loop of [polling_loop], run for at
    most [fuel] iterations: [Some tt] when the condition turned false,
    [None] when the loop is still running after [fuel] iterations. *)
Fixpoint polling_while (fuel : nat) : M (option unit) :=
  match fuel with
  | O => ret None
  | S fuel' =>
      self <- get_self;;
      if is_polling_active self then
        poll_data;;
        self <- get_self;;
        seconds <- getattr_or_raise "refresh_interval" (refresh_interval self);;
        emit (EvSleep seconds);;
        polling_while fuel'
      else ret (Some tt)
  end.

(** [RenphoWeight.polling_loop], for a task that is not cancelled: the
    handler of [Exception] and the [finally] clause wrap the whole loop. *)
Definition polling_loop (fuel : nat) : M (option unit) :=
  r <- try_except (polling_while fuel) is_Exception
         (fun e =>
            log ERROR ("Unexpected error in polling loop: " ++ exn_msg e);;
            ret (Some tt));;
  match r with
  | Some _ => log INFO "Polling loop exited.";; ret (Some tt)
  | None => ret None
  end.

(** [RenphoWeight.start_polling]; the task it creates runs [polling_loop]. *)
Definition start_polling : M unit :=
  self <- get_self;;
  if is_polling_active self then
    log WARNING "Polling is already active."
  else
    modify (set_is_polling_active true);;
    emit EvCreateTask;;
    modify (set_polling_task (Some TaskHandle)).

(** [RenphoWeight.stop_polling]. *)
Definition stop_polling : M unit :=
  self <- get_self;;
  if negb (is_polling_active self) then
    log WARNING "Polling is not active."
  else
    task <- getattr_or_raise "polling_task" (polling_task self);;
    match task with
    | TaskHandle =>
        emit EvCancelTask;;
        log INFO "Polling has been stopped.";;
        modify (set_is_polling_active false);;
        modify (set_polling_task (Some TaskNone))
    | TaskNone => ret tt
    end.

End Client.

(** ** The session check and the remaining fetchers *)

Section Accessors.

Variable env : Env.

(** [RenphoWeight.is_valid_session]. *)
Definition is_valid_session : M bool :=
  self <- get_self;;
  ret (negb (is_None (token self))).

(** [RenphoWeight.validate_credentials]: whatever [auth] raises comes out
    as an [AuthenticationError] that quotes it. *)
Definition validate_credentials : M pyval :=
  self <- get_self;;
  log DEBUG ("Validating credentials for user: " ++ email self);;
  try_except (auth env) is_Exception
    (fun e =>
       self <- get_self;;
       log ERROR ("Failed to validate credentials for user: " ++ email self
                  ++ ". Error: " ++ exn_msg e);;
       raise (Exn AuthenticationError
                ("Invalid credentials for user " ++ email self
                 ++ ". Error details: " ++ exn_msg e))).

(** [RenphoWeight.get_weight].  The first component of the tuple is read
    before [get_measurements] is awaited. *)
Definition get_weight : M (pyval * option MeasurementDetail) :=
  self <- get_self;;
  if truthy (weight self) && negb (is_none (weight_info self)) then
    ret (weight self, weight_info self)
  else
    now <- time_now env;;
    modify (set__last_updated_weight (Some now));;
    self <- get_self;;
    let weight := weight self in
    info <- get_measurements env;;
    ret (weight, info).

(** [RenphoWeight.list_latest_model].  The URL is built before the [try]
    statement and reads [self.weight_info.internal_model]. *)
Definition list_latest_model : M (option pydict) :=
  self <- get_self;;
  info <- match weight_info self with
          | Some info => ret info
          | None =>
              raise (Exn (PyException "AttributeError")
                       "'NoneType' object has no attribute 'internal_model'")
          end;;
  internal_model <- obj_attr info "internal_model";;
  let url := fetch_url env LATEST_MODEL_URL "last_updated_at" self
             ++ "$internal_model_json=%5B%22" ++ py_str env internal_model
             ++ "%22%5D" in
  try_except
    (parsed <- fetch env url;;
     if no_body parsed then
       log ERROR "Failed to fetch latest model.";;
       ret None
     else
       let parsed := body_of parsed in
       if status_20000 parsed then
         modify (set_latest_model (PyDict parsed));;
         ret (Some parsed)
       else
         log ERROR ("Error fetching latest model: "
                    ++ py_str env (dict_get_default parsed "status_message"));;
         ret None)
    is_Exception
    (fun e =>
       log ERROR ("Failed to fetch latest model: " ++ exn_msg e);;
       ret None).

(** [RenphoWeight.request_user]. *)
Definition request_user : M (option pydict) :=
  self <- get_self;;
  let url := fetch_url env USER_REQUEST_URL "last_updated_at" self in
  try_except
    (parsed <- fetch env url;;
     if no_body parsed then
       log ERROR "Failed to request user.";;
       ret None
     else
       let parsed := body_of parsed in
       if status_20000 parsed then ret (Some parsed)
       else
         log ERROR ("Error requesting user: "
                    ++ py_str env (dict_get_default parsed "status_message"));;
         ret None)
    is_Exception
    (fun e =>
       log ERROR ("Failed to request user: " ++ exn_msg e);;
       ret None).

(** [RenphoWeight.reach_goal]. *)
Definition reach_goal : M (option pydict) :=
  self <- get_self;;
  let url := fetch_url env USERS_REACH_GOAL "last_updated_at" self in
  try_except
    (parsed <- fetch env url;;
     if no_body parsed then
       log ERROR "Failed to reach goal.";;
       ret None
     else
       let parsed := body_of parsed in
       if status_20000 parsed then ret (Some parsed)
       else
         log ERROR ("Error reaching goal: "
                    ++ py_str env (dict_get_default parsed "status_message"));;
         ret None)
    is_Exception
    (fun e =>
       log ERROR ("Failed to reach goal: " ++ exn_msg e);;
       ret None).

End Accessors.

(** * The vocabulary of the properties *)

(** ** Traces *)

(** A state after more events. *)
Definition after (s : State) (evs : list event) : State :=
  mkState (client s) (trace s ++ evs).

(** ** The girth metric *)

(** The first entry, if any, has the largest key. *)
Definition head_is_max {A : Type} (key : A -> Z) (l : list A) : Prop :=
  match l with
  | [] => True
  | h :: _ => forall x, In x l -> key x <= key h
  end.

(** The field [<metric>_value] of the entry [g] is present with value [v],
    which is not zero. *)
Definition has_reading (metric : string) (g : Girth) (v : pyval) : Prop :=
  dict_get (girth_attrs g) (metric ++ "_value") = Some v
  /\ in_None_zero v = false.

(** What the girth branch computes from a cached list. *)
Definition latest_girth (metric : string) (l : list Girth) : pyval :=
  first_girth_value metric
    (sorted_reverse girth_time_stamp (filter (valid_girth metric) l)).

(** The scenario of the specification: two entries for the waist, the
    newer one with a zero reading. *)
Definition scenario_girths : list Girth :=
  [mkGirth 100 [("waist_value", PyNum 80)];
   mkGirth 200 [("waist_value", PyNum 0)]].

(** The events that touch the network. *)
Definition is_network (ev : event) : bool :=
  match ev with
  | EvProbe _ | EvRequest _ _ _ => true
  | _ => false
  end.

(** ** Authentication *)

(** [n] calls of [m] in a row: their results, and the final state. *)
Fixpoint calls {A : Type} (n : nat) (m : M A) (s : State)
    : list (result A) * State :=
  match n with
  | O => ([], s)
  | S n' =>
      let (r, s') := m s in
      let (rs, s'') := calls n' m s' in
      (r :: rs, s'')
  end.

(** The state in which [auth] leaves the client when it raises before its
    retry loop: the flag is set and [evs] were logged. *)
Definition stuck (s : State) (evs : list event) : State :=
  mkState (set_auth_in_progress true (client s)) (trace s ++ evs).

(** [encrypt_password] fails with [e] on this key and password. *)
Definition encryption_fails (env : Env) (key password : string) (e : exn) : Prop :=
  RSA_importKey env key = inl e
  \/ exists rsa_key, RSA_importKey env key = inr rsa_key
                     /\ PKCS1_v1_5_encrypt env rsa_key password = inl e.

Definition missing_credentials : exn :=
  Exn AuthenticationError "Email and password are required for authentication.".

(** A sign-in answer that authenticates: the success envelope and a
    session key, without a list of devices. *)
Definition good_login (login : pydict) (key : pyval) : Prop :=
  dict_get login "status_code" = Some (PyStr "20000")
  /\ dict_get login "status_message" = Some (PyStr "ok")
  /\ dict_get login "terminal_user_session_key" = Some key
  /\ dict_get login "device_binds_ary" = None.

(** A world in which signing in always works: the probe succeeds, no proxy
    URL is rejected, and the vendor answers every sign-in with [login]. *)
Record cooperative (env : Env) (login : pydict) (key : pyval) : Prop := {
  coop_probe : forall past, httpbin_get env past = inr 200;
  coop_connector : forall url, ProxyConnector_from_url env url = None;
  coop_login : forall past body,
      session_request env past "POST" API_AUTH_URL body = inr (PyDict login);
  coop_payload : good_login login key
}.

(** A client that can sign in: no authentication in progress, credentials
    present, and a key with which the password encrypts, to [bytes]. *)
Record ready (env : Env) (bytes : string) (c : RenphoWeight) : Prop := {
  ready_flag : auth_in_progress c = false;
  ready_email : email c <> "";
  ready_password : password c <> "";
  ready_key : exists pem rsa_key,
      public_key c = Some pem
      /\ RSA_importKey env pem = inr rsa_key
      /\ PKCS1_v1_5_encrypt env rsa_key (password c) = inr bytes
}.

(** The events of one [check_proxy] that succeeds. *)
Definition probe_events (c : RenphoWeight) : list event :=
  [EvLog INFO match proxy_url c with
              | None => "No proxy configured. Proceeding without proxy."
              | Some p => "Checking proxy connectivity using proxy: " ++ p
              end;
   EvProbe "http://httpbin.org/get";
   EvLog INFO match proxy_url c with
              | Some _ => "Proxy check successful."
              | None => "Direct connection successful."
              end].

(** The client after the [try] block of a sign-in answered by [login]. *)
Definition signing_in (login : pydict) (key : pyval) (c : RenphoWeight)
    : RenphoWeight :=
  let parsed := dict_set login "device_binds_ary" (PyList []) in
  let c := set_token key
             (set_login_data (Some parsed) (set_token key (set_token PyNone c))) in
  if is_None (user_id c) then set_user_id (obj_get parsed "id") c else c.

(** The client after a successful [auth] answered by [login]. *)
Definition signed_in (login : pydict) (key : pyval) (c : RenphoWeight)
    : RenphoWeight :=
  set_auth_in_progress false
    (signing_in login key (set_auth_in_progress true c)).

(** The body [auth] posts. *)
Definition credentials (env : Env) (c : RenphoWeight) (bytes : string) : pyval :=
  PyDict [("secure_flag", PyStr "1");
          ("email", PyStr (email c));
          ("password", PyStr (b64encode env bytes))].

Definition sign_in_events (c : RenphoWeight) (data : pyval) : list event :=
  probe_events c ++ [EvRequest "POST" API_AUTH_URL data].

(** The state after a successful [auth]. *)
Definition signed (env : Env) (login : pydict) (key : pyval) (bytes : string)
    (s : State) : State :=
  mkState (signed_in login key (client s))
    (trace s ++ sign_in_events (client s) (credentials env (client s) bytes)).

(** The scenario of the specification: the answer to the sign-in. *)
Definition scenario_login : pydict :=
  [("status_code", PyStr "20000");
   ("status_message", PyStr "ok");
   ("terminal_user_session_key", PyStr "abc");
   ("id", PyNum 42)].

(** ** Requests and retries *)

(** Counting the sign-ins and the requests for [url] in a trace. *)
Definition is_sign_in (ev : event) : bool :=
  match ev with
  | EvRequest method url _ =>
      (method =? "POST")%string && (url =? API_AUTH_URL)%string
  | _ => false
  end.

Definition is_fetch (url : string) (ev : event) : bool :=
  match ev with
  | EvRequest method url' _ => (method =? "GET")%string && (url' =? url)%string
  | _ => false
  end.

Definition count (p : event -> bool) (evs : list event) : nat :=
  List.length (filter p evs).

Definition sign_ins (s : State) : nat := count is_sign_in (trace s).
Definition fetches (url : string) (s : State) : nat := count (is_fetch url) (trace s).

(** The vendor's envelopes for an expired session and for success. *)
Definition expired (d : pydict) : Prop :=
  dict_get d "status_code" = Some (PyStr "40302").

Definition success (d : pydict) : Prop :=
  dict_get d "status_code" = Some (PyStr "20000")
  /\ dict_get d "status_message" = Some (PyStr "ok").

(** The state in which an iteration of the loop sends its request:
    signed in again when [must_auth] holds. *)
Definition before_request (env : Env) (login : pydict) (key : pyval)
    (bytes url : string) (skip_auth : bool) (s : State) : State :=
  if must_auth (client s) url skip_auth then signed env login key bytes s
  else s.

(** ** Fetchers and the poller *)

(** A fetcher fails quietly from [s]: it returns, whatever happens; and
    when its request raises, returns no body, or returns a body whose
    status is not the success code, the fetcher logs one error after the
    request and returns [None]. *)
Definition fails_quietly {A : Type} (env : Env) (fetcher : M (option A))
    (url : string) (s : State) : Prop :=
  (exists v s', fetcher s = (Ok v, s'))
  /\ match fetch env url s with
     | (Raise _, s1) | (Ok None, s1) =>
         exists msg, fetcher s = (Ok None, after s1 [EvLog ERROR msg])
     | (Ok (Some d), s1) =>
         d = [] \/ status_20000 d = false ->
         exists msg, fetcher s = (Ok None, after s1 [EvLog ERROR msg])
     end.

(** [m] keeps [P]: when [P] holds of the client before, it holds after,
    however [m] ends. *)
Definition keeps (P : RenphoWeight -> Prop) {A : Type} (m : M A) : Prop :=
  forall s r s', m s = (r, s') -> P (client s) -> P (client s').

(** A property [Q] of the attributes that the fetchers never assign: the
    in-progress flag of [auth] and the attributes of the poller. *)
Definition guarded (Q : bool -> bool -> option task_ref -> option Z -> Prop)
    (c : RenphoWeight) : Prop :=
  Q (auth_in_progress c) (is_polling_active c) (polling_task c)
    (refresh_interval c).

(** The poller is active and has no [refresh_interval]. *)
Definition polling_unset (c : RenphoWeight) : Prop :=
  guarded (fun _ active _ interval => interval = None /\ active = true) c.

(** The in-progress flag of [auth] is set. *)
Definition flag_set (c : RenphoWeight) : Prop :=
  guarded (fun flag _ _ _ => flag = true) c.

(** Every method of the client that can reach [auth] keeps [P]. *)
Definition kept_by_the_client (env : Env) (P : RenphoWeight -> Prop) : Prop :=
  (forall method url retries skip_auth kwargs,
      keeps P (_request env method url retries skip_auth kwargs))
  /\ keeps P (get_measurements env)
  /\ keeps P (get_info env)
  /\ keeps P (get_device_info env)
  /\ keeps P (list_girth env)
  /\ keeps P (list_girth_goal env)
  /\ keeps P (list_growth_record env)
  /\ keeps P (message_list env)
  /\ (forall metric_type metric uid,
         keeps P (get_specific_metric env metric_type metric uid))
  /\ keeps P (poll_data env).

(** The poller of a client that [__init__] built and [start_polling]
    started, whatever the trace so far. *)
Definition started (email password : string) (user_id : pyval) (refresh : Z)
    (proxy : option string) (past : list event) : State :=
  snd (start_polling (mkState (__init__ email password user_id refresh proxy) past)).

(** ** Payloads, the proxy and single requests *)


(** The proxy connector can be built for this client: it has no proxy, or
    the library accepts its proxy URL. *)
Definition connects (env : Env) (c : RenphoWeight) : Prop :=
  match proxy_url c with
  | Some p => ProxyConnector_from_url env p = None
  | None => True
  end.

(** The requests sent to the vendor. *)
Definition is_request (ev : event) : bool :=
  match ev with
  | EvRequest _ _ _ => true
  | _ => false
  end.

(** The address [check_proxy] probes. *)
Definition probe_url : string := "http://httpbin.org/get".

(** What [_request] and [auth] raise when the probe fails. *)
Definition proxy_check_failed : exn :=
  Exn APIError "Proxy check failed. Aborting authentication.".

(** The state in which [_request] has sent [method url] once, after the
    reachability probe, without signing in. *)
Definition sent_once (method url : string) (kwargs : pyval) (s : State) : State :=
  after s (probe_events (client s)
           ++ [EvRequest method url (prepare_data kwargs)]).

(** ** What a call adds to the trace *)

(** The events of a trace weighed by [f] and summed. *)
Definition tally (f : event -> nat) (evs : list event) : nat :=
  list_sum (map f evs).

(** Weight one for the events that satisfy [p]. *)
Definition one (p : event -> bool) (ev : event) : nat := Nat.b2n (p ev).

(** The seconds an event sleeps. *)
Definition seconds (ev : event) : nat :=
  match ev with
  | EvSleep z => Z.to_nat z
  | _ => 0%nat
  end.

(** The reachability probes. *)
Definition is_probe (ev : event) : bool :=
  match ev with
  | EvProbe _ => true
  | _ => false
  end.

(** A request that is not a sign-in. *)
Definition is_data_request (ev : event) : bool :=
  is_request ev && negb (is_sign_in ev).

(** A network operation other than the probe of [httpbin.org], a sign-in
    and [method url]. *)
Definition foreign (method url : string) (ev : event) : bool :=
  match ev with
  | EvRequest m u _ =>
      negb (is_sign_in ev) && negb ((m =? method)%string && (u =? url)%string)
  | EvProbe u => negb (u =? probe_url)%string
  | _ => false
  end.

(** However [m] ends, it only appends events to the trace, of total
    weight at most [n]. *)
Definition within (f : event -> nat) (n : nat) {A : Type} (m : M A) : Prop :=
  forall s r s', m s = (r, s') ->
    exists evs, trace s' = (trace s ++ evs)%list /\ (tally f evs <= n)%nat.

(** ** The attributes outside the session *)

(** The attributes of the client grouped by what writes them; [auth]
    writes [token], [login_data], [user_id] and [auth_in_progress], which
    belong to none of the groups. *)
Definition config (c : RenphoWeight) :=
  (public_key c, email c, password c, refresh c, polling c, proxy c).

Definition poller (c : RenphoWeight) :=
  (is_polling_active c, polling_task c, refresh_interval c).

Definition weight_cache (c : RenphoWeight) :=
  (weight_info c, weight_history c, weight c, time_stamp c,
   _last_updated_weight c).

Definition girth_cache (c : RenphoWeight) :=
  (girth_info c, _last_updated_girth c).

Definition goal_cache (c : RenphoWeight) :=
  (girth_goal c, _last_updated_girth_goal c).

Definition other_caches (c : RenphoWeight) :=
  (device_info c, latest_model c, growth_record c,
   _last_updated_growth_record c).

Definition outside_session (c : RenphoWeight) :=
  (config c, poller c, weight_cache c, girth_cache c, goal_cache c,
   other_caches c).

(** ** Sign-ins that fail *)

(** The sleeps. *)
Definition is_sleep (ev : event) : bool :=
  match ev with
  | EvSleep _ => true
  | _ => false
  end.

(** The vendor cannot be reached for a sign-in: every attempt ends in one
    of the two aiohttp errors that [auth] catches. *)
Definition sign_in_unreachable (env : Env) : Prop :=
  forall past body,
    exists e, session_request env past "POST" API_AUTH_URL body = inl e
              /\ is_client_error e = true.

(** An answer to the sign-in that [auth] refuses: no body, one of the two
    rejection envelopes, or an envelope without a session key. *)
Definition refusal (v : pyval) : Prop :=
  v = PyNone
  \/ exists d,
       v = PyDict d
       /\ ((dict_get d "status_code" = Some (PyStr "50000")
            /\ dict_get d "status_message" = Some (PyStr "Email was not registered"))
           \/ (dict_get d "status_code" = Some (PyStr "500")
               /\ dict_get d "status_message" = Some (PyStr "Internal Server Error"))
           \/ dict_get d "terminal_user_session_key" = None).

(** An envelope with a session key that is neither a rejection nor the
    success envelope. *)
Definition undecided (d : pydict) : Prop :=
  dict_has d "terminal_user_session_key" = true
  /\ eq_str (dict_get_default d "status_code") "50000"
     && eq_str (dict_get_default d "status_message") "Email was not registered"
     = false
  /\ eq_str (dict_get_default d "status_code") "500"
     && eq_str (dict_get_default d "status_message") "Internal Server Error"
     = false
  /\ eq_str (dict_get_default d "status_code") "20000"
     && eq_str (dict_get_default d "status_message") "ok" = false.

(** The client after an attempt of [auth] that did not sign in. *)
Definition signed_out (c : RenphoWeight) : RenphoWeight :=
  set_auth_in_progress false (set_token PyNone c).

(** ** The girth-goal metric *)

(** The goal [g] is one for [metric], with a value that is neither [None]
    nor zero. *)
Definition is_goal_for (metric : string) (g : GirthGoal) : Prop :=
  girth_type g = PyStr metric /\ in_None_zero (goal_value g) = false.

(** In [l1 ++ x :: l2], [x] is the first entry with the largest key among
    those that satisfy [p]. *)
Definition first_latest {A : Type} (key : A -> Z) (p : A -> Prop)
    (l1 : list A) (x : A) (l2 : list A) : Prop :=
  p x
  /\ (forall y, In y l1 -> p y -> key y < key x)
  /\ (forall y, In y l2 -> p y -> key y <= key x).

(** ** The poller *)

(** While the poller is active, [polling_task] holds its task. *)
Definition poller_consistent (c : RenphoWeight) : Prop :=
  guarded (fun _ active task _ => active = true -> task = Some TaskHandle) c.

(** The three fetches of a poll cycle, one after the other. *)
Definition poll_fetches (env : Env) : M unit :=
  get_info env;; list_girth env;; list_girth_goal env;; ret tt.

(** * Concrete worlds and clients, for the examples *)

Module Demo.

Definition str (v : pyval) : string :=
  match v with
  | PyNone => "None"
  | PyBool true => "True"
  | PyBool false => "False"
  | PyStr s => s
  | _ => "<value>"
  end.

Definition type_error : exn := Exn (PyException "TypeError") "not a mapping".
Definition validation_error : exn := Exn (PyException "ValidationError") "field".

Definition snapshot (v : pyval) : exn + pydict :=
  match v with
  | PyDict d => inr d
  | _ => inl type_error
  end.

Definition parse_girth (v : pyval) : exn + Girth :=
  match v with
  | PyDict d =>
      match dict_get d "time_stamp" with
      | Some (PyNum q) => inr (mkGirth (Qfloor q) d)
      | _ => inl validation_error
      end
  | _ => inl type_error
  end.

Definition parse_goal (v : pyval) : exn + GirthGoal :=
  match v with
  | PyDict d =>
      match dict_get d "setup_goal_at" with
      | Some (PyNum q) =>
          inr (mkGirthGoal (dict_get_default d "girth_type")
                 (dict_get_default d "goal_value") (Qfloor q))
      | _ => inl validation_error
      end
  | _ => inl type_error
  end.

Definition entries {A : Type} (key : string) (f : pyval -> exn + A) (d : pydict)
    : exn + list A :=
  match dict_get d key with
  | Some (PyList l) => map_exn f l
  | _ => inl validation_error
  end.

(** A world with a working key, no proxy trouble and a network given by
    the answers of the reachability probe and of the vendor. *)
Definition world (probe : list event -> exn + Z)
    (vendor : list event -> string -> string -> pyval -> exn + pyval) : Env :=
  {| RSA_importKey := fun key => inr key;
     PKCS1_v1_5_encrypt := fun key text => inr ("rsa:" ++ text);
     b64encode := fun bytes => "b64:" ++ bytes;
     ProxyConnector_from_url := fun url => None;
     httpbin_get := probe;
     session_request := vendor;
     time_time := fun past => inject_Z (Z.of_nat (List.length past));
     mktime_1998 := 883612800;
     py_str := str;
     new_MeasurementDetail := snapshot;
     new_DeviceBind := snapshot;
     GirthResponse_girths := entries "girths" parse_girth;
     GirthGoalsResponse_girth_goals := entries "girth_goals" parse_goal |}.

Definition reachable : list event -> exn + Z := fun _ => inr 200.

Definition fresh (email password : string) : State :=
  mkState (__init__ email password PyNone 60 None) [].

End Demo.

Module Examples.

Import Demo.

(** The vendor is never reached in these examples. *)
Definition silent : list event -> string -> string -> pyval -> exn + pyval :=
  fun _ _ _ _ => inl (Exn ClientConnectionError "unreachable").

Definition offline : Env := world reachable silent.

(** A world whose RSA routine rejects every key, as a malformed key is. *)
Definition bad_key_world : Env :=
  {| RSA_importKey :=
       fun _ => inl (Exn (PyException "ValueError") "RSA key format is not supported");
     PKCS1_v1_5_encrypt := PKCS1_v1_5_encrypt offline;
     b64encode := b64encode offline;
     ProxyConnector_from_url := ProxyConnector_from_url offline;
     httpbin_get := httpbin_get offline;
     session_request := session_request offline;
     time_time := time_time offline;
     mktime_1998 := mktime_1998 offline;
     py_str := py_str offline;
     new_MeasurementDetail := new_MeasurementDetail offline;
     new_DeviceBind := new_DeviceBind offline;
     GirthResponse_girths := GirthResponse_girths offline;
     GirthGoalsResponse_girth_goals := GirthGoalsResponse_girth_goals offline |}.

(** The client after a first call of [auth] with an empty email. *)
Definition after_failed_auth : State :=
  snd (auth offline (fresh "" "secret")).

End Examples.

Module Scenarios.

Import Demo.

Definition expired_answer : pydict :=
  [("status_code", PyStr "40302"); ("status_message", PyStr "Session expired")].

Definition ok_answer : pydict :=
  [("status_code", PyStr "20000"); ("status_message", PyStr "ok")].

Definition girth_url : string := GIRTH_URL ++ "?user_id=42".

(** A vendor that signs everyone in with the scenario's answer, answers
    the first [n] requests for a resource with the expired-session code
    and the later ones with success. *)
Definition vendor (n : nat) : list event -> string -> string -> pyval -> exn + pyval :=
  fun past method url body =>
    if (method =? "POST")%string then inr (PyDict scenario_login)
    else if (count (is_fetch url) past <? n)%nat then inr (PyDict expired_answer)
    else inr (PyDict ok_answer).

(** A vendor whose sessions are always expired. *)
Definition forgetful : list event -> string -> string -> pyval -> exn + pyval :=
  fun past method url body =>
    if (method =? "POST")%string then inr (PyDict scenario_login)
    else inr (PyDict expired_answer).

(** A client that already holds a token. *)
Definition holding_token : State :=
  mkState (set_token (PyStr "old") (__init__ "a@b.c" "secret" PyNone 60 None)) [].

(** A client with the scenario's girth entries in its cache. *)
Definition with_girths : State :=
  mkState (set__last_updated_girth (Some 0%Q)
             (set_girth_info (Some scenario_girths)
                (__init__ "a@b.c" "secret" PyNone 60 None))) [].

(** The answer of the girth endpoint in the scenario of the
    specification. *)
Definition girth_answer : pydict :=
  [("status_code", PyStr "20000");
   ("status_message", PyStr "ok");
   ("girths",
    PyList [PyDict [("time_stamp", PyNum 100); ("waist_value", PyNum 80)];
            PyDict [("time_stamp", PyNum 200); ("waist_value", PyNum 0)]])].

(** A vendor that signs everyone in and answers every request with the
    scenario's girths. *)
Definition measuring : list event -> string -> string -> pyval -> exn + pyval :=
  fun past method url body =>
    if (method =? "POST")%string then inr (PyDict scenario_login)
    else inr (PyDict girth_answer).

End Scenarios.

Module Cases.

Import Demo.

(** A world whose proxy library rejects every proxy URL. *)
Definition rejecting_proxies : Env :=
  {| RSA_importKey := RSA_importKey Examples.offline;
     PKCS1_v1_5_encrypt := PKCS1_v1_5_encrypt Examples.offline;
     b64encode := b64encode Examples.offline;
     ProxyConnector_from_url :=
       fun url => Some (Exn (PyException "ValueError") "Invalid scheme component");
     httpbin_get := httpbin_get Examples.offline;
     session_request := session_request Examples.offline;
     time_time := time_time Examples.offline;
     mktime_1998 := mktime_1998 Examples.offline;
     py_str := py_str Examples.offline;
     new_MeasurementDetail := new_MeasurementDetail Examples.offline;
     new_DeviceBind := new_DeviceBind Examples.offline;
     GirthResponse_girths := GirthResponse_girths Examples.offline;
     GirthGoalsResponse_girth_goals := GirthGoalsResponse_girth_goals Examples.offline |}.

(** A client configured with a proxy. *)
Definition proxied : State :=
  mkState (__init__ "a@b.c" "secret" PyNone 60 (Some "nowhere:1080")) [].

(** The probe answers, but not with status 200. *)
Definition unavailable : list event -> exn + Z := fun _ => inr 503.

(** A vendor that knows no such account. *)
Definition unregistered : pydict :=
  [("status_code", PyStr "50000");
   ("status_message", PyStr "Email was not registered")].

Definition rejecting : list event -> string -> string -> pyval -> exn + pyval :=
  fun past method url body => inr (PyDict unregistered).

(** A vendor whose sign-in answer has a session key under a status that
    the client does not know. *)
Definition pending : pydict :=
  [("status_code", PyStr "20001");
   ("status_message", PyStr "pending");
   ("terminal_user_session_key", PyStr "abc")].

Definition hesitant : list event -> string -> string -> pyval -> exn + pyval :=
  fun past method url body => inr (PyDict pending).

(** A vendor that signs everyone in and answers every request with one
    weight measurement. *)
Definition measurement : pydict :=
  [("weight", PyNum 70); ("time_stamp", PyNum 1700000000); ("bodyfat", PyNum 20)].

Definition weight_answer : pydict :=
  [("status_code", PyStr "20000");
   ("status_message", PyStr "ok");
   ("last_ary", PyList [PyDict measurement])].

Definition weighing : list event -> string -> string -> pyval -> exn + pyval :=
  fun past method url body =>
    if (method =? "POST")%string then inr (PyDict scenario_login)
    else inr (PyDict weight_answer).

(** Two waist readings taken at the same time, and a client that holds
    them in its cache. *)
Definition tied_girths : list Girth :=
  [mkGirth 100 [("waist_value", PyNum 80)];
   mkGirth 100 [("waist_value", PyNum 90)]].

Definition with_tied_girths : State :=
  mkState (set__last_updated_girth (Some 0%Q)
             (set_girth_info (Some tied_girths)
                (__init__ "a@b.c" "secret" PyNone 60 None))) [].

(** Goals for the waist and for the hip, and a client that holds them. *)
Definition goals : list GirthGoal :=
  [mkGirthGoal (PyStr "waist") (PyNum 75) 100;
   mkGirthGoal (PyStr "hip") (PyNum 95) 300;
   mkGirthGoal (PyStr "waist") (PyNum 0) 400;
   mkGirthGoal (PyStr "waist") (PyNum 72) 200].

Definition with_goals : State :=
  mkState (set__last_updated_girth_goal (Some 0%Q)
             (set_girth_goal (Some goals)
                (__init__ "a@b.c" "secret" PyNone 60 None))) [].

(** A client built with a user id. *)
Definition configured : RenphoWeight :=
  __init__ "a@b.c" "secret" (PyStr "7") 60 None.

End Cases.


(** * Properties *)

(** ** Running monadic code *)

Ltac run :=
  repeat (unfold bind, ret, raise, when, log, emit, modify, get_self, history,
            lift, try_except, try_finally, getattr_or_raise; cbn).

Lemma bind_ok {A B : Type} (m : M A) (k : A -> M B) (s s' : State) (a : A) :
  m s = (Ok a, s') -> bind m k s = k a s'.
Proof. intros H. unfold bind. now rewrite H. Qed.

Lemma bind_raise {A B : Type} (m : M A) (k : A -> M B) (s s' : State) (e : exn) :
  m s = (Raise e, s') -> bind m k s = (Raise e, s').
Proof. intros H. unfold bind. now rewrite H. Qed.

(** Run the first action of a sequence, whose outcome [tac] establishes. *)
Tactic Notation "step_by" tactic(tac) :=
  erewrite bind_ok by tac; cbv beta; unfold after; cbn [client trace].
Ltac step := step_by reflexivity.

(** ** What a method leaves alone *)

Section Frame.

Variable P : RenphoWeight -> Prop.

Lemma keeps_ret {A : Type} (a : A) : keeps P (ret a).
Proof. intros s r s' H. now inversion H. Qed.

Lemma keeps_raise {A : Type} (e : exn) : keeps P (@raise A e).
Proof. intros s r s' H. now inversion H. Qed.

Lemma keeps_bind {A B : Type} (m : M A) (k : A -> M B) :
  keeps P m -> (forall a, keeps P (k a)) -> keeps P (bind m k).
Proof.
  intros Hm Hk s r s' H HP. unfold bind in H.
  destruct (m s) as [[a|e] s1] eqn:E.
  - eapply Hk; [exact H|]. eapply Hm; eauto.
  - inversion H; subst. eapply Hm; eauto.
Qed.

Lemma keeps_try_except {A : Type} (m : M A) (handles : exn -> bool)
    (h : exn -> M A) :
  keeps P m -> (forall e, keeps P (h e)) -> keeps P (try_except m handles h).
Proof.
  intros Hm Hh s r s' H HP. unfold try_except in H.
  destruct (m s) as [[a|e] s1] eqn:E.
  - inversion H; subst. eapply Hm; eauto.
  - destruct (handles e).
    + eapply Hh; [exact H|]. eapply Hm; eauto.
    + inversion H; subst. eapply Hm; eauto.
Qed.

Lemma keeps_try_finally {A : Type} (m : M A) (f : M unit) :
  keeps P m -> keeps P f -> keeps P (try_finally m f).
Proof.
  intros Hm Hf s r s' H HP. unfold try_finally in H.
  destruct (m s) as [r1 s1] eqn:E.
  destruct (f s1) as [[u|e] s2] eqn:E2; inversion H; subst;
    eapply Hf; eauto; eapply Hm; eauto.
Qed.

Lemma keeps_modify (f : RenphoWeight -> RenphoWeight) :
  (forall c, P c -> P (f c)) -> keeps P (modify f).
Proof. intros Hf s r s' H HP. inversion H; subst. cbn. auto. Qed.

Lemma keeps_emit (ev : event) : keeps P (emit ev).
Proof. intros s r s' H HP. now inversion H; subst. Qed.

Lemma keeps_get_self : keeps P get_self.
Proof. intros s r s' H. now inversion H. Qed.

Lemma keeps_history : keeps P history.
Proof. intros s r s' H. now inversion H. Qed.

Lemma keeps_lift {A : Type} (x : exn + A) : keeps P (lift x).
Proof. destruct x; [apply keeps_raise | apply keeps_ret]. Qed.

Lemma keeps_when (b : bool) (m : M unit) : keeps P m -> keeps P (when b m).
Proof. destruct b; [auto | intros _; apply keeps_ret]. Qed.

End Frame.

Create HintDb frame.

(** Break a method down to its primitive steps; the methods it calls are
    looked up among the lemmas already proved. *)
Ltac frame_step :=
  lazymatch goal with
  | |- keeps _ (bind _ _) => apply keeps_bind; [|intros ?]
  | |- keeps _ (ret _) => apply keeps_ret
  | |- keeps _ (raise _) => apply keeps_raise
  | |- keeps _ (try_except _ _ _) => apply keeps_try_except; [|intros ?]
  | |- keeps _ (try_finally _ _) => apply keeps_try_finally
  | |- keeps _ (modify _) => apply keeps_modify; intros ? ?; assumption
  | |- keeps _ (emit _) => apply keeps_emit
  | |- keeps _ (log _ _) => apply keeps_emit
  | |- keeps _ get_self => apply keeps_get_self
  | |- keeps _ history => apply keeps_history
  | |- keeps _ (lift _) => apply keeps_lift
  | |- keeps _ (when _ _) => apply keeps_when
  | |- keeps _ (if ?b then _ else _) => destruct b
  | |- keeps _ (match ?x with _ => _ end) => destruct x
  | |- keeps _ (let _ := _ in _) => cbv zeta
  | |- keeps _ _ => solve [auto with frame]
  end.
Ltac frame := repeat frame_step.

(** The steps that do not call [auth] keep every guarded property. *)
Section Basics.

Variable env : Env.
Variable Q : bool -> bool -> option task_ref -> option Z -> Prop.

Lemma check_proxy_keeps : keeps (guarded Q) (check_proxy env).
Proof. unfold check_proxy. frame. Qed.

Lemma make_connector_keeps : keeps (guarded Q) (make_connector env).
Proof. unfold make_connector. frame. Qed.

Lemma http_keeps (method url : string) (body : pyval) :
  keeps (guarded Q) (http env method url body).
Proof. unfold http. frame. Qed.

Lemma time_now_keeps : keeps (guarded Q) (time_now env).
Proof. unfold time_now. frame. Qed.

Lemma as_dict_keeps (v : pyval) : keeps (guarded Q) (as_dict v).
Proof. unfold as_dict. frame. Qed.

Lemma subscript_keeps (d : pydict) (k : string) :
  keeps (guarded Q) (subscript d k).
Proof. unfold subscript. frame. Qed.

Lemma obj_attr_keeps (d : pydict) (k : string) :
  keeps (guarded Q) (obj_attr d k).
Proof. unfold obj_attr. frame. Qed.

Lemma encrypt_password_keeps (key pw : string) :
  keeps (guarded Q) (encrypt_password env key pw).
Proof. unfold encrypt_password. frame. Qed.

End Basics.

#[local] Hint Resolve check_proxy_keeps make_connector_keeps http_keeps
  time_now_keeps as_dict_keeps subscript_keeps obj_attr_keeps
  encrypt_password_keeps : frame.

(** [auth] assigns the in-progress flag and nothing else that is guarded:
    it keeps the properties that do not look at the flag. *)
Section Auth.

Variable env : Env.
Variable Q : bool -> option task_ref -> option Z -> Prop.

Local Abbreviation P :=
  (guarded (fun _ active task interval => Q active task interval)).

Lemma auth_try_keeps (data : pyval) : keeps P (auth_try env data).
Proof. unfold auth_try. frame. Qed.

Lemma auth_attempt_keeps (attempt : nat) (data : pyval) :
  keeps P (auth_attempt env attempt data).
Proof. pose proof auth_try_keeps. unfold auth_attempt. frame. Qed.

Lemma auth_for_keeps (attempts : list nat) (data : pyval) :
  keeps P (auth_for env attempts data).
Proof.
  pose proof auth_attempt_keeps.
  induction attempts; cbn [auth_for]; frame.
Qed.

Lemma auth_keeps : keeps P (auth env).
Proof. pose proof auth_for_keeps. unfold auth. frame. Qed.

End Auth.

(** Everything built on [auth] keeps what [auth] keeps. *)
Section FetchCycle.

Variable env : Env.
Variable Q : bool -> bool -> option task_ref -> option Z -> Prop.
Hypothesis auth_kept : keeps (guarded Q) (auth env).

Lemma auth_or_raise_keeps : keeps (guarded Q) (auth_or_raise env).
Proof. unfold auth_or_raise. frame. Qed.
Hint Resolve auth_or_raise_keeps : frame.

Lemma request_try_keeps (method url : string) (kwargs : pyval) :
  keeps (guarded Q) (request_try env method url kwargs).
Proof. unfold request_try. frame. Qed.
Hint Resolve request_try_keeps : frame.

Lemma request_while_keeps (retries : nat) (method url : string)
    (skip_auth : bool) (kwargs : pyval) :
  keeps (guarded Q) (request_while env retries method url skip_auth kwargs).
Proof.
  revert skip_auth kwargs.
  induction retries; intros skip_auth kwargs; cbn [request_while]; frame.
Qed.
Hint Resolve request_while_keeps : frame.

Lemma request_keeps (method url : string) (retries : Z) (skip_auth : bool)
    (kwargs : pyval) :
  keeps (guarded Q) (_request env method url retries skip_auth kwargs).
Proof. unfold _request. frame. Qed.
Hint Resolve request_keeps : frame.

Lemma fetch_keeps (url : string) : keeps (guarded Q) (fetch env url).
Proof. unfold fetch. frame. Qed.
Hint Resolve fetch_keeps : frame.

Lemma get_measurements_keeps : keeps (guarded Q) (get_measurements env).
Proof. unfold get_measurements. frame. Qed.
Hint Resolve get_measurements_keeps : frame.

Lemma get_info_keeps : keeps (guarded Q) (get_info env).
Proof. unfold get_info. frame. Qed.
Hint Resolve get_info_keeps : frame.

Lemma get_device_info_keeps : keeps (guarded Q) (get_device_info env).
Proof. unfold get_device_info. frame. Qed.

Lemma list_girth_keeps : keeps (guarded Q) (list_girth env).
Proof. unfold list_girth. frame. Qed.
Hint Resolve list_girth_keeps : frame.

Lemma list_girth_goal_keeps : keeps (guarded Q) (list_girth_goal env).
Proof. unfold list_girth_goal. frame. Qed.
Hint Resolve list_girth_goal_keeps : frame.

Lemma list_growth_record_keeps : keeps (guarded Q) (list_growth_record env).
Proof. unfold list_growth_record. frame. Qed.

Lemma message_list_keeps : keeps (guarded Q) (message_list env).
Proof. unfold message_list. frame. Qed.

Lemma get_specific_metric_keeps (metric_type metric : string) (uid : pyval) :
  keeps (guarded Q) (get_specific_metric env metric_type metric uid).
Proof. unfold get_specific_metric. frame. Qed.

Lemma poll_data_keeps : keeps (guarded Q) (poll_data env).
Proof. unfold poll_data, gather_results. frame. Qed.

End FetchCycle.

(** ** The order [sorted_reverse] produces *)

Section Sorting.

Context {A : Type} (key : A -> Z).

Lemma insert_desc_In (x a : A) (l : list A) :
  In x (insert_desc key a l) <-> x = a \/ In x l.
Proof.
  induction l as [|y l IH]; cbn.
  - intuition congruence.
  - destruct (key y <=? key a); cbn.
    + intuition congruence.
    + rewrite IH. intuition congruence.
Qed.

Lemma sorted_reverse_In (x : A) (l : list A) :
  In x (sorted_reverse key l) <-> In x l.
Proof.
  induction l as [|a l IH]; cbn.
  - tauto.
  - rewrite insert_desc_In, IH. intuition congruence.
Qed.

Lemma insert_desc_head_max (a : A) (l : list A) :
  head_is_max key l -> head_is_max key (insert_desc key a l).
Proof.
  destruct l as [|y l]; cbn.
  - intros _ x [<-|[]]. lia.
  - intros Hmax. destruct (key y <=? key a) eqn:E.
    + apply Z.leb_le in E. intros x [<-|Hx]; [lia|].
      specialize (Hmax x Hx). lia.
    + apply Z.leb_gt in E. intros x [<-|Hx]; [lia|].
      apply insert_desc_In in Hx. destruct Hx as [->|Hx]; [lia|].
      apply Hmax. now right.
Qed.

Lemma sorted_reverse_head_max (l : list A) :
  head_is_max key (sorted_reverse key l).
Proof.
  induction l as [|a l IH]; cbn; [exact I|].
  now apply insert_desc_head_max.
Qed.

Lemma sorted_reverse_nil (l : list A) : sorted_reverse key l = [] -> l = [].
Proof.
  destruct l as [|a l]; [reflexivity|]. intros E.
  assert (H : In a (sorted_reverse key (a :: l)))
    by (apply sorted_reverse_In; now left).
  rewrite E in H. destruct H.
Qed.

End Sorting.

(** ** The poller's guarded transitions *)

(** C8.  [stop_polling] on an idle poller and [start_polling] on an active
    one change nothing in the client: each only logs a warning. *)
Theorem polling_guards_leave_state_unchanged :
  forall s : State,
    (is_polling_active (client s) = false ->
     stop_polling s = (Ok tt, after s [EvLog WARNING "Polling is not active."]))
    /\
    (is_polling_active (client s) = true ->
     start_polling s = (Ok tt, after s [EvLog WARNING "Polling is already active."])).
Proof.
  intros s. split; intros H.
  - unfold stop_polling. run. now rewrite H.
  - unfold start_polling. run. now rewrite H.
Qed.

(** ** The girth metric *)

Lemma valid_girth_reading (metric : string) (g : Girth) :
  valid_girth metric g = true <->
  exists v, has_reading metric g v.
Proof.
  unfold valid_girth, girth_getattr, has_reading.
  destruct (dict_get (girth_attrs g) (metric ++ "_value")) as [v|]; cbn.
  - rewrite negb_true_iff. split.
    + intros H. now exists v.
    + intros (w & E & H). now inversion E; subst.
  - split; [discriminate|]. intros (w & E & _). discriminate.
Qed.

Lemma first_girth_value_head (metric : string) (g : Girth) (l : list Girth)
    (v : pyval) :
  has_reading metric g v -> first_girth_value metric (g :: l) = v.
Proof.
  intros [E H]. cbn. unfold girth_getattr. now rewrite E, H.
Qed.

Lemma latest_girth_spec (metric : string) (l : list Girth) :
  (latest_girth metric l = PyNone
   /\ forall g w, In g l -> ~ has_reading metric g w)
  \/
  (exists g, In g l /\ has_reading metric g (latest_girth metric l)
             /\ forall g' w, In g' l -> has_reading metric g' w ->
                             girth_time_stamp g' <= girth_time_stamp g).
Proof.
  unfold latest_girth.
  pose proof (sorted_reverse_head_max girth_time_stamp
                (filter (valid_girth metric) l)) as Hmax.
  pose proof (fun x => sorted_reverse_In girth_time_stamp x
                (filter (valid_girth metric) l)) as Hin.
  destruct (sorted_reverse girth_time_stamp (filter (valid_girth metric) l))
    as [|g rest] eqn:E.
  - left. split; [reflexivity|]. intros g w Hg Hr.
    apply sorted_reverse_nil in E.
    assert (Hf : In g (filter (valid_girth metric) l)).
    { apply filter_In. split; [exact Hg|].
      apply valid_girth_reading. now exists w. }
    rewrite E in Hf. destruct Hf.
  - right. exists g.
    assert (Hg : In g l /\ valid_girth metric g = true).
    { apply filter_In, Hin. now left. }
    destruct Hg as [Hg Hv]. apply valid_girth_reading in Hv.
    destruct Hv as [v Hv].
    rewrite (first_girth_value_head metric g rest v Hv).
    split; [exact Hg|]. split; [exact Hv|].
    intros g' w Hg' Hr. apply Hmax, Hin, filter_In.
    split; [exact Hg'|]. apply valid_girth_reading. now exists w.
Qed.

Lemma get_specific_metric_girth_cached (env : Env) (metric : string)
    (uid : pyval) (s : State) (l : list Girth) (t : Q) :
  girth_info (client s) = Some l ->
  _last_updated_girth (client s) = Some t ->
  get_specific_metric env METRIC_TYPE_GIRTH metric uid s =
  (Ok (latest_girth metric l),
   if truthy uid then mkState (set_user_id uid (client s)) (trace s) else s).
Proof.
  destruct s as [c tr]. cbn. intros Hl Ht.
  unfold get_specific_metric. run.
  destruct (truthy uid); run; rewrite ?Hl, ?Ht; cbn; rewrite ?Hl;
    destruct l as [|g l]; reflexivity.
Qed.

(** C1.  On a cached girth dataset, [get_specific_metric("girth", m)]
    fetches nothing and returns the [m_value] of an entry whose timestamp
    is the largest among the entries where that field is present and not
    zero, and [None] when no entry has such a field; with a waist of 80 at
    time 100 and a waist of 0 at time 200 it returns 80. *)
Theorem girth_metric_is_latest_nonzero_reading :
  (forall (env : Env) (metric : string) (uid : pyval) (s : State)
          (l : list Girth) (t : Q),
      girth_info (client s) = Some l ->
      _last_updated_girth (client s) = Some t ->
      exists v s',
        get_specific_metric env METRIC_TYPE_GIRTH metric uid s = (Ok v, s')
        /\ trace s' = trace s
        /\ ((v = PyNone /\ forall g w, In g l -> ~ has_reading metric g w)
            \/
            (exists g, In g l /\ has_reading metric g v
                       /\ forall g' w, In g' l -> has_reading metric g' w ->
                                       girth_time_stamp g' <= girth_time_stamp g)))
  /\
  (forall (env : Env) (s : State) (t : Q),
      girth_info (client s) = Some scenario_girths ->
      _last_updated_girth (client s) = Some t ->
      fst (get_specific_metric env METRIC_TYPE_GIRTH "waist" PyNone s)
      = Ok (PyNum 80)).
Proof.
  split.
  - intros env metric uid s l t Hl Ht.
    rewrite (get_specific_metric_girth_cached env metric uid s l t Hl Ht).
    eexists. eexists. split; [reflexivity|]. split.
    + now destruct (truthy uid).
    + apply latest_girth_spec.
  - intros env s t Hl Ht.
    now rewrite (get_specific_metric_girth_cached env "waist" PyNone s _ t Hl Ht).
Qed.

(** ** Authentication: the guard and the exits before the retry loop *)

Lemma auth_guard (env : Env) (s : State) :
  auth_in_progress (client s) = true ->
  auth env s = (Ok (PyBool false), s).
Proof. intros H. unfold auth. run. now rewrite H. Qed.

Lemma calls_auth_guard (env : Env) (n : nat) (s : State) :
  auth_in_progress (client s) = true ->
  calls n (auth env) s = (repeat (Ok (PyBool false)) n, s).
Proof.
  intros H. induction n as [|n IH]; [reflexivity|].
  cbn [calls repeat]. now rewrite (auth_guard env s H), IH.
Qed.

(** Once the flag is set, [auth] changes nothing at all. *)
Lemma auth_keeps_flag (env : Env) : keeps flag_set (auth env).
Proof.
  intros s r s' H HP. rewrite (auth_guard env s HP) in H.
  now inversion H; subst.
Qed.

Lemma flag_kept_by_the_client (env : Env) : kept_by_the_client env flag_set.
Proof.
  pose proof (auth_keeps_flag env) as H. unfold kept_by_the_client.
  repeat split; intros.
  - now apply request_keeps.
  - now apply get_measurements_keeps.
  - now apply get_info_keeps.
  - now apply get_device_info_keeps.
  - now apply list_girth_keeps.
  - now apply list_girth_goal_keeps.
  - now apply list_growth_record_keeps.
  - now apply message_list_keeps.
  - now apply get_specific_metric_keeps.
  - now apply poll_data_keeps.
Qed.

Lemma auth_missing_credentials (env : Env) (s : State) :
  auth_in_progress (client s) = false ->
  email (client s) = "" \/ password (client s) = "" ->
  auth env s = (Raise missing_credentials, stuck s []).
Proof.
  intros Hf Hc. unfold auth, stuck. run. rewrite Hf. run.
  rewrite app_nil_r.
  destruct Hc as [-> | ->]; cbn; [reflexivity|].
  now rewrite orb_true_r.
Qed.

Lemma auth_missing_key (env : Env) (s : State) :
  auth_in_progress (client s) = false ->
  email (client s) <> "" -> password (client s) <> "" ->
  public_key (client s) = None ->
  auth env s = (Raise (Exn AuthenticationError "Public key is None."),
                stuck s [EvLog ERROR "Public key is None."]).
Proof.
  intros Hf He Hp Hk. unfold auth, stuck. run. rewrite Hf. run.
  apply String.eqb_neq in He, Hp. rewrite He, Hp. cbn. now rewrite Hk.
Qed.

Lemma encrypt_password_fails (env : Env) (key password : string) (e : exn)
    (s : State) :
  encryption_fails env key password e ->
  encrypt_password env key password s =
  (Raise e, after s [EvLog ERROR ("Encryption error: " ++ exn_msg e)]).
Proof.
  intros [H | (rsa_key & H1 & H2)]; unfold encrypt_password; run.
  - now rewrite H.
  - now rewrite H1, H2.
Qed.

Lemma encrypt_password_succeeds (env : Env) (key password rsa_key bytes : string)
    (s : State) :
  RSA_importKey env key = inr rsa_key ->
  PKCS1_v1_5_encrypt env rsa_key password = inr bytes ->
  encrypt_password env key password s = (Ok (b64encode env bytes), s).
Proof. intros H1 H2. unfold encrypt_password. run. now rewrite H1, H2. Qed.

Lemma auth_encryption_fails (env : Env) (s : State) (key : string) (e : exn) :
  auth_in_progress (client s) = false ->
  email (client s) <> "" -> password (client s) <> "" ->
  public_key (client s) = Some key ->
  encryption_fails env key (password (client s)) e ->
  auth env s = (Raise e,
                stuck s [EvLog ERROR ("Encryption error: " ++ exn_msg e)]).
Proof.
  intros Hf He Hp Hk Hx. unfold auth, stuck. run. rewrite Hf. run.
  apply String.eqb_neq in He, Hp. rewrite He, Hp. cbn. rewrite Hk.
  match goal with
  | |- context [encrypt_password env key ?p ?st] =>
      rewrite (encrypt_password_fails env key p e st Hx)
  end.
  reflexivity.
Qed.

(** C9.  When [auth] raises before its retry loop (empty email or
    password, no public key, or a failing encryption) it has touched no
    network and leaves the in-progress flag set; every later call of
    [auth] then returns [False] at once, neither raising nor changing
    anything, hence without network activity; and no fetcher, request,
    metric access or poll cycle run in between clears the flag. *)
Theorem auth_raise_before_loop_sticks :
  forall (env : Env) (s : State),
    auth_in_progress (client s) = false ->
    (email (client s) = "" \/ password (client s) = ""
     \/ public_key (client s) = None
     \/ exists key e, public_key (client s) = Some key
                      /\ encryption_fails env key (password (client s)) e) ->
    exists e evs,
      auth env s = (Raise e, stuck s evs)
      /\ filter is_network evs = []
      /\ auth_in_progress (client (stuck s evs)) = true
      /\ (forall s',
             auth_in_progress (client s') = true ->
             forall n, calls n (auth env) s'
                       = (repeat (Ok (PyBool false)) n, s'))
      /\ kept_by_the_client env flag_set.
Proof.
  intros env s Hf Hcause.
  assert (Hgo : forall e evs,
             auth env s = (Raise e, stuck s evs) -> filter is_network evs = [] ->
             exists e evs,
               auth env s = (Raise e, stuck s evs)
               /\ filter is_network evs = []
               /\ auth_in_progress (client (stuck s evs)) = true
               /\ (forall s',
                      auth_in_progress (client s') = true ->
                      forall n, calls n (auth env) s'
                                = (repeat (Ok (PyBool false)) n, s'))
               /\ kept_by_the_client env flag_set).
  { intros e evs H Hn. exists e, evs.
    split; [exact H|]. split; [exact Hn|]. split; [reflexivity|].
    split; [|apply flag_kept_by_the_client].
    intros s' Hs' n. now apply calls_auth_guard. }
  destruct (String.eqb_spec (email (client s)) "") as [He|He].
  { eapply Hgo; [apply auth_missing_credentials; auto | reflexivity]. }
  destruct (String.eqb_spec (password (client s)) "") as [Hp|Hp].
  { eapply Hgo; [apply auth_missing_credentials; auto | reflexivity]. }
  destruct Hcause as [H | [H | [H | (key & e & Hk & Hx)]]]; try contradiction.
  - eapply Hgo; [apply auth_missing_key; auto | reflexivity].
  - eapply Hgo; [eapply auth_encryption_fails; eauto | reflexivity].
Qed.

(** C4, as amended.  A call of [auth] with an empty email or an empty
    password, made while the in-progress flag is clear, raises
    [AuthenticationError] and adds no event at all to the trace, so it
    makes no network request; made while the flag is set, the call
    returns [False] instead, again without any event. *)
Theorem auth_without_credentials :
  forall (env : Env) (s : State),
    email (client s) = "" \/ password (client s) = "" ->
    (auth_in_progress (client s) = false ->
     exists e s',
       auth env s = (Raise e, s')
       /\ exn_cls e = AuthenticationError
       /\ trace s' = trace s)
    /\
    (auth_in_progress (client s) = true ->
     auth env s = (Ok (PyBool false), s)).
Proof.
  intros env s Hc. split; intros Hf.
  - exists missing_credentials, (stuck s []).
    split; [now apply auth_missing_credentials|].
    split; [reflexivity|]. cbn. apply app_nil_r.
  - now apply auth_guard.
Qed.

(** ** The credential encryptor *)

(** C7, as amended.  When importing the key or encrypting raises,
    [encrypt_password] logs the error and raises that same exception again
    (the module has no [EncryptionError]); [auth] is then aborted by that
    exception before any network operation.  When [encrypt_password]
    returns, what it returns is the base64 text of a ciphertext the cipher
    produced. *)
Theorem encrypt_password_reraises :
  forall (env : Env) (key pw : string) (s : State),
    (forall e,
        encryption_fails env key pw e ->
        encrypt_password env key pw s =
        (Raise e, after s [EvLog ERROR ("Encryption error: " ++ exn_msg e)]))
    /\
    (forall text s',
        encrypt_password env key pw s = (Ok text, s') ->
        exists rsa_key bytes,
          RSA_importKey env key = inr rsa_key
          /\ PKCS1_v1_5_encrypt env rsa_key pw = inr bytes
          /\ text = b64encode env bytes)
    /\
    (forall e,
        encryption_fails env key pw e ->
        auth_in_progress (client s) = false ->
        email (client s) <> "" -> password (client s) = pw ->
        pw <> "" -> public_key (client s) = Some key ->
        exists evs,
          auth env s = (Raise e, stuck s evs) /\ filter is_network evs = []).
Proof.
  intros env key pw s. split; [|split].
  - intros e H. now apply encrypt_password_fails.
  - intros text s' H. unfold encrypt_password in H. revert H. run.
    destruct (RSA_importKey env key) as [e|rsa_key]; run; [discriminate|].
    destruct (PKCS1_v1_5_encrypt env rsa_key pw) as [e|bytes] eqn:E; run;
      [discriminate|].
    intros H. inversion H; subst. now exists rsa_key, bytes.
  - intros e Hx Hf He Hpw Hp Hk. subst pw.
    eexists. split; [eapply auth_encryption_fails; eauto | reflexivity].
Qed.

(** ** A successful sign-in *)

Lemma dict_get_set (d : pydict) (k k' : string) (v : pyval) :
  dict_get (dict_set d k v) k' =
  if (k =? k')%string then Some v else dict_get d k'.
Proof.
  induction d as [|[k0 v0] d IH]; cbn.
  - reflexivity.
  - destruct (String.eqb_spec k0 k) as [->|Hk]; cbn.
    + destruct (String.eqb_spec k k'); reflexivity.
    + rewrite IH. destruct (String.eqb_spec k0 k') as [->|Hk'].
      * destruct (String.eqb_spec k k'); congruence.
      * reflexivity.
Qed.

Lemma check_proxy_ok (env : Env) (s : State) :
  (forall past, httpbin_get env past = inr 200) ->
  (forall url, ProxyConnector_from_url env url = None) ->
  check_proxy env s = (Ok true, after s (probe_events (client s))).
Proof.
  intros Hp Hc. unfold check_proxy, after, probe_events. run.
  destruct (proxy_url (client s)) as [p|]; run.
  - rewrite Hc. run. rewrite Hp. run. now rewrite <- !app_assoc.
  - rewrite Hp. run. now rewrite <- !app_assoc.
Qed.

Lemma make_connector_ok (env : Env) (s : State) :
  (forall url, ProxyConnector_from_url env url = None) ->
  make_connector env s = (Ok tt, s).
Proof.
  intros Hc. unfold make_connector. run.
  destruct (proxy_url (client s)); [now rewrite Hc | reflexivity].
Qed.

Lemma http_ok (env : Env) (method url : string) (body v : pyval) (s : State) :
  session_request env (trace s) method url body = inr v ->
  http env method url body s = (Ok v, after s [EvRequest method url body]).
Proof. intros H. unfold http. run. now rewrite H. Qed.

Lemma auth_try_ok (env : Env) (login : pydict) (key data : pyval) (s : State) :
  cooperative env login key ->
  auth_try env data s
  = (Ok (Some (PyBool true)),
     mkState (signing_in login key (client s))
       (trace s ++ sign_in_events (client s) data)).
Proof.
  intros [Hp Hc Hl (Hsc & Hsm & Hk & Hd)].
  unfold auth_try.
  step.
  step_by (apply check_proxy_ok; assumption).
  cbn [negb when]. step.
  step_by (apply make_connector_ok; assumption).
  step_by (apply http_ok; apply Hl).
  cbn [is_None when]. step. cbn [as_dict]. step.
  unfold dict_get_default, dict_has. rewrite Hsc, Hsm, Hk, Hd.
  change (eq_str (PyStr "20000") "50000") with false.
  change (eq_str (PyStr "20000") "500") with false.
  change (eq_str (PyStr "20000") "20000") with true.
  change (eq_str (PyStr "ok") "ok") with true.
  cbn [andb negb when]. do 3 step.
  do 3 step.
  unfold subscript. rewrite dict_get_set.
  change ("device_binds_ary" =? "terminal_user_session_key")%string with false.
  rewrite Hk. do 3 step.
  unfold signing_in, sign_in_events. cbv zeta.
  rewrite <- app_assoc.
  match goal with
  | |- context [is_None ?u] => destruct (is_None u)
  end; cbn [when]; step; reflexivity.
Qed.

Lemma auth_succeeds (env : Env) (login : pydict) (key : pyval) (s : State)
    (pem rsa_key bytes : string) :
  cooperative env login key ->
  auth_in_progress (client s) = false ->
  email (client s) <> "" -> password (client s) <> "" ->
  public_key (client s) = Some pem ->
  RSA_importKey env pem = inr rsa_key ->
  PKCS1_v1_5_encrypt env rsa_key (password (client s)) = inr bytes ->
  auth env s
  = (Ok (PyBool true),
     mkState (signed_in login key (client s))
       (trace s ++ sign_in_events (client s)
                     (credentials env (client s) bytes))).
Proof.
  intros Hco Hf He Hp Hk Hi Hx.
  unfold auth. step. rewrite Hf. step.
  apply String.eqb_neq in He, Hp. rewrite He, Hp. cbn [orb when]. step.
  cbn [public_key set_auth_in_progress]. rewrite Hk.
  step_by (eapply encrypt_password_succeeds; eassumption).
  cbn [auth_for seq].
  step_by (unfold auth_attempt, try_finally, try_except;
           rewrite (auth_try_ok env login key _ _ Hco); reflexivity).
  reflexivity.
Qed.

Lemma signed_in_fields (login : pydict) (key : pyval) (c : RenphoWeight) :
  token (signed_in login key c) = key
  /\ auth_in_progress (signed_in login key c) = false
  /\ email (signed_in login key c) = email c
  /\ password (signed_in login key c) = password c
  /\ public_key (signed_in login key c) = public_key c
  /\ proxy (signed_in login key c) = proxy c
  /\ user_id (signed_in login key c)
     = (if is_None (user_id c)
        then obj_get (dict_set login "device_binds_ary" (PyList [])) "id"
        else user_id c).
Proof.
  unfold signed_in, signing_in. cbv zeta. cbn [user_id set_token set_login_data
    set_auth_in_progress].
  destruct (is_None (user_id c)); cbn; repeat split; reflexivity.
Qed.

Lemma ready_signed_in (env : Env) (bytes : string) (login : pydict) (key : pyval)
    (c : RenphoWeight) :
  ready env bytes c -> ready env bytes (signed_in login key c).
Proof.
  intros [Hf He Hp Hk].
  destruct (signed_in_fields login key c) as (_ & Hf' & He' & Hp' & Hk' & _).
  constructor; rewrite ?He', ?Hp', ?Hk'; assumption.
Qed.

Lemma auth_ready (env : Env) (login : pydict) (key : pyval) (bytes : string)
    (s : State) :
  cooperative env login key -> ready env bytes (client s) ->
  auth env s = (Ok (PyBool true), signed env login key bytes s).
Proof.
  intros Hco [Hf He Hp (pem & rsa_key & Hk & Hi & Hx)].
  now apply (auth_succeeds env login key s pem rsa_key bytes).
Qed.

Lemma auth_or_raise_ready (env : Env) (login : pydict) (key : pyval)
    (bytes : string) (s : State) :
  cooperative env login key -> ready env bytes (client s) ->
  auth_or_raise env s = (Ok tt, signed env login key bytes s).
Proof.
  intros Hco Hr. unfold auth_or_raise.
  step_by (apply (auth_ready env login key bytes); assumption).
  reflexivity.
Qed.

(** C5.  When the vendor answers the sign-in with the payload
    [{status_code: "20000", status_message: "ok",
      terminal_user_session_key: "abc", id: 42}] and the client has no
    user id, [auth] returns [True], the token is ["abc"] and the user id
    is [42]. *)
Theorem auth_adopts_token_and_user_id :
  forall (env : Env) (s : State) (bytes : string),
    (forall past, httpbin_get env past = inr 200) ->
    (forall url, ProxyConnector_from_url env url = None) ->
    (forall past body,
        session_request env past "POST" API_AUTH_URL body
        = inr (PyDict scenario_login)) ->
    ready env bytes (client s) ->
    user_id (client s) = PyNone ->
    exists s',
      auth env s = (Ok (PyBool true), s')
      /\ token (client s') = PyStr "abc"
      /\ user_id (client s') = PyNum 42.
Proof.
  intros env s bytes Hp Hc Hl Hr Hu.
  assert (Hco : cooperative env scenario_login (PyStr "abc")).
  { constructor; auto. repeat split. }
  exists (signed env scenario_login (PyStr "abc") bytes s).
  split; [now apply auth_ready|].
  destruct (signed_in_fields scenario_login (PyStr "abc") (client s))
    as (Ht & _ & _ & _ & _ & _ & Hid).
  cbn [client signed]. split; [exact Ht|].
  rewrite Hid, Hu. reflexivity.
Qed.

(** ** The retry loop of [_request] *)

Lemma count_app (p : event -> bool) (a b : list event) :
  count p (a ++ b) = (count p a + count p b)%nat.
Proof. unfold count. now rewrite filter_app, length_app. Qed.

Lemma count_signed (env : Env) (login : pydict) (key : pyval) (bytes url : string)
    (s : State) :
  sign_ins (signed env login key bytes s) = S (sign_ins s)
  /\ fetches url (signed env login key bytes s) = fetches url s.
Proof.
  unfold sign_ins, fetches, signed. cbn [trace]. rewrite !count_app.
  change (count is_sign_in (sign_in_events _ _)) with 1%nat.
  change (count (is_fetch url) (sign_in_events _ _)) with 0%nat.
  lia.
Qed.

Lemma count_fetch_event (url : string) (body : pyval) (s : State) :
  fetches url (after s [EvRequest "GET" url body]) = S (fetches url s)
  /\ sign_ins (after s [EvRequest "GET" url body]) = sign_ins s.
Proof.
  unfold sign_ins, fetches, after. cbn [trace]. rewrite !count_app.
  assert (E1 : count (is_fetch url) [EvRequest "GET" url body] = 1%nat).
  { unfold count. cbn [filter is_fetch].
    change ("GET" =? "GET")%string with true.
    now rewrite String.eqb_refl. }
  assert (E2 : count is_sign_in [EvRequest "GET" url body] = 0%nat)
    by reflexivity.
  rewrite E1, E2. lia.
Qed.

Section Loop.

Variables (env : Env) (login : pydict) (key : pyval) (bytes url : string).
Hypothesis Hco : cooperative env login key.

Local Abbreviation authed := (before_request env login key bytes url).

Lemma request_try_expired (kwargs : pyval) (s : State) (d : pydict) :
  ready env bytes (client s) ->
  expired d ->
  session_request env (trace s) "GET" url kwargs = inr (PyDict d) ->
  request_try env "GET" url kwargs s
  = (Ok Continue,
     signed env login key bytes (after s [EvRequest "GET" url kwargs])).
Proof.
  intros Hr Hd Hnet. unfold request_try, try_except.
  erewrite bind_ok by (apply http_ok; exact Hnet). cbv beta.
  cbn [as_dict]. step.
  unfold dict_get_default. rewrite Hd.
  change (eq_str (PyStr "40302") "40302") with true. cbv iota.
  step_by (apply (auth_or_raise_ready env login key bytes);
           [exact Hco | exact Hr]).
  reflexivity.
Qed.

Lemma request_try_success (kwargs : pyval) (s : State) (d : pydict) :
  success d ->
  session_request env (trace s) "GET" url kwargs = inr (PyDict d) ->
  request_try env "GET" url kwargs s
  = (Ok (Return d), after s [EvRequest "GET" url kwargs]).
Proof.
  intros [Hsc Hsm] Hnet. unfold request_try, try_except.
  erewrite bind_ok by (apply http_ok; exact Hnet). cbv beta.
  cbn [as_dict]. step.
  unfold dict_get_default. rewrite Hsc, Hsm.
  reflexivity.
Qed.

Lemma when_must_auth (skip_auth : bool) (s : State) :
  ready env bytes (client s) ->
  when (must_auth (client s) url skip_auth) (auth_or_raise env) s
  = (Ok tt, authed skip_auth s)
  /\ ready env bytes (client (authed skip_auth s))
  /\ fetches url (authed skip_auth s) = fetches url s
  /\ sign_ins (authed skip_auth s)
     = (Nat.b2n (must_auth (client s) url skip_auth) + sign_ins s)%nat.
Proof.
  intros Hr. unfold before_request.
  destruct (must_auth (client s) url skip_auth); cbn [when Nat.b2n].
  - split; [now apply auth_or_raise_ready|].
    split; [now apply ready_signed_in|].
    destruct (count_signed env login key bytes url s) as [H1 H2]. lia.
  - auto.
Qed.

(** One iteration that meets an expired session: sign in again, and go
    round the loop with one attempt less and [skip_auth] cleared. *)
Lemma request_while_expired (r : nat) (skip_auth : bool) (kwargs : pyval)
    (s : State) (d : pydict) :
  ready env bytes (client s) ->
  expired d ->
  session_request env (trace (authed skip_auth s)) "GET" url (prepare_data kwargs)
  = inr (PyDict d) ->
  exists s1,
    request_while env (S r) "GET" url skip_auth kwargs s
    = request_while env r "GET" url false (prepare_data kwargs) s1
    /\ ready env bytes (client s1)
    /\ fetches url s1 = S (fetches url s)
    /\ sign_ins s1
       = (Nat.b2n (must_auth (client s) url skip_auth) + 1 + sign_ins s)%nat.
Proof.
  intros Hr Hd Hnet.
  destruct (when_must_auth skip_auth s Hr) as (Hw & Hr0 & Hf0 & Hs0).
  set (s0 := authed skip_auth s) in *.
  set (s1 := after s0 [EvRequest "GET" url (prepare_data kwargs)]).
  exists (signed env login key bytes s1).
  destruct (count_fetch_event url (prepare_data kwargs) s0) as [Hf1 Hs1].
  destruct (count_signed env login key bytes url s1) as [Hs2 Hf2].
  split; [|split; [|split]].
  - cbn [request_while].
    step_by (apply make_connector_ok; apply Hco).
    step. step_by (exact Hw).
    step_by (apply (request_try_expired _ _ d);
             [exact Hr0 | exact Hd | exact Hnet]).
    reflexivity.
  - apply ready_signed_in. exact Hr0.
  - rewrite Hf2. fold s1 in Hf1. lia.
  - rewrite Hs2. fold s1 in Hs1. lia.
Qed.

(** One iteration that meets success returns the parsed answer. *)
Lemma request_while_success (r : nat) (skip_auth : bool) (kwargs : pyval)
    (s : State) (d : pydict) :
  ready env bytes (client s) ->
  success d ->
  session_request env (trace (authed skip_auth s)) "GET" url (prepare_data kwargs)
  = inr (PyDict d) ->
  exists s1,
    request_while env (S r) "GET" url skip_auth kwargs s = (Ok (Some d), s1)
    /\ fetches url s1 = S (fetches url s)
    /\ sign_ins s1
       = (Nat.b2n (must_auth (client s) url skip_auth) + sign_ins s)%nat.
Proof.
  intros Hr Hd Hnet.
  destruct (when_must_auth skip_auth s Hr) as (Hw & Hr0 & Hf0 & Hs0).
  set (s0 := authed skip_auth s) in *.
  exists (after s0 [EvRequest "GET" url (prepare_data kwargs)]).
  destruct (count_fetch_event url (prepare_data kwargs) s0) as [Hf1 Hs1].
  split; [|split].
  - cbn [request_while].
    step_by (apply make_connector_ok; apply Hco).
    step. step_by (exact Hw).
    step_by (apply (request_try_success _ _ d); [exact Hd | exact Hnet]).
    reflexivity.
  - lia.
  - lia.
Qed.

(** [k] expired answers and then a success, with [k] below the budget. *)
Lemma request_while_retries (ok : pydict) (k : nat) :
  success ok ->
  forall (r : nat) (skip_auth : bool) (kwargs : pyval) (s : State),
    (k < r)%nat ->
    ready env bytes (client s) ->
    (forall past body,
        (count (is_fetch url) past < fetches url s + k)%nat ->
        exists d, session_request env past "GET" url body = inr (PyDict d)
                  /\ expired d) ->
    (forall past body,
        count (is_fetch url) past = (fetches url s + k)%nat ->
        session_request env past "GET" url body = inr (PyDict ok)) ->
    exists s',
      request_while env r "GET" url skip_auth kwargs s = (Ok (Some ok), s')
      /\ fetches url s' = (fetches url s + k + 1)%nat
      /\ sign_ins s'
         = (sign_ins s + Nat.b2n (must_auth (client s) url skip_auth) + 2 * k)%nat.
Proof.
  intros Hok. induction k as [|k IH]; intros r skip_auth kwargs s Hlt Hr Hexp Hans.
  - destruct r as [|r]; [lia|].
    destruct (when_must_auth skip_auth s Hr) as (_ & _ & Hf0 & _).
    destruct (request_while_success r skip_auth kwargs s ok Hr Hok)
      as (s1 & H1 & Hf1 & Hs1).
    { apply Hans. fold (fetches url (authed skip_auth s)). lia. }
    exists s1. split; [exact H1|]. lia.
  - destruct r as [|r]; [lia|].
    destruct (when_must_auth skip_auth s Hr) as (_ & _ & Hf0 & _).
    destruct (Hexp (trace (authed skip_auth s)) (prepare_data kwargs))
      as (d & Hd & Hx).
    { fold (fetches url (authed skip_auth s)). lia. }
    destruct (request_while_expired r skip_auth kwargs s d Hr Hx Hd)
      as (s1 & H1 & Hr1 & Hf1 & Hs1).
    destruct (IH r false (prepare_data kwargs) s1) as (s' & H' & Hf' & Hs').
    + lia.
    + exact Hr1.
    + intros past body Hc. apply Hexp. lia.
    + intros past body Hc. apply Hans. lia.
    + exists s'. split; [now rewrite H1|].
      assert (Hm : must_auth (client s1) url false = true)
        by (unfold must_auth; apply orb_true_r).
      rewrite Hm in Hs'. cbn [Nat.b2n] in Hs'. lia.
Qed.

(** Only expired answers: the loop runs out of attempts and returns
    [None]. *)
Lemma request_while_exhausted :
  forall (r : nat) (skip_auth : bool) (kwargs : pyval) (s : State),
    ready env bytes (client s) ->
    (forall past body,
        exists d, session_request env past "GET" url body = inr (PyDict d)
                  /\ expired d) ->
    exists s',
      request_while env r "GET" url skip_auth kwargs s = (Ok None, s')
      /\ fetches url s' = (fetches url s + r)%nat
      /\ sign_ins s'
         = (sign_ins s
            + match r with
              | O => 0
              | S r' => Nat.b2n (must_auth (client s) url skip_auth) + 1 + 2 * r'
              end)%nat.
Proof.
  induction r as [|r IH]; intros skip_auth kwargs s Hr Hexp.
  - exists s. cbn [request_while]. repeat split; lia.
  - destruct (Hexp (trace (authed skip_auth s)) (prepare_data kwargs))
      as (d & Hd & Hx).
    destruct (request_while_expired r skip_auth kwargs s d Hr Hx Hd)
      as (s1 & H1 & Hr1 & Hf1 & Hs1).
    destruct (IH false (prepare_data kwargs) s1 Hr1 Hexp) as (s' & H' & Hf' & Hs').
    exists s'. split; [now rewrite H1|]. split; [lia|].
    rewrite Hs'. destruct r as [|r']; [lia|].
    assert (Hm : must_auth (client s1) url false = true)
      by (unfold must_auth; apply orb_true_r).
    rewrite Hm. cbn [Nat.b2n]. lia.
Qed.

End Loop.

Lemma request_unfold (env : Env) (login : pydict) (key : pyval)
    (url : string) (retries : Z) (skip_auth : bool) (kwargs : pyval) (s : State) :
  cooperative env login key ->
  _request env "GET" url retries skip_auth kwargs s
  = request_while env (Z.to_nat retries) "GET" url skip_auth kwargs
      (after s (probe_events (client s))).
Proof.
  intros Hco. unfold _request.
  step_by (apply check_proxy_ok; apply Hco).
  cbn [negb when]. step. reflexivity.
Qed.

Lemma count_probed (url : string) (s : State) :
  fetches url (after s (probe_events (client s))) = fetches url s
  /\ sign_ins (after s (probe_events (client s))) = sign_ins s.
Proof.
  unfold fetches, sign_ins, after. cbn [trace]. rewrite !count_app.
  change (count (is_fetch url) (probe_events _)) with 0%nat.
  change (count is_sign_in (probe_events _)) with 0%nat.
  lia.
Qed.

(** C3, as amended.  In a world where signing in works, take a request of
    a client that holds a token, made with [skip_auth=True] as every
    fetcher makes it.  Each answer with the session-expired code makes the
    client sign in at once and costs one attempt of the budget; when an
    attempt is left the client signs in a second time, [skip_auth] having
    been cleared, and then sends the request again.  So [k] expired
    answers followed by a success, [k] below the budget, make [k + 1]
    requests and [2 * k] sign-ins and return the answer; and expired
    answers only make as many requests as the budget, sign in once after
    each and once more before every retry, and return [None]. *)
Theorem expired_session_signs_in_around_each_retry :
  forall (env : Env) (login : pydict) (key : pyval) (bytes url : string)
         (retries : Z) (kwargs : pyval) (s : State),
    cooperative env login key ->
    ready env bytes (client s) ->
    must_auth (client s) url true = false ->
    (forall (k : nat) (ok : pydict),
        (k < Z.to_nat retries)%nat ->
        success ok ->
        (forall past body,
            (count (is_fetch url) past < fetches url s + k)%nat ->
            exists d, session_request env past "GET" url body = inr (PyDict d)
                      /\ expired d) ->
        (forall past body,
            count (is_fetch url) past = (fetches url s + k)%nat ->
            session_request env past "GET" url body = inr (PyDict ok)) ->
        exists s',
          _request env "GET" url retries true kwargs s = (Ok (Some ok), s')
          /\ fetches url s' = (fetches url s + (k + 1))%nat
          /\ sign_ins s' = (sign_ins s + 2 * k)%nat)
    /\
    ((0 < Z.to_nat retries)%nat ->
     (forall past body,
         exists d, session_request env past "GET" url body = inr (PyDict d)
                   /\ expired d) ->
     exists s',
       _request env "GET" url retries true kwargs s = (Ok None, s')
       /\ fetches url s' = (fetches url s + Z.to_nat retries)%nat
       /\ sign_ins s' = (sign_ins s + (2 * Z.to_nat retries - 1))%nat).
Proof.
  intros env login key bytes url retries kwargs s Hco Hr Hm.
  rewrite (request_unfold env login key url retries true kwargs s Hco).
  destruct (count_probed url s) as [Hf Hs].
  set (s0 := after s (probe_events (client s))) in *.
  assert (Hr0 : ready env bytes (client s0)) by exact Hr.
  assert (Hm0 : must_auth (client s0) url true = false) by exact Hm.
  split.
  - intros k ok Hk Hok Hexp Hans.
    destruct (request_while_retries env login key bytes url Hco ok k Hok
                (Z.to_nat retries) true kwargs s0 Hk Hr0)
      as (s' & H & Hf' & Hs').
    + intros past body Hc. apply Hexp. lia.
    + intros past body Hc. apply Hans. lia.
    + exists s'. split; [exact H|]. rewrite Hm0 in Hs'. cbn [Nat.b2n] in Hs'.
      lia.
  - intros Hpos Hexp.
    destruct (request_while_exhausted env login key bytes url Hco
                (Z.to_nat retries) true kwargs s0 Hr0 Hexp)
      as (s' & H & Hf' & Hs').
    exists s'. split; [exact H|]. split; [lia|].
    rewrite Hs'. destruct (Z.to_nat retries) as [|r']; [lia|].
    rewrite Hm0. cbn [Nat.b2n]. lia.
Qed.

(** C10.  In a world where signing in works, when every answer to the
    request carries the session-expired code, [_request] sends as many
    requests as its budget allows and then returns [None]: it raises
    neither [APIError] nor [AuthenticationError]. *)
Theorem request_returns_None_when_budget_exhausted :
  forall (env : Env) (login : pydict) (key : pyval) (bytes url : string)
         (retries : Z) (skip_auth : bool) (kwargs : pyval) (s : State),
    cooperative env login key ->
    ready env bytes (client s) ->
    (forall past body,
        exists d, session_request env past "GET" url body = inr (PyDict d)
                  /\ expired d) ->
    exists s',
      _request env "GET" url retries skip_auth kwargs s = (Ok None, s')
      /\ fetches url s' = (fetches url s + Z.to_nat retries)%nat.
Proof.
  intros env login key bytes url retries skip_auth kwargs s Hco Hr Hexp.
  rewrite (request_unfold env login key url retries skip_auth kwargs s Hco).
  destruct (count_probed url s) as [Hf Hs].
  destruct (request_while_exhausted env login key bytes url Hco
              (Z.to_nat retries) skip_auth kwargs
              (after s (probe_events (client s))) Hr Hexp)
    as (s' & H & Hf' & _).
  exists s'. split; [exact H|]. lia.
Qed.

(** ** The fetchers *)

Lemma try_except_total {A : Type} (m : M A) (h : exn -> M A) (s : State) :
  (forall e s1, exists v s', h e s1 = (Ok v, s')) ->
  exists v s', try_except m is_Exception h s = (Ok v, s').
Proof.
  intros Hh. unfold try_except.
  destruct (m s) as [[v|e] s1]; [now exists v, s1|].
  cbn [is_Exception]. apply Hh.
Qed.

Lemma status_not_20000 (d : pydict) :
  status_20000 d = false ->
  eq_str (dict_get_default d "status_code") "20000" = false.
Proof.
  unfold status_20000, dict_has, dict_get_default.
  destruct (dict_get d "status_code"); cbn; auto.
Qed.

(** The proof is the same for every fetcher: the handler of [Exception]
    makes it total, and each way of getting no usable body leads to one
    error record and [None]. *)
Ltac quiet fetcher :=
  let E := fresh "E" in
  let Hd := fresh "Hd" in
  let d := fresh "d" in
  let kv := fresh "kv" in
  let e := fresh "e" in
  let s1 := fresh "s" in
  unfold fails_quietly, fetcher; split;
  [ step; cbv zeta; apply try_except_total;
    intros ? ?; eexists; eexists; reflexivity
  | step; cbv zeta; unfold try_except;
    match goal with
    | |- context [fetch ?env ?url ?s] =>
        destruct (fetch env url s) as [[[d|]|e] s1] eqn:E
    end;
    [ intros Hd; erewrite bind_ok by exact E; cbv beta;
      destruct d as [|kv d]; [eexists; reflexivity|];
      destruct Hd as [Hd|Hd]; [discriminate|];
      cbn [no_body body_of];
      rewrite ?Hd, ?(status_not_20000 _ Hd); cbn [andb];
      try destruct (negb (dict_has (kv :: d) "status_code"));
      eexists; reflexivity
    | erewrite bind_ok by exact E; eexists; reflexivity
    | erewrite bind_raise by exact E; eexists; reflexivity ] ].

Lemma get_measurements_quiet (env : Env) (s : State) :
  fails_quietly env (get_measurements env)
    (fetch_url env API_MEASUREMENTS_URL "last_at" (client s)) s.
Proof. quiet get_measurements. Qed.

Lemma get_device_info_quiet (env : Env) (s : State) :
  fails_quietly env (get_device_info env)
    (fetch_url env DEVICE_INFO_URL "last_updated_at" (client s)) s.
Proof. quiet get_device_info. Qed.

Lemma list_girth_quiet (env : Env) (s : State) :
  fails_quietly env (list_girth env)
    (fetch_url env GIRTH_URL "last_updated_at" (client s)) s.
Proof. quiet list_girth. Qed.

Lemma list_girth_goal_quiet (env : Env) (s : State) :
  fails_quietly env (list_girth_goal env)
    (fetch_url env GIRTH_GOAL_URL "last_updated_at" (client s)) s.
Proof. quiet list_girth_goal. Qed.

Lemma list_growth_record_quiet (env : Env) (s : State) :
  fails_quietly env (list_growth_record env)
    (fetch_url env GROWTH_RECORD_URL "last_updated_at" (client s)) s.
Proof. quiet list_growth_record. Qed.

Lemma message_list_quiet (env : Env) (s : State) :
  fails_quietly env (message_list env)
    (fetch_url env MESSAGE_LIST_URL "last_updated_at" (client s)) s.
Proof. quiet message_list. Qed.

(** C6.  Each of the six fetchers (weight measurements, device info,
    girth, girth goal, growth record, messages) always returns and never
    raises; when its request raises any exception, returns no body, or
    returns a body without the success status, the fetcher logs an error
    and returns [None]. *)
Theorem fetchers_fail_quietly :
  forall (env : Env) (s : State),
    fails_quietly env (get_measurements env)
      (fetch_url env API_MEASUREMENTS_URL "last_at" (client s)) s
    /\ fails_quietly env (get_device_info env)
         (fetch_url env DEVICE_INFO_URL "last_updated_at" (client s)) s
    /\ fails_quietly env (list_girth env)
         (fetch_url env GIRTH_URL "last_updated_at" (client s)) s
    /\ fails_quietly env (list_girth_goal env)
         (fetch_url env GIRTH_GOAL_URL "last_updated_at" (client s)) s
    /\ fails_quietly env (list_growth_record env)
         (fetch_url env GROWTH_RECORD_URL "last_updated_at" (client s)) s
    /\ fails_quietly env (message_list env)
         (fetch_url env MESSAGE_LIST_URL "last_updated_at" (client s)) s.
Proof.
  intros env s.
  pose proof (get_measurements_quiet env s).
  pose proof (get_device_info_quiet env s).
  pose proof (list_girth_quiet env s).
  pose proof (list_girth_goal_quiet env s).
  pose proof (list_growth_record_quiet env s).
  pose proof (message_list_quiet env s).
  repeat (split; [assumption|]). assumption.
Qed.

(** ** The polling loop *)

Lemma poll_data_keeps_polling (env : Env) : keeps polling_unset (poll_data env).
Proof.
  apply poll_data_keeps.
  apply (auth_keeps env (fun active _ interval => interval = None /\ active = true)).
Qed.

Lemma poll_data_total (env : Env) (s : State) :
  exists s', poll_data env s = (Ok tt, s').
Proof.
  unfold poll_data.
  destruct (try_except_total
              (info <- get_info env;;
               girths <- list_girth env;;
               goals <- list_girth_goal env;;
               gather_results info girths goals;;
               log INFO "Data fetched successfully.")
              (fun e => log ERROR ("Error fetching data: " ++ exn_msg e)) s)
    as ([] & s' & H).
  - intros e s1. eexists; eexists; reflexivity.
  - now exists s'.
Qed.

(** C2.  What the code does instead of what the claim says: on every
    client built by [__init__] and started, [polling_loop] runs one
    [poll_data] and then stops.  Reading [self.refresh_interval], which no
    method ever assigns, raises [AttributeError]; the handler, which wraps
    the whole loop, logs it and the loop exits without having slept and
    without a second cycle, while [is_polling_active] stays [True]. *)
Theorem polling_loop_stops_after_first_cycle :
  forall (env : Env) (email password : string) (user_id : pyval) (refresh : Z)
         (proxy : option string) (past : list event) (fuel : nat),
  exists s1 msg,
    poll_data env (started email password user_id refresh proxy past)
    = (Ok tt, s1)
    /\ is_polling_active (client s1) = true
    /\ polling_loop env (S fuel) (started email password user_id refresh proxy past)
       = (Ok (Some tt),
          after s1 [EvLog ERROR ("Unexpected error in polling loop: " ++ msg);
                    EvLog INFO "Polling loop exited."]).
Proof.
  intros env email password user_id refresh proxy past fuel.
  set (s := started email password user_id refresh proxy past).
  destruct (poll_data_total env s) as (s1 & H1).
  assert (Hs : polling_unset (client s)) by (split; reflexivity).
  destruct (poll_data_keeps_polling env s (Ok tt) s1 H1 Hs) as [Hri Hact].
  assert (Hw : polling_while env (S fuel) s
               = (Raise (Exn (PyException "AttributeError")
                           ("'RenphoWeight' object has no attribute '"
                            ++ "refresh_interval" ++ "'")), s1)).
  { cbn [polling_while]. step.
    change (is_polling_active (client s)) with true. cbv iota.
    step_by (exact H1). step. rewrite Hri. reflexivity. }
  exists s1, "'RenphoWeight' object has no attribute 'refresh_interval'".
  split; [exact H1|]. split; [exact Hact|].
  unfold polling_loop, try_except, bind at 1. rewrite Hw.
  unfold after. run. now rewrite <- app_assoc.
Qed.

(** ** Worked examples *)

Lemma vendor_cooperative (n : nat) :
  cooperative (Demo.world Demo.reachable (Scenarios.vendor n))
    scenario_login (PyStr "abc").
Proof. constructor; try reflexivity. repeat split. Defined.

Lemma forgetful_cooperative :
  cooperative (Demo.world Demo.reachable Scenarios.forgetful)
    scenario_login (PyStr "abc").
Proof. constructor; try reflexivity. repeat split. Defined.

Lemma client_ready (probe : list event -> exn + Z)
    (answers : list event -> string -> string -> pyval -> exn + pyval)
    (tok : pyval) (past : list event) :
  ready (Demo.world probe answers) "rsa:secret"
    (client (mkState (set_token tok (__init__ "a@b.c" "secret" PyNone 60 None))
               past)).
Proof.
  constructor; try reflexivity; try discriminate.
  exists CONF_PUBLIC_KEY, CONF_PUBLIC_KEY. repeat split.
Defined.

(** C1, on the scenario: the cache holds a waist of 80 at time 100 and a
    waist of 0 at time 200, and the metric is 80. *)
Lemma girth_metric_scenario :
  (exists v s',
      get_specific_metric Examples.offline METRIC_TYPE_GIRTH "waist" PyNone
        Scenarios.with_girths = (Ok v, s')
      /\ trace s' = trace Scenarios.with_girths
      /\ ((v = PyNone
           /\ forall g w, In g scenario_girths -> ~ has_reading "waist" g w)
          \/
          (exists g, In g scenario_girths /\ has_reading "waist" g v
                     /\ forall g' w, In g' scenario_girths ->
                                     has_reading "waist" g' w ->
                                     girth_time_stamp g' <= girth_time_stamp g)))
  /\ fst (get_specific_metric Examples.offline METRIC_TYPE_GIRTH "waist" PyNone
            Scenarios.with_girths) = Ok (PyNum 80).
Proof.
  split.
  - exact (proj1 girth_metric_is_latest_nonzero_reading Examples.offline "waist"
             PyNone Scenarios.with_girths scenario_girths 0%Q eq_refl eq_refl).
  - exact (proj2 girth_metric_is_latest_nonzero_reading Examples.offline
             Scenarios.with_girths 0%Q eq_refl eq_refl).
Defined.

(** The same scenario from a client without a cache: the metric accessor
    signs in, fetches the two entries and returns 80. *)
Example girth_metric_after_fetch :
  fst (get_specific_metric (Demo.world Demo.reachable Scenarios.measuring)
         METRIC_TYPE_GIRTH "waist" PyNone (Demo.fresh "a@b.c" "secret"))
  = Ok (PyNum 80)
  /\ girth_info
       (client
          (snd (get_specific_metric (Demo.world Demo.reachable Scenarios.measuring)
                  METRIC_TYPE_GIRTH "waist" PyNone (Demo.fresh "a@b.c" "secret"))))
     = Some [mkGirth 100 [("time_stamp", PyNum 100); ("waist_value", PyNum 80)];
             mkGirth 200 [("time_stamp", PyNum 200); ("waist_value", PyNum 0)]].
Proof. split; vm_compute; reflexivity. Qed.

(** C8, on a fresh client (idle) and on a started one (active). *)
Lemma polling_guards_example :
  stop_polling (Demo.fresh "a@b.c" "secret")
  = (Ok tt, after (Demo.fresh "a@b.c" "secret")
              [EvLog WARNING "Polling is not active."])
  /\ start_polling (started "a@b.c" "secret" PyNone 60 None [])
     = (Ok tt, after (started "a@b.c" "secret" PyNone 60 None [])
                 [EvLog WARNING "Polling is already active."]).
Proof.
  split.
  - exact (proj1 (polling_guards_leave_state_unchanged
                    (Demo.fresh "a@b.c" "secret")) eq_refl).
  - exact (proj2 (polling_guards_leave_state_unchanged
                    (started "a@b.c" "secret" PyNone 60 None [])) eq_refl).
Defined.

(** C9, on a fresh client without an email. *)
Lemma auth_raise_sticks_example :
  exists e evs,
    auth Examples.offline (Demo.fresh "" "secret")
    = (Raise e, stuck (Demo.fresh "" "secret") evs)
    /\ filter is_network evs = []
    /\ auth_in_progress (client (stuck (Demo.fresh "" "secret") evs)) = true
    /\ (forall s',
           auth_in_progress (client s') = true ->
           forall n, calls n (auth Examples.offline) s'
                     = (repeat (Ok (PyBool false)) n, s'))
    /\ kept_by_the_client Examples.offline flag_set.
Proof.
  apply (auth_raise_before_loop_sticks Examples.offline (Demo.fresh "" "secret")).
  - reflexivity.
  - left. reflexivity.
Defined.

(** C4 as amended, on a fresh client without an email, and on the same
    client after that first call. *)
Lemma auth_without_credentials_example :
  (exists e s',
      auth Examples.offline (Demo.fresh "" "secret") = (Raise e, s')
      /\ exn_cls e = AuthenticationError
      /\ trace s' = trace (Demo.fresh "" "secret"))
  /\ auth Examples.offline Examples.after_failed_auth
     = (Ok (PyBool false), Examples.after_failed_auth).
Proof.
  split.
  - exact (proj1 (auth_without_credentials Examples.offline
                    (Demo.fresh "" "secret") (or_introl eq_refl)) eq_refl).
  - exact (proj2 (auth_without_credentials Examples.offline
                    Examples.after_failed_auth (or_introl eq_refl)) eq_refl).
Defined.

(** C4, the claim as stated fails: on a client whose first [auth] call
    raised for its empty email, the second call, still with an empty email,
    returns [False] and raises nothing. *)
Lemma auth_with_empty_email_returns_False :
  email (client Examples.after_failed_auth) = ""
  /\ auth Examples.offline Examples.after_failed_auth
     = (Ok (PyBool false), Examples.after_failed_auth)
  /\ ~ (exists e s',
           auth Examples.offline Examples.after_failed_auth = (Raise e, s')
           /\ exn_cls e = AuthenticationError).
Proof.
  split; [reflexivity|]. split; [reflexivity|].
  intros (e & s' & H & _). vm_compute in H. discriminate.
Qed.

(** C7 as amended, in a world whose RSA routine rejects the key. *)
Lemma encrypt_password_example :
  encrypt_password Examples.bad_key_world CONF_PUBLIC_KEY "secret"
    (Demo.fresh "a@b.c" "secret")
  = (Raise (Exn (PyException "ValueError") "RSA key format is not supported"),
     after (Demo.fresh "a@b.c" "secret")
       [EvLog ERROR "Encryption error: RSA key format is not supported"])
  /\ exists evs,
       auth Examples.bad_key_world (Demo.fresh "a@b.c" "secret")
       = (Raise (Exn (PyException "ValueError") "RSA key format is not supported"),
          stuck (Demo.fresh "a@b.c" "secret") evs)
       /\ filter is_network evs = [].
Proof.
  pose proof (encrypt_password_reraises Examples.bad_key_world CONF_PUBLIC_KEY
                "secret" (Demo.fresh "a@b.c" "secret")) as (H1 & _ & H3).
  split.
  - apply (H1 (Exn (PyException "ValueError") "RSA key format is not supported")).
    left. reflexivity.
  - apply (H3 (Exn (PyException "ValueError") "RSA key format is not supported"));
      try reflexivity; try discriminate.
    left. reflexivity.
Defined.

(** C7, the claim as stated fails: with a key the RSA routine rejects,
    [encrypt_password] raises the routine's own [ValueError], which is not
    an [EncryptionError]. *)
Lemma encrypt_password_raises_ValueError :
  fst (encrypt_password Examples.bad_key_world "not a key" "secret"
         (Demo.fresh "a@b.c" "secret"))
  = Raise (Exn (PyException "ValueError") "RSA key format is not supported")
  /\ ~ (exists e s',
           encrypt_password Examples.bad_key_world "not a key" "secret"
             (Demo.fresh "a@b.c" "secret") = (Raise e, s')
           /\ exn_cls e = PyException "EncryptionError").
Proof.
  split; [reflexivity|].
  intros (e & s' & H & Hc). vm_compute in H. inversion H; subst.
  discriminate.
Qed.

(** C5, in a world whose vendor answers the sign-in with the scenario's
    payload. *)
Lemma auth_scenario :
  exists s',
    auth (Demo.world Demo.reachable (Scenarios.vendor 0))
      (Demo.fresh "a@b.c" "secret") = (Ok (PyBool true), s')
    /\ token (client s') = PyStr "abc"
    /\ user_id (client s') = PyNum 42.
Proof.
  apply (auth_adopts_token_and_user_id
           (Demo.world Demo.reachable (Scenarios.vendor 0))
           (Demo.fresh "a@b.c" "secret") "rsa:secret").
  - reflexivity.
  - reflexivity.
  - reflexivity.
  - apply (client_ready Demo.reachable (Scenarios.vendor 0) PyNone []).
  - reflexivity.
Defined.

(** C3 as amended, with one expired answer before the success: two
    requests and two sign-ins. *)
Lemma one_expired_answer_example :
  exists s',
    _request (Demo.world Demo.reachable (Scenarios.vendor 1)) "GET"
      Scenarios.girth_url 3 true (PyDict []) Scenarios.holding_token
    = (Ok (Some Scenarios.ok_answer), s')
    /\ fetches Scenarios.girth_url s' = 2%nat
    /\ sign_ins s' = 2%nat.
Proof.
  refine (proj1 (expired_session_signs_in_around_each_retry
                   (Demo.world Demo.reachable (Scenarios.vendor 1))
                   scenario_login (PyStr "abc") "rsa:secret"
                   Scenarios.girth_url 3 (PyDict []) Scenarios.holding_token
                   (vendor_cooperative 1)
                   (client_ready Demo.reachable (Scenarios.vendor 1)
                      (PyStr "old") [])
                   eq_refl)
            1%nat Scenarios.ok_answer _ _ _ _).
  - vm_compute. lia.
  - split; reflexivity.
  - intros past body H. exists Scenarios.expired_answer.
    split; [|reflexivity].
    change (fetches Scenarios.girth_url Scenarios.holding_token + 1)%nat
      with 1%nat in H.
    apply Nat.ltb_lt in H.
    change (session_request (Demo.world Demo.reachable (Scenarios.vendor 1))
              past "GET" Scenarios.girth_url body)
      with (if (count (is_fetch Scenarios.girth_url) past <? 1)%nat
            then @inr exn pyval (PyDict Scenarios.expired_answer)
            else inr (PyDict Scenarios.ok_answer)).
    now rewrite H.
  - intros past body H.
    change (fetches Scenarios.girth_url Scenarios.holding_token + 1)%nat
      with 1%nat in H.
    change (session_request (Demo.world Demo.reachable (Scenarios.vendor 1))
              past "GET" Scenarios.girth_url body)
      with (if (count (is_fetch Scenarios.girth_url) past <? 1)%nat
            then @inr exn pyval (PyDict Scenarios.expired_answer)
            else inr (PyDict Scenarios.ok_answer)).
    now rewrite H.
Defined.

(** C3, the claim as stated fails: one expired answer is followed by two
    sign-ins, not by exactly one. *)
Lemma one_expired_answer_two_sign_ins :
  fst (_request (Demo.world Demo.reachable (Scenarios.vendor 1)) "GET"
         Scenarios.girth_url 3 true (PyDict []) Scenarios.holding_token)
  = Ok (Some Scenarios.ok_answer)
  /\ fetches Scenarios.girth_url
       (snd (_request (Demo.world Demo.reachable (Scenarios.vendor 1)) "GET"
               Scenarios.girth_url 3 true (PyDict []) Scenarios.holding_token))
     = 2%nat
  /\ sign_ins
       (snd (_request (Demo.world Demo.reachable (Scenarios.vendor 1)) "GET"
               Scenarios.girth_url 3 true (PyDict []) Scenarios.holding_token))
     = 2%nat
  /\ ~ (sign_ins
          (snd (_request (Demo.world Demo.reachable (Scenarios.vendor 1)) "GET"
                  Scenarios.girth_url 3 true (PyDict []) Scenarios.holding_token))
        = 1%nat).
Proof.
  repeat split; try (vm_compute; reflexivity).
  vm_compute. discriminate.
Qed.

(** C10, with a vendor whose sessions are always expired and the default
    budget of three attempts. *)
Lemma budget_exhausted_example :
  exists s',
    _request (Demo.world Demo.reachable Scenarios.forgetful) "GET"
      Scenarios.girth_url 3 true (PyDict []) Scenarios.holding_token
    = (Ok None, s')
    /\ fetches Scenarios.girth_url s' = 3%nat.
Proof.
  apply (request_returns_None_when_budget_exhausted
           (Demo.world Demo.reachable Scenarios.forgetful)
           scenario_login (PyStr "abc") "rsa:secret"
           Scenarios.girth_url 3 true (PyDict []) Scenarios.holding_token
           forgetful_cooperative
           (client_ready Demo.reachable Scenarios.forgetful
              (PyStr "old") [])).
  intros past body. exists Scenarios.expired_answer. split; reflexivity.
Defined.

(** C6, on a client without a network: the weight fetcher logs and
    returns nothing. *)
Lemma fetchers_example :
  fails_quietly Examples.offline (get_measurements Examples.offline)
    (fetch_url Examples.offline API_MEASUREMENTS_URL "last_at"
       (client (Demo.fresh "a@b.c" "secret")))
    (Demo.fresh "a@b.c" "secret").
Proof.
  exact (proj1 (fetchers_fail_quietly Examples.offline
                  (Demo.fresh "a@b.c" "secret"))).
Defined.

(** * Further properties of the client *)

(** ** Payload preparation *)



(** ** The reachability probe *)

Lemma check_proxy_connects (env : Env) (s : State) :
  connects env (client s) ->
  exists intro lvl msg b,
    check_proxy env s
    = (Ok b, after s [EvLog INFO intro; EvProbe probe_url; EvLog lvl msg])
    /\ (b = true <-> httpbin_get env (trace s ++ [EvLog INFO intro]) = inr 200)
    /\ lvl = (if b then INFO else ERROR).
Proof.
  unfold connects, check_proxy, after. intros H. run.
  destruct (proxy_url (client s)) as [p|]; run; rewrite ?H; run;
    match goal with
    | |- context [httpbin_get env ?past] =>
        destruct (httpbin_get env past) as [e|st] eqn:E
    end; run; try destruct (Z.eqb_spec st 200) as [->|Hne]; run;
    do 4 eexists; (split; [rewrite <- !app_assoc; reflexivity|]);
    rewrite E; (split; [|reflexivity]); split; congruence.
Qed.

(** X2.  When the connector can be built (no proxy, or a proxy URL the
    library accepts), [check_proxy] never raises: it logs, probes
    [httpbin.org] exactly once, logs the outcome, and returns [True]
    exactly when the probe answered with status 200; a probe that raises
    or answers with another status gives [False] and an error record.  The
    client object is not changed. *)
Theorem check_proxy_probes_once :
  forall (env : Env) (s : State),
    connects env (client s) ->
    exists intro lvl msg b,
      check_proxy env s
      = (Ok b, after s [EvLog INFO intro; EvProbe probe_url; EvLog lvl msg])
      /\ (b = true <-> httpbin_get env (trace s ++ [EvLog INFO intro]) = inr 200)
      /\ lvl = (if b then INFO else ERROR).
Proof. intros env s H. now apply check_proxy_connects. Qed.

Lemma check_proxy_probes_once_example :
  exists intro lvl msg b,
    check_proxy Examples.offline (Demo.fresh "a@b.c" "secret")
    = (Ok b, after (Demo.fresh "a@b.c" "secret")
               [EvLog INFO intro; EvProbe probe_url; EvLog lvl msg])
    /\ (b = true <->
        httpbin_get Examples.offline
          (trace (Demo.fresh "a@b.c" "secret") ++ [EvLog INFO intro]) = inr 200)
    /\ lvl = (if b then INFO else ERROR).
Proof.
  apply (check_proxy_probes_once Examples.offline (Demo.fresh "a@b.c" "secret")).
  exact I.
Defined.

Lemma check_proxy_rejected (env : Env) (s : State) (p : string) (e : exn) :
  proxy_url (client s) = Some p ->
  ProxyConnector_from_url env p = Some e ->
  check_proxy env s
  = (Raise (Exn (PyException "UnboundLocalError")
              "local variable 'session' referenced before assignment"),
     after s [EvLog INFO ("Checking proxy connectivity using proxy: " ++ p);
              EvLog ERROR ("Proxy connection failed: " ++ exn_msg e)]).
Proof.
  intros Hp He. unfold check_proxy, after. run. rewrite Hp. run.
  rewrite He. run. now rewrite <- app_assoc.
Qed.

(** X3.  When the proxy library rejects the configured proxy URL,
    [check_proxy] does not return [False]: its [finally] clause closes a
    session that was never opened, so the call raises [UnboundLocalError],
    without any network operation; and [_request], which starts with that
    check, raises the same exception instead of its [APIError]. *)
Theorem rejected_proxy_raises_UnboundLocalError :
  forall (env : Env) (s : State) (p : string) (e : exn),
    proxy_url (client s) = Some p ->
    ProxyConnector_from_url env p = Some e ->
    exists err evs,
      check_proxy env s = (Raise err, after s evs)
      /\ exn_cls err = PyException "UnboundLocalError"
      /\ filter is_network evs = []
      /\ forall method url retries skip_auth kwargs,
           _request env method url retries skip_auth kwargs s
           = (Raise err, after s evs).
Proof.
  intros env s p e Hp He.
  pose proof (check_proxy_rejected env s p e Hp He) as H.
  eexists. eexists. split; [exact H|]. split; [reflexivity|].
  split; [reflexivity|].
  intros method url retries skip_auth kwargs. unfold _request.
  erewrite bind_raise by exact H. reflexivity.
Qed.

Lemma rejected_proxy_example :
  exists err evs,
    check_proxy Cases.rejecting_proxies Cases.proxied
    = (Raise err, after Cases.proxied evs)
    /\ exn_cls err = PyException "UnboundLocalError"
    /\ filter is_network evs = []
    /\ forall method url retries skip_auth kwargs,
         _request Cases.rejecting_proxies method url retries skip_auth kwargs
           Cases.proxied
         = (Raise err, after Cases.proxied evs).
Proof.
  apply (rejected_proxy_raises_UnboundLocalError Cases.rejecting_proxies
           Cases.proxied "nowhere:1080"
           (Exn (PyException "ValueError") "Invalid scheme component")).
  - reflexivity.
  - reflexivity.
Defined.

(** ** Requests that are not retried *)

Lemma check_proxy_fails (env : Env) (s : State) :
  connects env (client s) ->
  (forall past, httpbin_get env past <> inr 200) ->
  exists evs,
    check_proxy env s = (Ok false, after s evs) /\ filter is_request evs = [].
Proof.
  intros Hc Hp.
  destruct (check_proxy_connects env s Hc) as (intro & lvl & msg & b & H & Hb & _).
  destruct b.
  - exfalso. eapply Hp. now apply Hb.
  - eexists. split; [exact H | reflexivity].
Qed.

Lemma check_proxy_through (env : Env) (s : State) :
  connects env (client s) ->
  (forall past, httpbin_get env past = inr 200) ->
  check_proxy env s = (Ok true, after s (probe_events (client s))).
Proof.
  intros Hc Hp. unfold connects in Hc.
  unfold check_proxy, after, probe_events. run.
  destruct (proxy_url (client s)) as [p|]; run.
  - rewrite Hc. run. rewrite Hp. run. now rewrite <- !app_assoc.
  - rewrite Hp. run. now rewrite <- !app_assoc.
Qed.

Lemma make_connector_connects (env : Env) (s : State) :
  connects env (client s) -> make_connector env s = (Ok tt, s).
Proof.
  unfold connects, make_connector. intros Hc. run.
  destruct (proxy_url (client s)); [now rewrite Hc | reflexivity].
Qed.

(** X4.  [_request] sends nothing before its two entry checks have
    passed.  When the reachability probe does not answer with status 200
    it raises [APIError] ("Proxy check failed. Aborting authentication.")
    whatever its arguments; and when the probe succeeds but the budget is
    zero or less it returns [None].  In both cases no request goes out, no
    sign-in is attempted and the client object is unchanged. *)
Theorem request_sends_nothing_without_probe_or_budget :
  forall (env : Env) (method url : string) (retries : Z) (skip_auth : bool)
         (kwargs : pyval) (s : State),
    connects env (client s) ->
    ((forall past, httpbin_get env past <> inr 200) ->
     exists evs,
       _request env method url retries skip_auth kwargs s
       = (Raise proxy_check_failed, after s evs)
       /\ filter is_request evs = [])
    /\
    ((forall past, httpbin_get env past = inr 200) ->
     retries <= 0 ->
     _request env method url retries skip_auth kwargs s
     = (Ok None, after s (probe_events (client s)))).
Proof.
  intros env method url retries skip_auth kwargs s Hc. split.
  - intros Hp.
    destruct (check_proxy_fails env s Hc Hp) as (evs & H & Hn).
    exists (evs ++ [EvLog ERROR "Proxy check failed. Aborting authentication."])%list.
    split.
    + unfold _request. step_by (exact H). run. now rewrite <- app_assoc.
    + rewrite filter_app, Hn. reflexivity.
  - intros Hp Hr. unfold _request. step_by (now apply check_proxy_through).
    cbn [negb when]. step.
    replace (Z.to_nat retries) with 0%nat by lia. reflexivity.
Qed.

Lemma request_sends_nothing_example :
  (exists evs,
      _request (Demo.world Cases.unavailable Examples.silent) "GET"
        Scenarios.girth_url 3 true (PyDict []) Scenarios.holding_token
      = (Raise proxy_check_failed, after Scenarios.holding_token evs)
      /\ filter is_request evs = [])
  /\ _request Examples.offline "GET" Scenarios.girth_url 0 false (PyDict [])
       Scenarios.holding_token
     = (Ok None, after Scenarios.holding_token
                   (probe_events (client Scenarios.holding_token))).
Proof.
  split.
  - apply (proj1 (request_sends_nothing_without_probe_or_budget
                    (Demo.world Cases.unavailable Examples.silent) "GET"
                    Scenarios.girth_url 3 true (PyDict [])
                    Scenarios.holding_token I)).
    intros past. discriminate.
  - apply (proj2 (request_sends_nothing_without_probe_or_budget
                    Examples.offline "GET" Scenarios.girth_url 0 false
                    (PyDict []) Scenarios.holding_token I)).
    + reflexivity.
    + lia.
Defined.

(** The first iteration of the loop when no sign-in is due: the request
    goes out right after the probe. *)
Lemma request_first_try (env : Env) (method url : string) (retries : Z)
    (kwargs : pyval) (s : State) :
  0 < retries ->
  connects env (client s) ->
  (forall past, httpbin_get env past = inr 200) ->
  must_auth (client s) url true = false ->
  _request env method url retries true kwargs s
  = (r <- request_try env method url (prepare_data kwargs);;
     match r with
     | Continue =>
         request_while env (Nat.pred (Z.to_nat retries)) method url false
           (prepare_data kwargs)
     | Return parsed_response => ret (Some parsed_response)
     end) (after s (probe_events (client s))).
Proof.
  intros Hr Hc Hp Hm. unfold _request.
  step_by (now apply check_proxy_through).
  cbn [negb when]. step.
  destruct (Z.to_nat retries) as [|r] eqn:Er; [lia|].
  cbn [request_while Nat.pred].
  step_by (now apply make_connector_connects).
  step. rewrite Hm. cbn [when]. step. reflexivity.
Qed.

(** X5.  A request of a client that holds a token, sent with
    [skip_auth=True] and a positive budget, goes out exactly once unless
    the answer carries the session-expired code; the budget plays no part.
    A success envelope is returned as it is; status 50000 and every other
    envelope raise [APIError] quoting the vendor's message; an aiohttp
    response or connection error is logged and raises [APIError]; any
    other exception, a timeout for instance, comes out as it is.  None of
    these outcomes changes the client object. *)
Theorem request_outcomes_without_retry :
  forall (env : Env) (method url : string) (retries : Z) (kwargs : pyval)
         (s : State),
    0 < retries ->
    connects env (client s) ->
    (forall past, httpbin_get env past = inr 200) ->
    must_auth (client s) url true = false ->
    let answer :=
      session_request env (trace s ++ probe_events (client s)) method url
        (prepare_data kwargs) in
    let message d := py_str env (dict_get_default d "status_message") in
    (forall d, answer = inr (PyDict d) -> success d ->
       _request env method url retries true kwargs s
       = (Ok (Some d), sent_once method url kwargs s))
    /\ (forall d, answer = inr (PyDict d) ->
          dict_get d "status_code" = Some (PyStr "50000") ->
          _request env method url retries true kwargs s
          = (Raise (Exn APIError ("Internal server error: " ++ message d)),
             sent_once method url kwargs s))
    /\ (forall d, answer = inr (PyDict d) ->
          eq_str (dict_get_default d "status_code") "40302" = false ->
          eq_str (dict_get_default d "status_code") "50000" = false ->
          eq_str (dict_get_default d "status_code") "20000"
          && eq_str (dict_get_default d "status_message") "ok" = false ->
          _request env method url retries true kwargs s
          = (Raise (Exn APIError ("API request failed " ++ method ++ " " ++ url
                                  ++ ": " ++ message d)),
             sent_once method url kwargs s))
    /\ (forall e, answer = inl e -> is_client_error e = true ->
          _request env method url retries true kwargs s
          = (Raise (Exn APIError ("API request failed " ++ method ++ " " ++ url)),
             after (sent_once method url kwargs s)
               [EvLog ERROR ("Client error: " ++ exn_msg e)]))
    /\ (forall e, answer = inl e -> is_client_error e = false ->
          _request env method url retries true kwargs s
          = (Raise e, sent_once method url kwargs s)).
Proof.
  intros env method url retries kwargs s Hr Hc Hp Hm answer message.
  rewrite (request_first_try env method url retries kwargs s Hr Hc Hp Hm).
  subst answer message. unfold sent_once, request_try, http, after.
  repeat split.
  - intros d Hd [Hsc Hsm]. run. rewrite Hd. run.
    unfold dict_get_default. rewrite Hsc, Hsm. run. now rewrite <- app_assoc.
  - intros d Hd Hsc. run. rewrite Hd. run.
    unfold dict_get_default at 1 2. rewrite Hsc. run. now rewrite <- app_assoc.
  - intros d Hd H1 H2 H3. run. rewrite Hd. run.
    rewrite H1, H2, H3. run. now rewrite <- app_assoc.
  - intros e He Hx. run. rewrite He. run. rewrite Hx. run.
    now rewrite <- !app_assoc.
  - intros e He Hx. run. rewrite He. run. rewrite Hx.
    now rewrite <- app_assoc.
Qed.


Lemma request_outcomes_example :
  _request (Demo.world Demo.reachable (Scenarios.vendor 0)) "GET"
    Scenarios.girth_url 3 true (PyDict []) Scenarios.holding_token
  = (Ok (Some Scenarios.ok_answer),
     sent_once "GET" Scenarios.girth_url (PyDict []) Scenarios.holding_token).
Proof.
  apply (proj1 (request_outcomes_without_retry
                  (Demo.world Demo.reachable (Scenarios.vendor 0)) "GET"
                  Scenarios.girth_url 3 (PyDict []) Scenarios.holding_token
                  ltac:(lia) I (fun _ => eq_refl) eq_refl)
           Scenarios.ok_answer).
  - reflexivity.
  - split; reflexivity.
Defined.

(** ** Bounds on what a call adds to the trace *)

Lemma tally_app (f : event -> nat) (a b : list event) :
  tally f (a ++ b) = (tally f a + tally f b)%nat.
Proof. unfold tally. now rewrite map_app, list_sum_app. Qed.

Section Within.

Variable f : event -> nat.

Lemma within_mono {A : Type} (m : M A) (n n' : nat) :
  within f n m -> (n <= n')%nat -> within f n' m.
Proof.
  intros H Hn s r s' E. destruct (H s r s' E) as (evs & Ht & Hc).
  exists evs. split; [exact Ht | lia].
Qed.

Lemma within_ret {A : Type} (a : A) : within f 0 (ret a).
Proof. intros s r s' E. inversion E; subst. exists []. now rewrite app_nil_r. Qed.

Lemma within_raise {A : Type} (e : exn) : within f 0 (@raise A e).
Proof. intros s r s' E. inversion E; subst. exists []. now rewrite app_nil_r. Qed.

Lemma within_get_self : within f 0 get_self.
Proof. intros s r s' E. inversion E; subst. exists []. now rewrite app_nil_r. Qed.

Lemma within_history : within f 0 history.
Proof. intros s r s' E. inversion E; subst. exists []. now rewrite app_nil_r. Qed.

Lemma within_modify (g : RenphoWeight -> RenphoWeight) : within f 0 (modify g).
Proof. intros s r s' E. inversion E; subst. exists []. cbn. now rewrite app_nil_r. Qed.

Lemma within_lift {A : Type} (x : exn + A) : within f 0 (lift x).
Proof. destruct x; [apply within_raise | apply within_ret]. Qed.

Lemma within_emit (ev : event) : within f (f ev) (emit ev).
Proof.
  intros s r s' E. inversion E; subst. exists [ev]. split; [reflexivity|].
  unfold tally. cbn. lia.
Qed.

Lemma within_bind {A B : Type} (m : M A) (k : A -> M B) (n1 n2 : nat) :
  within f n1 m -> (forall a, within f n2 (k a)) -> within f (n1 + n2) (bind m k).
Proof.
  intros Hm Hk s r s' E. unfold bind in E.
  destruct (m s) as [[a|e] s1] eqn:E1.
  - destruct (Hm _ _ _ E1) as (evs1 & Ht1 & Hc1).
    destruct (Hk a _ _ _ E) as (evs2 & Ht2 & Hc2).
    exists (evs1 ++ evs2)%list. rewrite Ht2, Ht1, app_assoc, tally_app.
    split; [reflexivity | lia].
  - inversion E; subst. destruct (Hm _ _ _ E1) as (evs1 & Ht1 & Hc1).
    exists evs1. split; [exact Ht1 | lia].
Qed.

Lemma within_try_except {A : Type} (m : M A) (handles : exn -> bool)
    (h : exn -> M A) (n1 n2 : nat) :
  within f n1 m -> (forall e, within f n2 (h e)) ->
  within f (n1 + n2) (try_except m handles h).
Proof.
  intros Hm Hh s r s' E. unfold try_except in E.
  destruct (m s) as [[a|e] s1] eqn:E1.
  - inversion E; subst. destruct (Hm _ _ _ E1) as (evs1 & Ht1 & Hc1).
    exists evs1. split; [exact Ht1 | lia].
  - destruct (handles e).
    + destruct (Hm _ _ _ E1) as (evs1 & Ht1 & Hc1).
      destruct (Hh e _ _ _ E) as (evs2 & Ht2 & Hc2).
      exists (evs1 ++ evs2)%list. rewrite Ht2, Ht1, app_assoc, tally_app.
      split; [reflexivity | lia].
    + inversion E; subst. destruct (Hm _ _ _ E1) as (evs1 & Ht1 & Hc1).
      exists evs1. split; [exact Ht1 | lia].
Qed.

Lemma within_try_finally {A : Type} (m : M A) (fin : M unit) (n1 n2 : nat) :
  within f n1 m -> within f n2 fin -> within f (n1 + n2) (try_finally m fin).
Proof.
  intros Hm Hf s r s' E. unfold try_finally in E.
  destruct (m s) as [r1 s1] eqn:E1.
  destruct (Hm _ _ _ E1) as (evs1 & Ht1 & Hc1).
  destruct (fin s1) as [[u|e] s2] eqn:E2;
    destruct (Hf _ _ _ E2) as (evs2 & Ht2 & Hc2);
    inversion E; subst; exists (evs1 ++ evs2)%list;
    rewrite Ht2, Ht1, app_assoc, tally_app; (split; [reflexivity | lia]).
Qed.

Lemma within_when (b : bool) (m : M unit) (n : nat) :
  within f n m -> within f n (when b m).
Proof.
  intros H. destruct b; [exact H|].
  eapply within_mono; [apply within_ret | lia].
Qed.

Lemma within_if {A : Type} (b : bool) (m1 m2 : M A) (n1 n2 : nat) :
  within f n1 m1 -> within f n2 m2 ->
  within f (Nat.max n1 n2) (if b then m1 else m2).
Proof.
  intros H1 H2. destruct b; (eapply within_mono; [eassumption | lia]).
Qed.

Lemma within_option {A B : Type} (o : option A) (m1 : A -> M B) (m2 : M B)
    (n1 n2 : nat) :
  (forall a, within f n1 (m1 a)) -> within f n2 m2 ->
  within f (Nat.max n1 n2) (match o with Some a => m1 a | None => m2 end).
Proof.
  intros H1 H2. destruct o; (eapply within_mono; [eauto | lia]).
Qed.

Lemma within_flow {A : Type} (r : flow) (m1 : M A) (m2 : pydict -> M A)
    (n1 n2 : nat) :
  within f n1 m1 -> (forall d, within f n2 (m2 d)) ->
  within f (Nat.max n1 n2)
    (match r with Continue => m1 | Return d => m2 d end).
Proof.
  intros H1 H2. destruct r; (eapply within_mono; [eauto | lia]).
Qed.

End Within.


Lemma tally_one_count (p : event -> bool) (evs : list event) :
  tally (one p) evs = count p evs.
Proof.
  unfold tally, one, count, list_sum.
  induction evs as [|ev evs IH]; cbn [map fold_right filter]; [reflexivity|].
  rewrite IH. destruct (p ev); reflexivity.
Qed.

Create HintDb bound.

(** Break a method down to its primitive steps, adding up their weights;
    the bound found is then compared with the one stated. *)
Ltac bound_step :=
  lazymatch goal with
  | |- within _ _ (bind _ _) => eapply within_bind; [|intros ?]
  | |- within _ _ (ret _) => apply within_ret
  | |- within _ _ (raise _) => apply within_raise
  | |- within _ _ (try_except _ _ _) => eapply within_try_except; [|intros ?]
  | |- within _ _ (try_finally _ _) => eapply within_try_finally
  | |- within _ _ (modify _) => apply within_modify
  | |- within _ _ get_self => apply within_get_self
  | |- within _ _ history => apply within_history
  | |- within _ _ (lift _) => apply within_lift
  | |- within _ _ (when _ _) => eapply within_when
  | |- within _ _ (if _ then _ else _) => eapply within_if
  | |- within _ _ (match _ with Some _ => _ | None => _ end) =>
      eapply within_option; [intros ?|]
  | |- within _ _ (let _ := _ in _) => cbv zeta
  | |- within _ _ _ => solve [eauto with bound]
  end.

Ltac bound := eapply within_mono; [repeat bound_step | cbn; lia].

(** The weight of [auth] and of [_request], for a weight [f] that ignores
    log records: [cP] bounds the weight of a probe, [cA] that of a sign-in,
    [cZ] that of a sleep of five seconds and [cR] that of the request
    itself. *)
Section Costs.

Variable env : Env.
Variable f : event -> nat.
Variables cP cA cZ : nat.
Hypothesis f_log : forall lvl msg, f (EvLog lvl msg) = 0%nat.
Hypothesis f_probe : (f (EvProbe probe_url) <= cP)%nat.
Hypothesis f_sign_in :
  forall body, (f (EvRequest "POST" API_AUTH_URL body) <= cA)%nat.
Hypothesis f_sleep : (f (EvSleep 5) <= cZ)%nat.

Lemma log_within (lvl : level) (msg : string) : within f 0 (log lvl msg).
Proof.
  eapply within_mono; [apply within_emit | rewrite f_log; lia].
Qed.
Hint Resolve log_within : bound.

Lemma probe_within : within f cP (emit (EvProbe probe_url)).
Proof. eapply within_mono; [apply within_emit | exact f_probe]. Qed.
Hint Resolve probe_within : bound.

Lemma sleep_within : within f cZ (emit (EvSleep 5)).
Proof. eapply within_mono; [apply within_emit | exact f_sleep]. Qed.
Hint Resolve sleep_within : bound.

Lemma check_proxy_within : within f cP (check_proxy env).
Proof. unfold check_proxy. bound. Qed.
Hint Resolve check_proxy_within : bound.

Lemma make_connector_within : within f 0 (make_connector env).
Proof. unfold make_connector. bound. Qed.
Hint Resolve make_connector_within : bound.

Lemma http_within (method url : string) (body : pyval) (cR : nat) :
  (f (EvRequest method url body) <= cR)%nat ->
  within f cR (http env method url body).
Proof.
  intros H. unfold http.
  eapply within_mono;
    [eapply within_bind; [apply within_history | intros ?];
     eapply within_bind; [apply within_emit | intros ?]; apply within_lift
    | lia].
Qed.

Lemma sign_in_within (data : pyval) :
  within f cA (http env "POST" API_AUTH_URL data).
Proof. apply http_within, f_sign_in. Qed.
Hint Resolve sign_in_within : bound.

Lemma as_dict_within (v : pyval) : within f 0 (as_dict v).
Proof. destruct v; cbn [as_dict]; bound. Qed.
Hint Resolve as_dict_within : bound.

Lemma subscript_within (d : pydict) (k : string) : within f 0 (subscript d k).
Proof. unfold subscript. bound. Qed.
Hint Resolve subscript_within : bound.

Lemma obj_attr_within (d : pydict) (k : string) : within f 0 (obj_attr d k).
Proof. unfold obj_attr. bound. Qed.
Hint Resolve obj_attr_within : bound.

Lemma time_now_within : within f 0 (time_now env).
Proof. unfold time_now. bound. Qed.
Hint Resolve time_now_within : bound.

Lemma encrypt_password_within (key pw : string) :
  within f 0 (encrypt_password env key pw).
Proof. unfold encrypt_password. bound. Qed.
Hint Resolve encrypt_password_within : bound.

Lemma auth_try_within (data : pyval) : within f (cP + cA) (auth_try env data).
Proof. unfold auth_try. bound. Qed.
Hint Resolve auth_try_within : bound.

Lemma auth_attempt_within (attempt : nat) (data : pyval) :
  within f (cP + cA + if (attempt <? 2)%nat then cZ else 0)
    (auth_attempt env attempt data).
Proof.
  unfold auth_attempt. change (3 - 1)%nat with 2%nat.
  destruct (attempt <? 2)%nat; bound.
Qed.

Lemma auth_for_within (attempts : list nat) (data : pyval) :
  within f
    (list_sum (map (fun a => cP + cA + if (a <? 2)%nat then cZ else 0) attempts))%nat
    (auth_for env attempts data).
Proof.
  induction attempts as [|a attempts IH]; cbn [auth_for].
  - bound.
  - eapply within_mono.
    + eapply within_bind; [apply auth_attempt_within | intros r].
      eapply within_option; [intros v; apply within_ret | exact IH].
    + unfold list_sum. cbn [map fold_right]. lia.
Qed.

Lemma auth_within : within f (3 * (cP + cA) + 2 * cZ) (auth env).
Proof.
  pose proof (fun data => auth_for_within (seq 0 3) data) as H.
  cbn in H. unfold auth.
  eapply within_mono; [repeat bound_step; apply H | cbn; lia].
Qed.
Hint Resolve auth_within : bound.

Lemma auth_or_raise_within :
  within f (3 * (cP + cA) + 2 * cZ) (auth_or_raise env).
Proof. unfold auth_or_raise. bound. Qed.
Hint Resolve auth_or_raise_within : bound.

Section Requests.

Variables (method url : string) (cR : nat).
Hypothesis f_request : forall body, (f (EvRequest method url body) <= cR)%nat.

Lemma request_within (body : pyval) : within f cR (http env method url body).
Proof. apply http_within, f_request. Qed.
Hint Resolve request_within : bound.

Lemma request_try_within (kwargs : pyval) :
  within f (cR + (3 * (cP + cA) + 2 * cZ)) (request_try env method url kwargs).
Proof. unfold request_try. bound. Qed.
Hint Resolve request_try_within : bound.

Lemma request_while_within (retries : nat) (skip_auth : bool) (kwargs : pyval) :
  within f (retries * (cR + 2 * (3 * (cP + cA) + 2 * cZ)))
    (request_while env retries method url skip_auth kwargs).
Proof.
  revert skip_auth kwargs.
  induction retries as [|retries IH]; intros skip_auth kwargs;
    cbn [request_while].
  - bound.
  - eapply within_mono.
    + repeat bound_step.
      eapply within_flow; [apply IH | intros d; apply within_ret].
    + cbn. lia.
Qed.

End Requests.

Lemma request_bound (method url : string) (cR : nat) (retries : Z)
    (skip_auth : bool) (kwargs : pyval) :
  (forall body, (f (EvRequest method url body) <= cR)%nat) ->
  within f (cP + Z.to_nat retries * (cR + 2 * (3 * (cP + cA) + 2 * cZ)))
    (_request env method url retries skip_auth kwargs).
Proof.
  intros H. pose proof (request_while_within method url cR H) as Hw.
  unfold _request. bound.
Qed.

(** The fetchers, for a weight that is at most [cR] on every [GET]. *)
Section Fetchers.

Variable cR : nat.
Hypothesis f_get : forall url body, (f (EvRequest "GET" url body) <= cR)%nat.

Local Abbreviation F := (cP + 3 * (cR + 2 * (3 * (cP + cA) + 2 * cZ)))%nat.

Lemma fetch_within (url : string) : within f F (fetch env url).
Proof.
  unfold fetch.
  eapply within_mono; [apply (request_bound "GET" url cR); apply f_get|].
  change (Z.to_nat 3) with 3%nat. lia.
Qed.
Hint Resolve fetch_within : bound.

Lemma get_measurements_within : within f F (get_measurements env).
Proof. unfold get_measurements. bound. Qed.
Hint Resolve get_measurements_within : bound.

Lemma get_info_within : within f F (get_info env).
Proof. unfold get_info. bound. Qed.
Hint Resolve get_info_within : bound.

Lemma list_girth_within : within f F (list_girth env).
Proof. unfold list_girth. bound. Qed.
Hint Resolve list_girth_within : bound.

Lemma list_girth_goal_within : within f F (list_girth_goal env).
Proof. unfold list_girth_goal. bound. Qed.
Hint Resolve list_girth_goal_within : bound.

Lemma poll_data_within : within f (3 * F) (poll_data env).
Proof. unfold poll_data, gather_results. bound. Qed.

End Fetchers.

(** A fetcher builds its URL from the client it is called on; what it
    then adds to the trace, for a weight bounded on the requests for that
    URL only. *)
Section Destination.

Variable cR : nat.

Local Abbreviation F := (cP + 3 * (cR + 2 * (3 * (cP + cA) + 2 * cZ)))%nat.

Lemma fetch_at (url : string) :
  (forall body, (f (EvRequest "GET" url body) <= cR)%nat) ->
  within f F (fetch env url).
Proof.
  intros H. unfold fetch.
  eapply within_mono; [apply (request_bound "GET" url cR); exact H|].
  change (Z.to_nat 3) with 3%nat. lia.
Qed.

Lemma within_self {A : Type} (n : nat) (k : RenphoWeight -> M A) (s : State) :
  within f n (k (client s)) ->
  exists evs, trace (snd (bind get_self k s)) = (trace s ++ evs)%list
              /\ (tally f evs <= n)%nat.
Proof.
  intros H. apply (H s (fst (k (client s) s))). apply surjective_pairing.
Qed.

Lemma get_measurements_from (s : State) :
  (forall body,
      (f (EvRequest "GET" (fetch_url env API_MEASUREMENTS_URL "last_at" (client s))
            body) <= cR)%nat) ->
  exists evs, trace (snd (get_measurements env s)) = (trace s ++ evs)%list
              /\ (tally f evs <= F)%nat.
Proof.
  intros H. apply fetch_at in H.
  unfold get_measurements. apply within_self. bound.
Qed.

Lemma list_girth_from (s : State) :
  (forall body,
      (f (EvRequest "GET" (fetch_url env GIRTH_URL "last_updated_at" (client s))
            body) <= cR)%nat) ->
  exists evs, trace (snd (list_girth env s)) = (trace s ++ evs)%list
              /\ (tally f evs <= F)%nat.
Proof.
  intros H. apply fetch_at in H.
  unfold list_girth. apply within_self. bound.
Qed.

Lemma list_girth_goal_from (s : State) :
  (forall body,
      (f (EvRequest "GET"
            (fetch_url env GIRTH_GOAL_URL "last_updated_at" (client s)) body)
       <= cR)%nat) ->
  exists evs, trace (snd (list_girth_goal env s)) = (trace s ++ evs)%list
              /\ (tally f evs <= F)%nat.
Proof.
  intros H. apply fetch_at in H.
  unfold list_girth_goal. apply within_self. bound.
Qed.

End Destination.

End Costs.

(** The events a call appended, out of a bound on them. *)
Lemma within_run {A : Type} (f : event -> nat) (n : nat) (m : M A) (s : State)
    (evs : list event) :
  within f n m ->
  trace (snd (m s)) = (trace s ++ evs)%list ->
  (tally f evs <= n)%nat.
Proof.
  intros H E. destruct (H s (fst (m s)) (snd (m s))) as (evs' & E' & Hn).
  - apply surjective_pairing.
  - rewrite E in E'. apply app_inv_head in E'. now subst.
Qed.

Lemma within_appends {A : Type} (f : event -> nat) (n : nat) (m : M A) (s : State) :
  within f n m -> exists evs, trace (snd (m s)) = (trace s ++ evs)%list.
Proof.
  intros H. destruct (H s (fst (m s)) (snd (m s))) as (evs & E & _).
  - apply surjective_pairing.
  - now exists evs.
Qed.

Lemma tally_zero (f : event -> nat) (evs : list event) (ev : event) :
  tally f evs = 0%nat -> In ev evs -> f ev = 0%nat.
Proof.
  unfold tally, list_sum.
  induction evs as [|x evs IH]; cbn [map fold_right]; [intros _ []|].
  intros H [<-|Hin]; [lia|]. apply IH; [lia | exact Hin].
Qed.

(** The side conditions on a weight, at concrete events. *)
Ltac weigh := intros; first [reflexivity | vm_compute; lia].

(** X6.  However [auth] ends, and whatever the network answers, one call
    posts at most three sign-ins and sends no other request, probes the
    network at most three times, and sleeps at most ten seconds. *)
Theorem auth_is_bounded :
  forall (env : Env) (s : State),
    exists evs,
      trace (snd (auth env s)) = (trace s ++ evs)%list
      /\ (count is_sign_in evs <= 3)%nat
      /\ count is_data_request evs = 0%nat
      /\ (count is_probe evs <= 3)%nat
      /\ (tally seconds evs <= 10)%nat.
Proof.
  intros env s.
  assert (H1 : within (one is_sign_in) 3 (auth env))
    by (eapply within_mono; [apply (auth_within env _ 0 1 0); weigh | lia]).
  assert (H2 : within (one is_data_request) 0 (auth env))
    by (eapply within_mono; [apply (auth_within env _ 0 0 0); weigh | lia]).
  assert (H3 : within (one is_probe) 3 (auth env))
    by (eapply within_mono; [apply (auth_within env _ 1 0 0); weigh | lia]).
  assert (H4 : within seconds 10 (auth env))
    by (eapply within_mono; [apply (auth_within env _ 0 0 5); weigh | lia]).
  destruct (within_appends _ _ _ s H1) as (evs & E).
  exists evs. split; [exact E|]. rewrite <- !tally_one_count.
  pose proof (within_run _ _ _ s evs H1 E).
  pose proof (within_run _ _ _ s evs H2 E).
  pose proof (within_run _ _ _ s evs H3 E).
  pose proof (within_run _ _ _ s evs H4 E).
  repeat split; lia.
Qed.

(** X7.  However [_request] ends, and whatever the network answers, a call
    with a budget of [retries] attempts sends at most [retries] requests
    that are not sign-ins and at most [7 * retries] requests in all, and
    sleeps at most [20 * retries] seconds. *)
Theorem request_is_bounded :
  forall (env : Env) (method url : string) (retries : Z) (skip_auth : bool)
         (kwargs : pyval) (s : State),
    exists evs,
      trace (snd (_request env method url retries skip_auth kwargs s))
      = (trace s ++ evs)%list
      /\ (count is_data_request evs <= Z.to_nat retries)%nat
      /\ (count is_request evs <= 7 * Z.to_nat retries)%nat
      /\ (tally seconds evs <= 20 * Z.to_nat retries)%nat.
Proof.
  intros env method url retries skip_auth kwargs s.
  set (m := _request env method url retries skip_auth kwargs).
  assert (H1 : within (one is_data_request) (Z.to_nat retries) m).
  { eapply within_mono;
      [apply (request_bound env _ 0 0 0) with (cR := 1%nat); try weigh|lia].
    intros body. unfold one, is_data_request. cbn [is_request andb].
    destruct (negb _); cbn; lia. }
  assert (H2 : within (one is_request) (7 * Z.to_nat retries) m).
  { eapply within_mono;
      [apply (request_bound env _ 0 1 0) with (cR := 1%nat); weigh|lia]. }
  assert (H3 : within seconds (20 * Z.to_nat retries) m).
  { eapply within_mono;
      [apply (request_bound env _ 0 0 5) with (cR := 0%nat); weigh|lia]. }
  destruct (within_appends _ _ _ s H1) as (evs & E).
  exists evs. split; [exact E|]. rewrite <- !tally_one_count.
  pose proof (within_run _ _ _ s evs H1 E).
  pose proof (within_run _ _ _ s evs H2 E).
  pose proof (within_run _ _ _ s evs H3 E).
  repeat split; lia.
Qed.

Lemma foreign_call (method url : string) (body : pyval) :
  one (foreign method url) (EvRequest method url body) = 0%nat.
Proof.
  unfold one, foreign. rewrite !String.eqb_refl. cbn [andb negb].
  now rewrite andb_false_r.
Qed.

Lemma foreign_spec (method url : string) (ev : event) :
  foreign method url ev = false ->
  is_network ev = true ->
  ev = EvProbe probe_url
  \/ (exists body, ev = EvRequest "POST" API_AUTH_URL body)
  \/ (exists body, ev = EvRequest method url body).
Proof.
  destruct ev as [lvl msg | u | m u b | z | |]; cbn [foreign is_network];
    try discriminate; intros H _.
  - left. apply negb_false_iff, String.eqb_eq in H. now subst.
  - right. apply andb_false_iff in H. destruct H as [H|H].
    + left. apply negb_false_iff in H. cbn [is_sign_in] in H.
      apply andb_true_iff in H. destruct H as [Hm Hu].
      apply String.eqb_eq in Hm, Hu. subst. now exists b.
    + right. apply negb_false_iff, andb_true_iff in H. destruct H as [Hm Hu].
      apply String.eqb_eq in Hm, Hu. subst. now exists b.
Qed.

Lemma only_these (method url : string) (evs : list event) :
  (tally (one (foreign method url)) evs <= 0)%nat ->
  forall ev, In ev evs -> is_network ev = true ->
    ev = EvProbe probe_url
    \/ (exists body, ev = EvRequest "POST" API_AUTH_URL body)
    \/ (exists body, ev = EvRequest method url body).
Proof.
  intros H ev Hin Hnet. apply foreign_spec; [|exact Hnet].
  assert (H0 : tally (one (foreign method url)) evs = 0%nat) by lia.
  pose proof (tally_zero _ _ _ H0 Hin) as Hz. unfold one in Hz.
  now destruct (foreign method url ev).
Qed.

(** X8.  Every network operation of a call of [_request], however it ends,
    is the probe of [httpbin.org], a sign-in posted to the
    authentication endpoint, or the request for the method and URL it was
    given: no other address is contacted. *)
Theorem request_contacts_only_its_url :
  forall (env : Env) (method url : string) (retries : Z) (skip_auth : bool)
         (kwargs : pyval) (s : State),
    exists evs,
      trace (snd (_request env method url retries skip_auth kwargs s))
      = (trace s ++ evs)%list
      /\ forall ev, In ev evs -> is_network ev = true ->
           ev = EvProbe probe_url
           \/ (exists body, ev = EvRequest "POST" API_AUTH_URL body)
           \/ (exists body, ev = EvRequest method url body).
Proof.
  intros env method url retries skip_auth kwargs s.
  assert (H : within (one (foreign method url)) 0
                (_request env method url retries skip_auth kwargs)).
  { eapply within_mono;
      [apply (request_bound env _ 0 0 0) with (cR := 0%nat); try weigh|lia].
    intros body. rewrite foreign_call. lia. }
  destruct (within_appends _ _ _ s H) as (evs & E).
  exists evs. split; [exact E|].
  apply only_these. exact (within_run _ _ _ s evs H E).
Qed.

(** X9.  A fetcher builds its URL, with the user id and the token in the
    query string, from the client as it is when the fetcher is called, and
    every request it then sends that is not a sign-in goes to that URL:
    also the retry after a new sign-in, which has replaced the token. *)
Theorem fetchers_keep_the_url_of_the_call :
  forall (env : Env) (s : State),
    (exists evs,
        trace (snd (get_measurements env s)) = (trace s ++ evs)%list
        /\ forall ev, In ev evs -> is_network ev = true ->
             ev = EvProbe probe_url
             \/ (exists body, ev = EvRequest "POST" API_AUTH_URL body)
             \/ (exists body,
                    ev = EvRequest "GET"
                           (fetch_url env API_MEASUREMENTS_URL "last_at" (client s))
                           body))
    /\ (exists evs,
           trace (snd (list_girth env s)) = (trace s ++ evs)%list
           /\ forall ev, In ev evs -> is_network ev = true ->
                ev = EvProbe probe_url
                \/ (exists body, ev = EvRequest "POST" API_AUTH_URL body)
                \/ (exists body,
                       ev = EvRequest "GET"
                              (fetch_url env GIRTH_URL "last_updated_at" (client s))
                              body))
    /\ (exists evs,
           trace (snd (list_girth_goal env s)) = (trace s ++ evs)%list
           /\ forall ev, In ev evs -> is_network ev = true ->
                ev = EvProbe probe_url
                \/ (exists body, ev = EvRequest "POST" API_AUTH_URL body)
                \/ (exists body,
                       ev = EvRequest "GET"
                              (fetch_url env GIRTH_GOAL_URL "last_updated_at"
                                 (client s))
                              body)).
Proof.
  intros env s. split; [|split].
  - destruct (get_measurements_from env
                (one (foreign "GET"
                        (fetch_url env API_MEASUREMENTS_URL "last_at" (client s))))
                0 0 0 ltac:(weigh) ltac:(weigh) ltac:(weigh) ltac:(weigh) 0 s)
      as (evs & E & H).
    + intros body. rewrite foreign_call. lia.
    + exists evs. split; [exact E|]. apply only_these. exact H.
  - destruct (list_girth_from env
                (one (foreign "GET"
                        (fetch_url env GIRTH_URL "last_updated_at" (client s))))
                0 0 0 ltac:(weigh) ltac:(weigh) ltac:(weigh) ltac:(weigh) 0 s)
      as (evs & E & H).
    + intros body. rewrite foreign_call. lia.
    + exists evs. split; [exact E|]. apply only_these. exact H.
  - destruct (list_girth_goal_from env
                (one (foreign "GET"
                        (fetch_url env GIRTH_GOAL_URL "last_updated_at" (client s))))
                0 0 0 ltac:(weigh) ltac:(weigh) ltac:(weigh) ltac:(weigh) 0 s)
      as (evs & E & H).
    + intros body. rewrite foreign_call. lia.
    + exists evs. split; [exact E|]. apply only_these. exact H.
Qed.

(** X10.  One cycle of [poll_data], however the network answers, sends at
    most nine requests that are not sign-ins and at most 54 sign-ins, and
    sleeps at most 180 seconds: a cycle always comes to an end. *)
Theorem poll_cycle_is_bounded :
  forall (env : Env) (s : State),
    exists evs,
      trace (snd (poll_data env s)) = (trace s ++ evs)%list
      /\ (count is_data_request evs <= 9)%nat
      /\ (count is_sign_in evs <= 54)%nat
      /\ (tally seconds evs <= 180)%nat.
Proof.
  intros env s.
  assert (H1 : within (one is_data_request) 9 (poll_data env))
    by (eapply within_mono;
        [apply (poll_data_within env _ 0 0 0) with (cR := 1%nat); weigh | lia]).
  assert (H2 : within (one is_sign_in) 54 (poll_data env))
    by (eapply within_mono;
        [apply (poll_data_within env _ 0 1 0) with (cR := 0%nat); weigh | lia]).
  assert (H3 : within seconds 180 (poll_data env))
    by (eapply within_mono;
        [apply (poll_data_within env _ 0 0 5) with (cR := 0%nat); weigh | lia]).
  destruct (within_appends _ _ _ s H1) as (evs & E).
  exists evs. split; [exact E|]. rewrite <- !tally_one_count.
  pose proof (within_run _ _ _ s evs H1 E).
  pose proof (within_run _ _ _ s evs H2 E).
  pose proof (within_run _ _ _ s evs H3 E).
  repeat split; lia.
Qed.

(** ** The attributes a method writes *)

Create HintDb kept.

(** As [frame], for any property that the assignments met on the way are
    known to keep. *)
Ltac kept_step :=
  lazymatch goal with
  | |- keeps _ (modify _) => apply keeps_modify; intros ? ?; solve [auto]
  | |- keeps _ _ => first [solve [auto with kept] | frame_step]
  end.
Ltac kept := repeat kept_step.

(** A property that does not depend on the attributes of the session is
    kept by [auth] and by everything that calls it. *)
Section Session.

Variable env : Env.
Variable P : RenphoWeight -> Prop.
Hypothesis P_token : forall v c, P c -> P (set_token v c).
Hypothesis P_login_data : forall v c, P c -> P (set_login_data v c).
Hypothesis P_user_id : forall v c, P c -> P (set_user_id v c).
Hypothesis P_auth_in_progress : forall v c, P c -> P (set_auth_in_progress v c).

Lemma check_proxy_kept : keeps P (check_proxy env).
Proof. unfold check_proxy. kept. Qed.
Hint Resolve check_proxy_kept : kept.

Lemma make_connector_kept : keeps P (make_connector env).
Proof. unfold make_connector. kept. Qed.
Hint Resolve make_connector_kept : kept.

Lemma http_kept (method url : string) (body : pyval) :
  keeps P (http env method url body).
Proof. unfold http. kept. Qed.
Hint Resolve http_kept : kept.

Lemma time_now_kept : keeps P (time_now env).
Proof. unfold time_now. kept. Qed.
Hint Resolve time_now_kept : kept.

Lemma as_dict_kept (v : pyval) : keeps P (as_dict v).
Proof. unfold as_dict. kept. Qed.
Hint Resolve as_dict_kept : kept.

Lemma subscript_kept (d : pydict) (k : string) : keeps P (subscript d k).
Proof. unfold subscript. kept. Qed.
Hint Resolve subscript_kept : kept.

Lemma obj_attr_kept (d : pydict) (k : string) : keeps P (obj_attr d k).
Proof. unfold obj_attr. kept. Qed.
Hint Resolve obj_attr_kept : kept.

Lemma encrypt_password_kept (key pw : string) :
  keeps P (encrypt_password env key pw).
Proof. unfold encrypt_password. kept. Qed.
Hint Resolve encrypt_password_kept : kept.

Lemma auth_try_kept (data : pyval) : keeps P (auth_try env data).
Proof. unfold auth_try. kept. Qed.
Hint Resolve auth_try_kept : kept.

Lemma auth_attempt_kept (attempt : nat) (data : pyval) :
  keeps P (auth_attempt env attempt data).
Proof. unfold auth_attempt. kept. Qed.
Hint Resolve auth_attempt_kept : kept.

Lemma auth_for_kept (attempts : list nat) (data : pyval) :
  keeps P (auth_for env attempts data).
Proof. induction attempts; cbn [auth_for]; kept. Qed.
Hint Resolve auth_for_kept : kept.

Lemma auth_kept : keeps P (auth env).
Proof. unfold auth. kept. Qed.
Hint Resolve auth_kept : kept.

Lemma auth_or_raise_kept : keeps P (auth_or_raise env).
Proof. unfold auth_or_raise. kept. Qed.
Hint Resolve auth_or_raise_kept : kept.

Lemma request_try_kept (method url : string) (kwargs : pyval) :
  keeps P (request_try env method url kwargs).
Proof. unfold request_try. kept. Qed.
Hint Resolve request_try_kept : kept.

Lemma request_while_kept (retries : nat) (method url : string)
    (skip_auth : bool) (kwargs : pyval) :
  keeps P (request_while env retries method url skip_auth kwargs).
Proof.
  revert skip_auth kwargs.
  induction retries; intros skip_auth kwargs; cbn [request_while]; kept.
Qed.
Hint Resolve request_while_kept : kept.

Lemma request_kept (method url : string) (retries : Z) (skip_auth : bool)
    (kwargs : pyval) :
  keeps P (_request env method url retries skip_auth kwargs).
Proof. unfold _request. kept. Qed.
Hint Resolve request_kept : kept.

Lemma fetch_kept (url : string) : keeps P (fetch env url).
Proof. unfold fetch. kept. Qed.
Hint Resolve fetch_kept : kept.

Lemma get_info_kept :
  (forall v c, P c -> P (set_weight_history v c)) ->
  (forall v c, P c -> P (set_weight_info v c)) ->
  (forall v c, P c -> P (set_weight v c)) ->
  (forall v c, P c -> P (set_time_stamp v c)) ->
  (forall v c, P c -> P (set__last_updated_weight v c)) ->
  keeps P (get_info env).
Proof. intros H1 H2 H3 H4 H5. unfold get_info, get_measurements. kept. Qed.

Lemma list_girth_kept :
  (forall v c, P c -> P (set_girth_info v c)) ->
  (forall v c, P c -> P (set__last_updated_girth v c)) ->
  keeps P (list_girth env).
Proof. intros H1 H2. unfold list_girth. kept. Qed.

Lemma list_girth_goal_kept :
  (forall v c, P c -> P (set_girth_goal v c)) ->
  (forall v c, P c -> P (set__last_updated_girth_goal v c)) ->
  keeps P (list_girth_goal env).
Proof. intros H1 H2. unfold list_girth_goal. kept. Qed.

End Session.

Lemma keeps_run {A : Type} (P : RenphoWeight -> Prop) (m : M A) (s : State) :
  keeps P m -> P (client s) -> P (client (snd (m s))).
Proof. intros H. apply (H s (fst (m s))). apply surjective_pairing. Qed.

(** X11.  [auth] and [_request] assign only the token, the login payload,
    the user id and the in-progress flag: however they end, the
    credentials, the key, the proxy, every cache with its timestamp and
    the attributes of the poller are what they were before the call. *)
Theorem session_calls_write_session_attributes_only :
  forall (env : Env) (s : State),
    outside_session (client (snd (auth env s))) = outside_session (client s)
    /\ forall method url retries skip_auth kwargs,
         outside_session
           (client (snd (_request env method url retries skip_auth kwargs s)))
         = outside_session (client s).
Proof.
  intros env s. split; [|intros method url retries skip_auth kwargs];
    apply (keeps_run (fun c => outside_session c = outside_session (client s)));
    try reflexivity.
  - apply auth_kept; intros v c H; exact H.
  - apply request_kept; intros v c H; exact H.
Qed.

(** X12.  Each fetcher of the poll cycle writes its own cache and nothing
    else outside the session: fetching the weight leaves the girth and
    girth-goal caches alone, fetching the girths leaves the weight and
    girth-goal caches alone, fetching the girth goals leaves the weight
    and girth caches alone, and none of them touches the credentials, the
    proxy, the poller or the remaining caches. *)
Theorem poll_fetchers_write_their_own_cache :
  forall (env : Env) (s : State),
    let rest c := (config c, poller c, other_caches c) in
    (let s' := snd (get_info env s) in
     rest (client s') = rest (client s)
     /\ girth_cache (client s') = girth_cache (client s)
     /\ goal_cache (client s') = goal_cache (client s))
    /\ (let s' := snd (list_girth env s) in
        rest (client s') = rest (client s)
        /\ weight_cache (client s') = weight_cache (client s)
        /\ goal_cache (client s') = goal_cache (client s))
    /\ (let s' := snd (list_girth_goal env s) in
        rest (client s') = rest (client s)
        /\ weight_cache (client s') = weight_cache (client s)
        /\ girth_cache (client s') = girth_cache (client s)).
Proof.
  intros env s rest. split; [|split]; cbv zeta.
  - apply (keeps_run
             (fun c => rest c = rest (client s)
                       /\ girth_cache c = girth_cache (client s)
                       /\ goal_cache c = goal_cache (client s)));
      [apply get_info_kept; intros v c H; exact H | repeat split].
  - apply (keeps_run
             (fun c => rest c = rest (client s)
                       /\ weight_cache c = weight_cache (client s)
                       /\ goal_cache c = goal_cache (client s)));
      [apply list_girth_kept; intros v c H; exact H | repeat split].
  - apply (keeps_run
             (fun c => rest c = rest (client s)
                       /\ weight_cache c = weight_cache (client s)
                       /\ girth_cache c = girth_cache (client s)));
      [apply list_girth_goal_kept; intros v c H; exact H | repeat split].
Qed.

(** ** Authentication: the retry loop *)

Lemma auth_enters_loop (env : Env) (bytes : string) (s : State) :
  ready env bytes (client s) ->
  auth env s
  = auth_for env (seq 0 3) (credentials env (client s) bytes)
      (mkState (set_auth_in_progress true (client s)) (trace s)).
Proof.
  intros [Hf He Hp (pem & rsa_key & Hk & Hi & Hx)].
  unfold auth. step. rewrite Hf. step.
  apply String.eqb_neq in He, Hp. rewrite He, Hp. cbn [orb when]. step.
  cbn [public_key set_auth_in_progress]. rewrite Hk.
  step_by (eapply encrypt_password_succeeds; eassumption).
  reflexivity.
Qed.

Lemma auth_attempt_clears (env : Env) (attempt : nat) (data : pyval) (s : State) :
  auth_in_progress (client (snd (auth_attempt env attempt data s))) = false.
Proof.
  unfold auth_attempt, try_finally.
  match goal with
  | |- context [try_except ?m ?h ?k s] => destruct (try_except m h k s) as [r s1]
  end.
  reflexivity.
Qed.

Lemma auth_for_clears (env : Env) (attempts : list nat) (data : pyval) :
  forall s,
    attempts <> [] \/ auth_in_progress (client s) = false ->
    auth_in_progress (client (snd (auth_for env attempts data s))) = false.
Proof.
  induction attempts as [|a rest IH]; intros s H.
  - destruct H as [H|H]; [congruence | exact H].
  - cbn [auth_for]. unfold bind.
    pose proof (auth_attempt_clears env a data s) as Hc.
    destruct (auth_attempt env a data s) as [[[v|]|e] s1]; cbn [snd] in Hc.
    + exact Hc.
    + apply IH. now right.
    + exact Hc.
Qed.

(** X13.  Once [auth] reaches its retry loop (credentials present and the
    password encrypted), the in-progress flag is clear when the call ends,
    whether it returns [True], returns [None] or raises: only the exits
    before the loop leave the flag set. *)
Theorem auth_clears_flag_after_loop :
  forall (env : Env) (bytes : string) (s : State),
    ready env bytes (client s) ->
    auth_in_progress (client (snd (auth env s))) = false.
Proof.
  intros env bytes s Hr. rewrite (auth_enters_loop env bytes s Hr).
  apply auth_for_clears. left. discriminate.
Qed.

Lemma auth_clears_flag_example :
  auth_in_progress
    (client (snd (auth Examples.offline (Demo.fresh "a@b.c" "secret")))) = false.
Proof.
  apply (auth_clears_flag_after_loop Examples.offline "rsa:secret").
  apply (client_ready Demo.reachable Examples.silent PyNone []).
Defined.

Lemma auth_attempt_unreachable (env : Env) (attempt : nat) (data : pyval)
    (s : State) :
  connects env (client s) ->
  (forall past, httpbin_get env past <> inr 200) ->
  exists evs,
    auth_attempt env attempt data s
    = (Raise proxy_check_failed, mkState (signed_out (client s)) (trace s ++ evs))
    /\ filter is_request evs = [].
Proof.
  intros Hc Hp.
  destruct (check_proxy_fails env
              (mkState (set_token PyNone (client s)) (trace s)) Hc Hp)
    as (evs & H & Hn).
  exists (evs ++ [EvLog ERROR "Proxy check failed. Aborting authentication."])%list.
  split.
  - unfold auth_attempt, try_finally, try_except, auth_try.
    step. step_by (exact H). run. now rewrite <- app_assoc.
  - rewrite filter_app, Hn. reflexivity.
Qed.

(** X14.  When the reachability probe does not answer with status 200,
    [auth] raises [APIError], not [AuthenticationError], at its first
    attempt: the vendor is not contacted, nothing is retried, and the
    token is [None] afterwards, also when the client held one before the
    call; the in-progress flag is clear. *)
Theorem auth_raises_APIError_when_probe_fails :
  forall (env : Env) (bytes : string) (s : State),
    ready env bytes (client s) ->
    connects env (client s) ->
    (forall past, httpbin_get env past <> inr 200) ->
    exists evs,
      auth env s
      = (Raise proxy_check_failed,
         mkState (signed_out (client s)) (trace s ++ evs))
      /\ filter is_request evs = [].
Proof.
  intros env bytes s Hr Hc Hp.
  rewrite (auth_enters_loop env bytes s Hr).
  destruct (auth_attempt_unreachable env 0 (credentials env (client s) bytes)
              (mkState (set_auth_in_progress true (client s)) (trace s)) Hc Hp)
    as (evs & H & Hn).
  exists evs. split; [|exact Hn].
  cbn [auth_for seq]. erewrite bind_raise by exact H. reflexivity.
Qed.

Lemma auth_raises_APIError_example :
  exists evs,
    auth (Demo.world Cases.unavailable Examples.silent) Scenarios.holding_token
    = (Raise proxy_check_failed,
       mkState (signed_out (client Scenarios.holding_token))
         (trace Scenarios.holding_token ++ evs))
    /\ filter is_request evs = [].
Proof.
  apply (auth_raises_APIError_when_probe_fails
           (Demo.world Cases.unavailable Examples.silent) "rsa:secret"
           Scenarios.holding_token).
  - apply (client_ready Cases.unavailable Examples.silent (PyStr "old") []).
  - exact I.
  - intros past. discriminate.
Defined.

Lemma http_fails (env : Env) (method url : string) (body : pyval) (e : exn)
    (s : State) :
  session_request env (trace s) method url body = inl e ->
  http env method url body s = (Raise e, after s [EvRequest method url body]).
Proof. intros H. unfold http. run. now rewrite H. Qed.

(** The [try] block of an attempt, up to the request. *)
Ltac to_the_answer :=
  unfold auth_try; step;
  (step_by (now apply check_proxy_through));
  cbn [negb when]; step;
  (step_by (now apply make_connector_connects)).

Lemma when_raises (b : bool) (lvl : level) (msg : string) (e : exn)
    {A : Type} (k : M A) (s : State) :
  b = true ->
  (when b (log lvl msg;; raise e);; k) s = (Raise e, after s [EvLog lvl msg]).
Proof. intros ->. reflexivity. Qed.

Lemma when_skips (b : bool) (m : M unit) {A : Type} (k : M A) (s : State) :
  b = false -> (when b m;; k) s = k s.
Proof. intros ->. reflexivity. Qed.

(** The same, up to the status of a [dict] the vendor answered with. *)
Ltac to_the_envelope E :=
  to_the_answer; (step_by (apply http_ok; exact E));
  cbn [is_None]; rewrite when_skips by reflexivity;
  cbn [as_dict]; step; cbv zeta.

Lemma auth_try_transport (env : Env) (data : pyval) (e : exn) (s : State) :
  connects env (client s) ->
  (forall past, httpbin_get env past = inr 200) ->
  session_request env (trace s ++ probe_events (client s)) "POST" API_AUTH_URL
    data = inl e ->
  auth_try env data s
  = (Raise e,
     mkState (set_token PyNone (client s))
       (trace s ++ sign_in_events (client s) data)).
Proof.
  intros Hc Hp E. to_the_answer.
  erewrite bind_raise by (apply http_fails; exact E).
  unfold after, sign_in_events. cbn [client trace]. now rewrite app_assoc.
Qed.

Lemma auth_try_refused (env : Env) (data v : pyval) (s : State) :
  connects env (client s) ->
  (forall past, httpbin_get env past = inr 200) ->
  session_request env (trace s ++ probe_events (client s)) "POST" API_AUTH_URL
    data = inr v ->
  refusal v ->
  exists e lvl msg,
    auth_try env data s
    = (Raise e,
       mkState (set_token PyNone (client s))
         (trace s ++ sign_in_events (client s) data ++ [EvLog lvl msg]))
    /\ exn_cls e = AuthenticationError.
Proof.
  intros Hc Hp E Hv.
  assert (Hout : forall e lvl msg,
             auth_try env data s
             = (Raise e,
                mkState (set_token PyNone (client s))
                  (((trace s ++ probe_events (client s))
                    ++ [EvRequest "POST" API_AUTH_URL data])
                   ++ [EvLog lvl msg])) ->
             exn_cls e = AuthenticationError ->
             exists e lvl msg,
               auth_try env data s
               = (Raise e,
                  mkState (set_token PyNone (client s))
                    (trace s ++ sign_in_events (client s) data
                     ++ [EvLog lvl msg]))
               /\ exn_cls e = AuthenticationError).
  { intros e lvl msg H Hcls. exists e, lvl, msg. split; [|exact Hcls].
    rewrite H. unfold sign_in_events. now rewrite <- !app_assoc. }
  destruct Hv as [-> | (d & -> & Hd)].
  - eapply Hout;
      [to_the_answer; (step_by (apply http_ok; exact E));
       cbn [is_None]; now rewrite when_raises by reflexivity
      |reflexivity].
  - destruct (eq_str (dict_get_default d "status_code") "50000"
              && eq_str (dict_get_default d "status_message")
                   "Email was not registered") eqn:B1.
    { eapply Hout;
        [to_the_envelope E; now rewrite when_raises by exact B1 | reflexivity]. }
    destruct (eq_str (dict_get_default d "status_code") "500"
              && eq_str (dict_get_default d "status_message")
                   "Internal Server Error") eqn:B2.
    { eapply Hout;
        [to_the_envelope E; rewrite when_skips by exact B1;
         now rewrite when_raises by exact B2
        |reflexivity]. }
    assert (B3 : negb (dict_has d "terminal_user_session_key") = true).
    { unfold dict_get_default in B1, B2. unfold dict_has.
      destruct Hd as [[H1 H2] | [[H1 H2] | H]].
      - rewrite H1, H2 in B1. discriminate.
      - rewrite H1, H2 in B2. discriminate.
      - now rewrite H. }
    eapply Hout;
      [to_the_envelope E; rewrite when_skips by exact B1;
       rewrite when_skips by exact B2; now rewrite when_raises by exact B3
      |reflexivity].
Qed.

Lemma auth_attempt_refused (env : Env) (attempt : nat) (data v : pyval)
    (s : State) :
  connects env (client s) ->
  (forall past, httpbin_get env past = inr 200) ->
  session_request env (trace s ++ probe_events (client s)) "POST" API_AUTH_URL
    data = inr v ->
  refusal v ->
  exists e lvl msg,
    auth_attempt env attempt data s
    = (Raise e,
       mkState (signed_out (client s))
         (trace s ++ sign_in_events (client s) data ++ [EvLog lvl msg]))
    /\ exn_cls e = AuthenticationError.
Proof.
  intros Hc Hp E Hv.
  destruct (auth_try_refused env data v s Hc Hp E Hv) as (e & lvl & msg & H & Hcls).
  exists e, lvl, msg. split; [|exact Hcls].
  unfold auth_attempt, try_finally, try_except. rewrite H.
  assert (Hce : is_client_error e = false)
    by (unfold is_client_error; now rewrite Hcls).
  now rewrite Hce.
Qed.

(** X15.  When the vendor answers the sign-in with no body, with one of
    its two rejection envelopes, or with an envelope that has no session
    key, [auth] raises [AuthenticationError] at the first attempt: one
    probe, one sign-in, one log record, no retry and no sleep; the token is
    [None] and the in-progress flag is clear. *)
Theorem auth_refused_raises_at_once :
  forall (env : Env) (bytes : string) (v : pyval) (s : State),
    ready env bytes (client s) ->
    connects env (client s) ->
    (forall past, httpbin_get env past = inr 200) ->
    session_request env (trace s ++ probe_events (client s)) "POST" API_AUTH_URL
      (credentials env (client s) bytes) = inr v ->
    refusal v ->
    exists e lvl msg,
      auth env s
      = (Raise e,
         mkState (signed_out (client s))
           (trace s ++ sign_in_events (client s)
                         (credentials env (client s) bytes)
            ++ [EvLog lvl msg]))
      /\ exn_cls e = AuthenticationError.
Proof.
  intros env bytes v s Hr Hc Hp E Hv.
  rewrite (auth_enters_loop env bytes s Hr).
  destruct (auth_attempt_refused env 0 (credentials env (client s) bytes) v
              (mkState (set_auth_in_progress true (client s)) (trace s))
              Hc Hp E Hv) as (e & lvl & msg & H & Hcls).
  exists e, lvl, msg. split; [|exact Hcls].
  cbn [auth_for seq]. erewrite bind_raise by exact H. reflexivity.
Qed.

Lemma auth_refused_example :
  exists e lvl msg,
    auth (Demo.world Demo.reachable Cases.rejecting) (Demo.fresh "a@b.c" "secret")
    = (Raise e,
       mkState (signed_out (client (Demo.fresh "a@b.c" "secret")))
         (trace (Demo.fresh "a@b.c" "secret")
          ++ sign_in_events (client (Demo.fresh "a@b.c" "secret"))
               (credentials (Demo.world Demo.reachable Cases.rejecting)
                  (client (Demo.fresh "a@b.c" "secret")) "rsa:secret")
          ++ [EvLog lvl msg]))
    /\ exn_cls e = AuthenticationError.
Proof.
  apply (auth_refused_raises_at_once (Demo.world Demo.reachable Cases.rejecting)
           "rsa:secret" (PyDict Cases.unregistered) (Demo.fresh "a@b.c" "secret")).
  - apply (client_ready Demo.reachable Cases.rejecting PyNone []).
  - exact I.
  - reflexivity.
  - reflexivity.
  - right. exists Cases.unregistered. split; [reflexivity|].
    left. split; reflexivity.
Defined.

Lemma auth_attempt_transport (env : Env) (attempt : nat) (data : pyval)
    (s : State) :
  connects env (client s) ->
  (forall past, httpbin_get env past = inr 200) ->
  sign_in_unreachable env ->
  exists e evs,
    auth_attempt env attempt data s
    = ((if (attempt <? 2)%nat then Ok None
        else Raise (Exn AuthenticationError
                      ("Authentication failed after retries. " ++ exn_msg e))),
       mkState (signed_out (client s)) (trace s ++ evs))
    /\ count is_sign_in evs = 1%nat
    /\ filter is_sleep evs = (if (attempt <? 2)%nat then [EvSleep 5] else []).
Proof.
  intros Hc Hp Hun.
  destruct (Hun (trace s ++ probe_events (client s))%list data) as (e & E & Hce).
  pose proof (auth_try_transport env data e s Hc Hp E) as H.
  exists e,
    (sign_in_events (client s) data
     ++ [EvLog ERROR ("Authentication failed: " ++ exn_msg e)]
     ++ if (attempt <? 2)%nat then [EvSleep 5] else [])%list.
  split; [|split].
  - unfold auth_attempt, try_finally, try_except. rewrite H, Hce.
    change (3 - 1)%nat with 2%nat.
    destruct (attempt <? 2)%nat; run; now rewrite <- ?app_assoc.
  - rewrite !count_app.
    change (count is_sign_in (sign_in_events _ _)) with 1%nat.
    destruct (attempt <? 2)%nat; reflexivity.
  - rewrite !filter_app.
    change (filter is_sleep (sign_in_events _ _)) with (@nil event).
    destruct (attempt <? 2)%nat; reflexivity.
Qed.

(** X16.  When every sign-in ends in an aiohttp response or connection
    error, [auth] tries three times, sleeping five seconds after the first
    and after the second failure, and then raises [AuthenticationError]
    quoting the last error.  The token is [None] afterwards, also when the
    client held a token before the call, so [is_valid_session] answers
    [False]; the in-progress flag is clear. *)
Theorem auth_gives_up_after_three_transport_errors :
  forall (env : Env) (bytes : string) (s : State),
    ready env bytes (client s) ->
    connects env (client s) ->
    (forall past, httpbin_get env past = inr 200) ->
    sign_in_unreachable env ->
    exists e evs s',
      auth env s
      = (Raise (Exn AuthenticationError
                  ("Authentication failed after retries. " ++ exn_msg e)), s')
      /\ s' = mkState (signed_out (client s)) (trace s ++ evs)
      /\ count is_sign_in evs = 3%nat
      /\ filter is_sleep evs = [EvSleep 5; EvSleep 5]
      /\ is_valid_session s' = (Ok false, s').
Proof.
  intros env bytes s Hr Hc Hp Hun.
  rewrite (auth_enters_loop env bytes s Hr).
  set (data := credentials env (client s) bytes).
  destruct (auth_attempt_transport env 0 data
              (mkState (set_auth_in_progress true (client s)) (trace s))
              Hc Hp Hun) as (e0 & evs0 & H0 & Hn0 & Hz0).
  destruct (auth_attempt_transport env 1 data
              (mkState (signed_out (client s)) (trace s ++ evs0))
              Hc Hp Hun) as (e1 & evs1 & H1 & Hn1 & Hz1).
  destruct (auth_attempt_transport env 2 data
              (mkState (signed_out (client s)) ((trace s ++ evs0) ++ evs1))
              Hc Hp Hun) as (e2 & evs2 & H2 & Hn2 & Hz2).
  exists e2, (evs0 ++ evs1 ++ evs2)%list. eexists.
  split; [|split; [reflexivity|split; [|split]]].
  - cbn [auth_for seq].
    step_by (exact H0). step_by (exact H1).
    erewrite bind_raise by exact H2. cbn [client trace].
    now rewrite <- !app_assoc.
  - rewrite !count_app. lia.
  - rewrite !filter_app, Hz0, Hz1, Hz2. reflexivity.
  - reflexivity.
Qed.

Lemma auth_gives_up_example :
  exists e evs s',
    auth Examples.offline Scenarios.holding_token
    = (Raise (Exn AuthenticationError
                ("Authentication failed after retries. " ++ exn_msg e)), s')
    /\ s' = mkState (signed_out (client Scenarios.holding_token))
              (trace Scenarios.holding_token ++ evs)
    /\ count is_sign_in evs = 3%nat
    /\ filter is_sleep evs = [EvSleep 5; EvSleep 5]
    /\ is_valid_session s' = (Ok false, s').
Proof.
  apply (auth_gives_up_after_three_transport_errors Examples.offline "rsa:secret"
           Scenarios.holding_token).
  - apply (client_ready Demo.reachable Examples.silent (PyStr "old") []).
  - exact I.
  - reflexivity.
  - intros past body. exists (Exn ClientConnectionError "unreachable").
    split; reflexivity.
Defined.

Lemma auth_try_undecided (env : Env) (data : pyval) (d : pydict) (s : State) :
  connects env (client s) ->
  (forall past, httpbin_get env past = inr 200) ->
  session_request env (trace s ++ probe_events (client s)) "POST" API_AUTH_URL
    data = inr (PyDict d) ->
  undecided d ->
  auth_try env data s
  = (Ok None,
     mkState (set_token PyNone (client s))
       (trace s ++ sign_in_events (client s) data)).
Proof.
  intros Hc Hp E (Hk & B1 & B2 & B3).
  to_the_envelope E.
  rewrite when_skips by exact B1. rewrite when_skips by exact B2.
  rewrite when_skips by (now rewrite Hk). rewrite B3.
  unfold sign_in_events. now rewrite app_assoc.
Qed.

Lemma auth_attempt_undecided (env : Env) (attempt : nat) (data : pyval)
    (d : pydict) (s : State) :
  connects env (client s) ->
  (forall past, httpbin_get env past = inr 200) ->
  (forall past body,
      session_request env past "POST" API_AUTH_URL body = inr (PyDict d)) ->
  undecided d ->
  auth_attempt env attempt data s
  = (Ok None,
     mkState (signed_out (client s))
       (trace s ++ sign_in_events (client s) data)).
Proof.
  intros Hc Hp E Hd. unfold auth_attempt, try_finally, try_except.
  now rewrite (auth_try_undecided env data d s Hc Hp (E _ _) Hd).
Qed.

(** X17.  When the vendor answers every sign-in with an envelope that has
    a session key but is neither the success envelope nor one of the two
    rejections, [auth] signs in three times in a row, without sleeping and
    without logging anything but the probe, and then returns [None]: it
    neither raises nor returns [False].  The token is [None] afterwards. *)
Theorem auth_returns_None_on_undecided_answers :
  forall (env : Env) (bytes : string) (d : pydict) (s : State),
    ready env bytes (client s) ->
    connects env (client s) ->
    (forall past, httpbin_get env past = inr 200) ->
    (forall past body,
        session_request env past "POST" API_AUTH_URL body = inr (PyDict d)) ->
    undecided d ->
    let attempt := sign_in_events (client s) (credentials env (client s) bytes) in
    auth env s
    = (Ok PyNone,
       mkState (signed_out (client s))
         (trace s ++ attempt ++ attempt ++ attempt)).
Proof.
  intros env bytes d s Hr Hc Hp E Hd attempt.
  rewrite (auth_enters_loop env bytes s Hr).
  cbn [auth_for seq].
  step_by (apply (auth_attempt_undecided env 0 _ d); assumption).
  step_by (apply (auth_attempt_undecided env 1 _ d); assumption).
  step_by (apply (auth_attempt_undecided env 2 _ d); assumption).
  subst attempt. now rewrite <- !app_assoc.
Qed.

Lemma auth_returns_None_example :
  auth (Demo.world Demo.reachable Cases.hesitant) (Demo.fresh "a@b.c" "secret")
  = (Ok PyNone,
     mkState (signed_out (client (Demo.fresh "a@b.c" "secret")))
       (trace (Demo.fresh "a@b.c" "secret")
        ++ sign_in_events (client (Demo.fresh "a@b.c" "secret"))
             (credentials (Demo.world Demo.reachable Cases.hesitant)
                (client (Demo.fresh "a@b.c" "secret")) "rsa:secret")
        ++ sign_in_events (client (Demo.fresh "a@b.c" "secret"))
             (credentials (Demo.world Demo.reachable Cases.hesitant)
                (client (Demo.fresh "a@b.c" "secret")) "rsa:secret")
        ++ sign_in_events (client (Demo.fresh "a@b.c" "secret"))
             (credentials (Demo.world Demo.reachable Cases.hesitant)
                (client (Demo.fresh "a@b.c" "secret")) "rsa:secret"))).
Proof.
  apply (auth_returns_None_on_undecided_answers
           (Demo.world Demo.reachable Cases.hesitant) "rsa:secret" Cases.pending
           (Demo.fresh "a@b.c" "secret")).
  - apply (client_ready Demo.reachable Cases.hesitant PyNone []).
  - exact I.
  - reflexivity.
  - reflexivity.
  - repeat split.
Defined.

(** X18.  After a sign-in that succeeds, [is_valid_session] answers
    whether the session key of the answer is something other than [None]:
    [True] for every key the vendor sends, and [False] when the answer
    carries a null key, although [auth] returned [True]. *)
Theorem session_is_valid_after_sign_in :
  forall (env : Env) (login : pydict) (key : pyval) (bytes : string) (s : State),
    cooperative env login key ->
    ready env bytes (client s) ->
    exists s',
      auth env s = (Ok (PyBool true), s')
      /\ is_valid_session s' = (Ok (negb (is_None key)), s').
Proof.
  intros env login key bytes s Hco Hr.
  exists (signed env login key bytes s).
  split; [now apply auth_ready|].
  unfold is_valid_session. step. cbn [client signed].
  destruct (signed_in_fields login key (client s)) as (Ht & _).
  now rewrite Ht.
Qed.

Lemma session_is_valid_example :
  exists s',
    auth (Demo.world Demo.reachable (Scenarios.vendor 0))
      (Demo.fresh "a@b.c" "secret") = (Ok (PyBool true), s')
    /\ is_valid_session s' = (Ok true, s').
Proof.
  apply (session_is_valid_after_sign_in
           (Demo.world Demo.reachable (Scenarios.vendor 0)) scenario_login
           (PyStr "abc") "rsa:secret" (Demo.fresh "a@b.c" "secret")).
  - apply (vendor_cooperative 0).
  - apply (client_ready Demo.reachable (Scenarios.vendor 0) PyNone []).
Defined.

(** X19.  A user id given to the constructor survives the sign-in: [auth]
    adopts the id of the sign-in answer only when the client has none,
    that is when the constructor was given [None] or the empty string. *)
Theorem configured_user_id_is_kept :
  forall (env : Env) (login : pydict) (key : pyval) (bytes : string)
         (email pw : string) (uid : pyval) (refresh : Z) (proxy : option string)
         (past : list event),
    cooperative env login key ->
    ready env bytes (__init__ email pw uid refresh proxy) ->
    user_id
      (client (snd (auth env
                      (mkState (__init__ email pw uid refresh proxy) past))))
    = if is_None uid || eq_str uid "" then obj_get login "id" else uid.
Proof.
  intros env login key bytes email pw uid refresh proxy past Hco Hr.
  rewrite (auth_ready env login key bytes
             (mkState (__init__ email pw uid refresh proxy) past) Hco Hr).
  cbn [snd client signed].
  destruct (signed_in_fields login key (__init__ email pw uid refresh proxy))
    as (_ & _ & _ & _ & _ & _ & Hid).
  rewrite Hid. cbn [user_id __init__].
  assert (Hget : obj_get (dict_set login "device_binds_ary" (PyList [])) "id"
                 = obj_get login "id").
  { unfold obj_get, dict_get_default. now rewrite dict_get_set. }
  rewrite Hget.
  destruct uid as [| b | q | u | b | l | d]; cbn [eq_str is_None orb];
    try reflexivity.
  destruct (u =? "")%string; reflexivity.
Qed.

Lemma configured_ready (probe : list event -> exn + Z)
    (answers : list event -> string -> string -> pyval -> exn + pyval) :
  ready (Demo.world probe answers) "rsa:secret" Cases.configured.
Proof.
  constructor; try reflexivity; try discriminate.
  exists CONF_PUBLIC_KEY, CONF_PUBLIC_KEY. repeat split.
Defined.

Lemma configured_user_id_example :
  user_id
    (client (snd (auth (Demo.world Demo.reachable (Scenarios.vendor 0))
                    (mkState Cases.configured []))))
  = PyStr "7".
Proof.
  apply (configured_user_id_is_kept
           (Demo.world Demo.reachable (Scenarios.vendor 0)) scenario_login
           (PyStr "abc") "rsa:secret" "a@b.c" "secret" (PyStr "7") 60 None []).
  - apply (vendor_cooperative 0).
  - apply configured_ready.
Defined.

(** ** Validating the credentials *)

(** X20.  [validate_credentials] lets no exception out but
    [AuthenticationError]: whatever [auth] raises, a failing encryption
    included, is logged and raised again as an [AuthenticationError] that
    quotes it.  It does not return [False] on failure, as its docstring
    says, with one exception: called while a sign-in is in progress it
    returns the [False] of the re-entry guard. *)
Theorem validate_credentials_raises_AuthenticationError_only :
  forall (env : Env) (s : State),
    (forall e s',
        validate_credentials env s = (Raise e, s') ->
        exn_cls e = AuthenticationError)
    /\ (auth_in_progress (client s) = true ->
        fst (validate_credentials env s) = Ok (PyBool false))
    /\ (forall key e,
          auth_in_progress (client s) = false ->
          email (client s) <> "" -> password (client s) <> "" ->
          public_key (client s) = Some key ->
          encryption_fails env key (password (client s)) e ->
          fst (validate_credentials env s)
          = Raise (Exn AuthenticationError
                     ("Invalid credentials for user " ++ email (client s)
                      ++ ". Error details: " ++ exn_msg e))).
Proof.
  intros env s. split; [|split].
  - intros e s'. unfold validate_credentials. step. step.
    unfold try_except.
    match goal with
    | |- context [auth env ?st] => destruct (auth env st) as [[v|e0] s1]
    end.
    + discriminate.
    + cbn [is_Exception]. step. step. intros H. now inversion H.
  - intros Hf. unfold validate_credentials. step. step.
    unfold try_except.
    match goal with
    | |- context [auth env ?st] => now rewrite (auth_guard env st Hf)
    end.
  - intros key e Hf He Hp Hk Hx. unfold validate_credentials. step. step.
    unfold try_except.
    match goal with
    | |- context [auth env ?st] =>
        rewrite (auth_encryption_fails env st key e Hf He Hp Hk Hx)
    end.
    cbn [is_Exception]. step. step. reflexivity.
Qed.

Lemma validate_credentials_example :
  exists e s',
    validate_credentials Examples.bad_key_world (Demo.fresh "a@b.c" "secret")
    = (Raise e, s')
    /\ exn_cls e = AuthenticationError.
Proof.
  eexists. eexists. split; [vm_compute; reflexivity|].
  eapply (proj1 (validate_credentials_raises_AuthenticationError_only
                   Examples.bad_key_world (Demo.fresh "a@b.c" "secret"))).
  vm_compute. reflexivity.
Defined.

(** ** The weight cache *)

Lemma status_20000_body (d : pydict) : status_20000 d = true -> no_body (Some d) = false.
Proof. destruct d; [discriminate | reflexivity]. Qed.

(** X21.  When the measurements endpoint answers with the success status
    and a non-empty [last_ary], [get_measurements] returns the first
    measurement and caches the whole list, that measurement, its weight
    and its timestamp, and stamps the time of the update; from then on
    [get_specific_metric("weight", m)] answers from the cache, with the
    field [m] of that measurement and without any network operation. *)
Theorem get_measurements_fills_the_weight_cache :
  forall (env : Env) (s s1 : State) (d : pydict) (m : pyval) (ms : list pyval)
         (h : MeasurementDetail) (hs : list MeasurementDetail) (w ts : pyval),
    fetch env (fetch_url env API_MEASUREMENTS_URL "last_at" (client s)) s
    = (Ok (Some d), s1) ->
    status_20000 d = true ->
    dict_get d "last_ary" = Some (PyList (m :: ms)) ->
    map_exn (new_MeasurementDetail env) (m :: ms) = inr (h :: hs) ->
    dict_get h "weight" = Some w ->
    dict_get h "time_stamp" = Some ts ->
    exists s2,
      get_measurements env s = (Ok (Some h), s2)
      /\ trace s2 = trace s1
      /\ weight_cache (client s2)
         = (Some h, h :: hs, w, Some ts, Some (time_time env (trace s1)))
      /\ forall metric,
           get_specific_metric env METRIC_TYPE_WEIGHT metric PyNone s2
           = (Ok (obj_get h metric), s2).
Proof.
  intros env s s1 d m ms h hs w ts Hf Hs Hl Hm Hw Ht.
  eexists. split; [|split; [|split]].
  - unfold get_measurements. step. cbv zeta. unfold try_except.
    step_by (exact Hf). rewrite (status_20000_body d Hs). cbn [body_of].
    rewrite Hs, Hl. cbn [truthy iter_mappings lift]. step.
    rewrite Hm. cbn [lift]. repeat step.
    unfold obj_attr. rewrite Hw, Ht. repeat step.
    unfold time_now. repeat step. reflexivity.
  - reflexivity.
  - reflexivity.
  - intros metric. unfold get_specific_metric. cbn [truthy when]. step.
    unfold try_except. cbn [String.eqb METRIC_TYPE_WEIGHT]. run.
    now destruct (truthy w).
Qed.

Lemma get_measurements_example :
  exists s2,
    get_measurements (Demo.world Demo.reachable Cases.weighing)
      (Demo.fresh "a@b.c" "secret") = (Ok (Some Cases.measurement), s2)
    /\ trace s2
       = trace (snd (fetch (Demo.world Demo.reachable Cases.weighing)
                       (fetch_url (Demo.world Demo.reachable Cases.weighing)
                          API_MEASUREMENTS_URL "last_at"
                          (client (Demo.fresh "a@b.c" "secret")))
                       (Demo.fresh "a@b.c" "secret")))
    /\ weight_cache (client s2)
       = (Some Cases.measurement, [Cases.measurement], PyNum 70,
          Some (PyNum 1700000000),
          Some (time_time (Demo.world Demo.reachable Cases.weighing)
                  (trace (snd (fetch (Demo.world Demo.reachable Cases.weighing)
                                 (fetch_url
                                    (Demo.world Demo.reachable Cases.weighing)
                                    API_MEASUREMENTS_URL "last_at"
                                    (client (Demo.fresh "a@b.c" "secret")))
                                 (Demo.fresh "a@b.c" "secret"))))))
    /\ forall metric,
         get_specific_metric (Demo.world Demo.reachable Cases.weighing)
           METRIC_TYPE_WEIGHT metric PyNone s2
         = (Ok (obj_get Cases.measurement metric), s2).
Proof.
  apply (get_measurements_fills_the_weight_cache
           (Demo.world Demo.reachable Cases.weighing)
           (Demo.fresh "a@b.c" "secret") _ Cases.weight_answer
           (PyDict Cases.measurement) [] Cases.measurement []).
  - vm_compute. reflexivity.
  - reflexivity.
  - reflexivity.
  - reflexivity.
  - reflexivity.
  - reflexivity.
Defined.

Lemma get_measurements_total (env : Env) (s : State) :
  exists info s', get_measurements env s = (Ok info, s').
Proof. exact (proj1 (get_measurements_quiet env s)). Qed.

(** X22.  [get_weight] answers from the cache, without any network
    operation, when the client holds a weight other than zero and a
    measurement.  Otherwise it stamps the time and fetches, and the weight
    it returns is the one the client held before the fetch: beside a
    measurement just fetched it still returns the old weight, [None] on a
    client that never fetched. *)
Theorem get_weight_returns_the_weight_before_the_fetch :
  forall (env : Env) (s : State),
    (forall info,
        truthy (weight (client s)) = true ->
        weight_info (client s) = Some info ->
        get_weight env s = (Ok (weight (client s), Some info), s))
    /\ (truthy (weight (client s)) = false \/ weight_info (client s) = None ->
        exists info s',
          get_measurements env
            (mkState (set__last_updated_weight (Some (time_time env (trace s)))
                        (client s)) (trace s))
          = (Ok info, s')
          /\ get_weight env s = (Ok (weight (client s), info), s')).
Proof.
  intros env s. split.
  - intros info Hw Hi. unfold get_weight. step. now rewrite Hw, Hi.
  - intros H. unfold get_weight. step.
    assert (Hc : truthy (weight (client s))
                 && negb (is_none (weight_info (client s))) = false).
    { destruct H as [-> | ->]; [reflexivity | apply andb_false_r]. }
    rewrite Hc. unfold time_now. repeat step.
    match goal with
    | |- context [get_measurements env ?st] =>
        destruct (get_measurements_total env st) as (info & s' & Hm)
    end.
    exists info, s'. split; [exact Hm|].
    step_by (exact Hm). reflexivity.
Qed.

(** On a client that never fetched, the first [get_weight] returns no
    weight beside the measurement of 70 that it has just cached. *)
Example get_weight_first_call :
  fst (get_weight (Demo.world Demo.reachable Cases.weighing)
         (Demo.fresh "a@b.c" "secret"))
  = Ok (PyNone, Some Cases.measurement)
  /\ weight (client (snd (get_weight (Demo.world Demo.reachable Cases.weighing)
                            (Demo.fresh "a@b.c" "secret"))))
     = PyNum 70.
Proof. split; vm_compute; reflexivity. Qed.

(** ** The metric accessor *)

Section Latest.

Context {A : Type} (key : A -> Z) (p : A -> bool).

(** The head of the sorted selection is the first of the latest entries. *)
Lemma sorted_reverse_first_latest (l : list A) :
  filter p l = []
  \/ exists l1 x l2 rest,
       l = (l1 ++ x :: l2)%list
       /\ first_latest key (fun y => p y = true) l1 x l2
       /\ sorted_reverse key (filter p l) = x :: rest.
Proof.
  induction l as [|a l IH]; [now left|].
  cbn [filter]. destruct (p a) eqn:Ha.
  - right. cbn [sorted_reverse fold_right].
    fold (sorted_reverse key (filter p l)).
    destruct IH as [E | (l1 & x & l2 & rest & -> & (Hx & H1 & H2) & E)].
    + rewrite E. exists [], a, l, []. split; [reflexivity|].
      split; [|reflexivity]. split; [exact Ha|]. split; [intros y []|].
      intros y Hy Hp.
      assert (Hin : In y (filter p l)) by (apply filter_In; now split).
      rewrite E in Hin. destruct Hin.
    + rewrite E. cbn [insert_desc].
      destruct (key x <=? key a) eqn:Hk.
      * apply Z.leb_le in Hk.
        exists [], a, (l1 ++ x :: l2)%list, (x :: rest).
        split; [reflexivity|]. split; [|reflexivity].
        split; [exact Ha|]. split; [intros y []|].
        intros y Hy Hp. apply in_app_or in Hy.
        destruct Hy as [Hy | [<- | Hy]].
        -- specialize (H1 y Hy Hp). lia.
        -- exact Hk.
        -- specialize (H2 y Hy Hp). lia.
      * apply Z.leb_gt in Hk.
        exists (a :: l1), x, l2, (insert_desc key a rest).
        split; [reflexivity|]. split; [|reflexivity].
        split; [exact Hx|]. split; [|exact H2].
        intros y [<- | Hy] Hp; [exact Hk | now apply H1].
  - destruct IH as [E | (l1 & x & l2 & rest & -> & (Hx & H1 & H2) & E)];
      [now left|].
    right. exists (a :: l1), x, l2, rest.
    split; [reflexivity|]. split; [|exact E].
    split; [exact Hx|]. split; [|exact H2].
    intros y [<- | Hy] Hp; [congruence | now apply H1].
Qed.

(** Conversely, the first of the latest entries is the head. *)
Lemma first_latest_is_head (l1 : list A) (x : A) (l2 : list A) :
  first_latest key (fun y => p y = true) l1 x l2 ->
  exists rest, sorted_reverse key (filter p (l1 ++ x :: l2)) = x :: rest.
Proof.
  intros (Hx & H1 & H2). induction l1 as [|a l1 IH].
  - cbn [app filter]. rewrite Hx. cbn [sorted_reverse fold_right].
    fold (sorted_reverse key (filter p l2)).
    pose proof (sorted_reverse_head_max key (filter p l2)) as Hmax.
    pose proof (fun y => sorted_reverse_In key y (filter p l2)) as Hin.
    destruct (sorted_reverse key (filter p l2)) as [|h rest]; cbn [insert_desc].
    + now exists [].
    + assert (Hh : In h (filter p l2)) by (apply Hin; now left).
      apply filter_In in Hh. destruct Hh as [Hh Hp].
      specialize (H2 h Hh Hp). apply Z.leb_le in H2. rewrite H2.
      now exists (h :: rest).
  - destruct IH as (rest & E); [intros y Hy; apply H1; now right|].
    cbn [app filter]. destruct (p a) eqn:Ha.
    + cbn [sorted_reverse fold_right].
      fold (sorted_reverse key (filter p (l1 ++ x :: l2))). rewrite E.
      cbn [insert_desc].
      assert (Hk : key a < key x) by (apply H1; [now left | exact Ha]).
      apply Z.leb_gt in Hk. rewrite Hk. now eexists.
    + now exists rest.
Qed.

End Latest.

Lemma valid_goal_spec (metric : string) (g : GirthGoal) :
  valid_goal metric g = true <-> is_goal_for metric g.
Proof.
  unfold valid_goal, is_goal_for, eq_str.
  rewrite andb_true_iff, negb_true_iff. split.
  - intros [Ht Hv]. split; [|exact Hv].
    destruct (girth_type g); try discriminate.
    apply String.eqb_eq in Ht. now subst.
  - intros [-> Hv]. split; [apply String.eqb_refl | exact Hv].
Qed.

Lemma get_specific_metric_goal_cached (env : Env) (metric : string)
    (uid : pyval) (s : State) (l : list GirthGoal) (t : Q) :
  girth_goal (client s) = Some l ->
  _last_updated_girth_goal (client s) = Some t ->
  get_specific_metric env METRIC_TYPE_GIRTH_GOAL metric uid s =
  (Ok (first_goal_value
         (sorted_reverse setup_goal_at (filter (valid_goal metric) l))),
   if truthy uid then mkState (set_user_id uid (client s)) (trace s) else s).
Proof.
  destruct s as [c tr]. cbn. intros Hl Ht.
  unfold get_specific_metric. run.
  destruct (truthy uid); run; rewrite ?Hl, ?Ht; cbn; rewrite ?Hl;
    destruct l as [|g l]; reflexivity.
Qed.

(** X23.  On a cached list of girth goals, [get_specific_metric("girth_goals", m)]
    fetches nothing and returns the value of a goal whose type is [m] and
    whose value is neither [None] nor zero: the one set up last, and the
    first of them in the list when several were set up at that time.  It
    returns [None] when the list has no such goal. *)
Theorem girth_goal_metric_is_latest_goal :
  forall (env : Env) (metric : string) (uid : pyval) (s : State)
         (l : list GirthGoal) (t : Q),
    girth_goal (client s) = Some l ->
    _last_updated_girth_goal (client s) = Some t ->
    exists v s',
      get_specific_metric env METRIC_TYPE_GIRTH_GOAL metric uid s = (Ok v, s')
      /\ trace s' = trace s
      /\ ((v = PyNone /\ forall g, In g l -> ~ is_goal_for metric g)
          \/
          (exists l1 g l2,
              l = (l1 ++ g :: l2)%list
              /\ v = goal_value g
              /\ first_latest setup_goal_at (is_goal_for metric) l1 g l2)).
Proof.
  intros env metric uid s l t Hl Ht.
  rewrite (get_specific_metric_goal_cached env metric uid s l t Hl Ht).
  eexists. eexists. split; [reflexivity|]. split; [now destruct (truthy uid)|].
  destruct (sorted_reverse_first_latest setup_goal_at (valid_goal metric) l)
    as [E | (l1 & g & l2 & rest & -> & (Hg & H1 & H2) & E)].
  - left. rewrite E. split; [reflexivity|]. intros g Hg Hv.
    assert (Hin : In g (filter (valid_goal metric) l))
      by (apply filter_In; split; [exact Hg | now apply valid_goal_spec]).
    rewrite E in Hin. destruct Hin.
  - right. exists l1, g, l2. split; [reflexivity|]. rewrite E.
    pose proof (proj1 (valid_goal_spec metric g) Hg) as Hgoal.
    split.
    + cbn [first_goal_value]. now rewrite (proj2 Hgoal).
    + split; [exact Hgoal|]. split.
      * intros y Hy Hp. apply H1; [exact Hy | now apply valid_goal_spec].
      * intros y Hy Hp. apply H2; [exact Hy | now apply valid_goal_spec].
Qed.

Lemma girth_goal_metric_example :
  exists v s',
    get_specific_metric Examples.offline METRIC_TYPE_GIRTH_GOAL "waist" PyNone
      Cases.with_goals = (Ok v, s')
    /\ trace s' = trace Cases.with_goals
    /\ ((v = PyNone /\ forall g, In g Cases.goals -> ~ is_goal_for "waist" g)
        \/
        (exists l1 g l2,
            Cases.goals = (l1 ++ g :: l2)%list
            /\ v = goal_value g
            /\ first_latest setup_goal_at (is_goal_for "waist") l1 g l2)).
Proof.
  exact (girth_goal_metric_is_latest_goal Examples.offline "waist" PyNone
           Cases.with_goals Cases.goals 0%Q eq_refl eq_refl).
Defined.

(** With goals for the waist of 75 (set up at 100), 0 (at 400) and 72 (at
    200) and a goal for the hip, the waist goal is 72. *)
Example girth_goal_metric_value :
  fst (get_specific_metric Examples.offline METRIC_TYPE_GIRTH_GOAL "waist" PyNone
         Cases.with_goals) = Ok (PyNum 72).
Proof. vm_compute. reflexivity. Qed.

(** X24.  When several girth entries with a reading for the metric carry
    the latest timestamp, [get_specific_metric("girth", m)] returns the
    reading of the one that comes first in the cached list: the sort is
    stable, also in reverse. *)
Theorem girth_metric_ties_go_to_the_first_entry :
  forall (env : Env) (metric : string) (uid : pyval) (s : State)
         (l1 : list Girth) (g : Girth) (l2 : list Girth) (v : pyval) (t : Q),
    girth_info (client s) = Some (l1 ++ g :: l2)%list ->
    _last_updated_girth (client s) = Some t ->
    has_reading metric g v ->
    first_latest girth_time_stamp (fun x => exists w, has_reading metric x w)
      l1 g l2 ->
    fst (get_specific_metric env METRIC_TYPE_GIRTH metric uid s) = Ok v.
Proof.
  intros env metric uid s l1 g l2 v t Hl Ht Hv (_ & H1 & H2).
  rewrite (get_specific_metric_girth_cached env metric uid s _ t Hl Ht).
  cbn [fst]. unfold latest_girth.
  destruct (first_latest_is_head girth_time_stamp (valid_girth metric) l1 g l2)
    as (rest & E).
  - split; [apply valid_girth_reading; now exists v|]. split.
    + intros y Hy Hp. apply H1; [exact Hy | now apply valid_girth_reading].
    + intros y Hy Hp. apply H2; [exact Hy | now apply valid_girth_reading].
  - rewrite E. f_equal. now apply first_girth_value_head.
Qed.

Lemma girth_metric_tie_example :
  fst (get_specific_metric Examples.offline METRIC_TYPE_GIRTH "waist" PyNone
         Cases.with_tied_girths) = Ok (PyNum 80).
Proof.
  apply (girth_metric_ties_go_to_the_first_entry Examples.offline "waist" PyNone
           Cases.with_tied_girths []
           (mkGirth 100 [("waist_value", PyNum 80)])
           [mkGirth 100 [("waist_value", PyNum 90)]] (PyNum 80) 0%Q).
  - reflexivity.
  - reflexivity.
  - split; reflexivity.
  - split; [exists (PyNum 80); split; reflexivity|].
    split; [intros y []|].
    intros y [<- | []] _. cbn. lia.
Defined.

(** X25.  [get_specific_metric] never raises, whatever its arguments and
    whatever the network does.  For the type ["weight"] it reads the cached
    measurement and touches no network, returning [None] when nothing was
    fetched yet; for a type other than ["weight"], ["girth"] and
    ["girth_goals"] it logs an error and returns [None]: so it does for
    ["growth_record"], for which the module declares a type constant. *)
Theorem get_specific_metric_never_raises :
  forall (env : Env) (metric_type metric : string) (uid : pyval) (s : State),
    (exists v s', get_specific_metric env metric_type metric uid s = (Ok v, s'))
    /\ (let s0 := if truthy uid
                  then mkState (set_user_id uid (client s)) (trace s) else s in
        get_specific_metric env METRIC_TYPE_WEIGHT metric uid s
        = (Ok match weight_info (client s) with
              | Some info => obj_get info metric
              | None => PyNone
              end, s0)
        /\ (metric_type <> METRIC_TYPE_WEIGHT ->
            metric_type <> METRIC_TYPE_GIRTH ->
            metric_type <> METRIC_TYPE_GIRTH_GOAL ->
            get_specific_metric env metric_type metric uid s
            = (Ok PyNone,
               after s0 [EvLog ERROR ("Invalid metric type: " ++ metric_type)]))
        /\ get_specific_metric env METRIC_TYPE_GROWTH_RECORD metric uid s
           = (Ok PyNone,
              after s0 [EvLog ERROR "Invalid metric type: growth_record"])).
Proof.
  intros env metric_type metric uid s. split; [|split; [|split]].
  - unfold get_specific_metric.
    destruct (when (truthy uid) (modify (set_user_id uid)) s) as [[[]|e] s1] eqn:E.
    + erewrite bind_ok by exact E. apply try_except_total.
      intros e s2. eexists. eexists. reflexivity.
    + destruct (truthy uid); discriminate.
  - destruct s as [c tr]. unfold get_specific_metric.
    destruct (truthy uid); run;
      destruct (weight_info c); destruct (is_none (_last_updated_weight c));
      destruct (truthy (weight c)); reflexivity.
  - intros H1 H2 H3. apply String.eqb_neq in H1, H2, H3.
    destruct s as [c tr]. unfold get_specific_metric, after.
    destruct (truthy uid); run; rewrite H1, H2, H3; reflexivity.
  - destruct s as [c tr]. unfold get_specific_metric, after.
    destruct (truthy uid); reflexivity.
Qed.

(** ** The poller *)

(** X26.  Starting an idle poller and then stopping it brings the client
    back to where it was, the task slot apart: one task was created and
    that task was cancelled, the poller is idle again and can be started
    anew. *)
Theorem start_then_stop_returns_to_idle :
  forall s : State,
    is_polling_active (client s) = false ->
    exists s1 s2,
      start_polling s = (Ok tt, s1)
      /\ stop_polling s1 = (Ok tt, s2)
      /\ client s2 = set_polling_task (Some TaskNone) (client s)
      /\ trace s2
         = (trace s ++ [EvCreateTask; EvCancelTask;
                        EvLog INFO "Polling has been stopped."])%list.
Proof.
  intros [c tr] H. cbn [client] in H.
  eexists. eexists. split; [|split; [|split]].
  - unfold start_polling. run. rewrite H. reflexivity.
  - unfold stop_polling. run. reflexivity.
  - destruct c. cbn in *. now subst.
  - cbn. now rewrite <- !app_assoc.
Qed.

Lemma start_then_stop_example :
  exists s1 s2,
    start_polling (Demo.fresh "a@b.c" "secret") = (Ok tt, s1)
    /\ stop_polling s1 = (Ok tt, s2)
    /\ client s2
       = set_polling_task (Some TaskNone) (client (Demo.fresh "a@b.c" "secret"))
    /\ trace s2
       = (trace (Demo.fresh "a@b.c" "secret")
          ++ [EvCreateTask; EvCancelTask;
              EvLog INFO "Polling has been stopped."])%list.
Proof.
  apply (start_then_stop_returns_to_idle (Demo.fresh "a@b.c" "secret")).
  reflexivity.
Defined.

Lemma consistent_kept_by_the_client (env : Env) :
  kept_by_the_client env poller_consistent.
Proof.
  pose proof (auth_keeps env
                (fun active task _ => active = true -> task = Some TaskHandle))
    as H.
  unfold kept_by_the_client. repeat split; intros.
  - now apply request_keeps.
  - now apply get_measurements_keeps.
  - now apply get_info_keeps.
  - now apply get_device_info_keeps.
  - now apply list_girth_keeps.
  - now apply list_girth_goal_keeps.
  - now apply list_growth_record_keeps.
  - now apply message_list_keeps.
  - now apply get_specific_metric_keeps.
  - now apply poll_data_keeps.
Qed.

(** X27.  An active poller always has its task: this holds of every client
    that [__init__] builds and is kept by [start_polling], by
    [stop_polling] and by every method that reaches the network.  On such
    a client [stop_polling] never fails for want of the [polling_task]
    attribute: it returns and leaves the poller idle. *)
Theorem poller_stays_consistent :
  forall env : Env,
    (forall email password user_id refresh proxy,
        poller_consistent (__init__ email password user_id refresh proxy))
    /\ keeps poller_consistent start_polling
    /\ keeps poller_consistent stop_polling
    /\ kept_by_the_client env poller_consistent
    /\ (forall s,
           poller_consistent (client s) ->
           exists s', stop_polling s = (Ok tt, s')
                      /\ is_polling_active (client s') = false).
Proof.
  intros env. split; [|split; [|split; [|split]]].
  - intros email password user_id refresh proxy. discriminate.
  - intros [c tr] r s' H Hc. unfold start_polling in H. revert H. run.
    destruct (is_polling_active c) eqn:E; intros H; inversion H; subst.
    + exact Hc.
    + intros _. reflexivity.
  - intros [c tr] r s' H Hc. unfold stop_polling in H. revert H. run.
    unfold poller_consistent, guarded in Hc. cbn [client] in Hc.
    destruct (is_polling_active c) eqn:E; cbn.
    + rewrite (Hc eq_refl). run. intros H. inversion H; subst. discriminate.
    + intros H. inversion H; subst. unfold poller_consistent, guarded.
      cbn [client]. rewrite E. discriminate.
  - apply consistent_kept_by_the_client.
  - intros [c tr] Hc. unfold poller_consistent, guarded in Hc.
    cbn [client] in Hc. unfold stop_polling. run.
    destruct (is_polling_active c) eqn:E; cbn.
    + rewrite (Hc eq_refl). run. eexists. split; reflexivity.
    + eexists. split; [reflexivity | exact E].
Qed.

Lemma get_info_total (env : Env) (s : State) :
  exists info s', get_info env s = (Ok info, s').
Proof.
  unfold get_info, time_now. repeat step. apply get_measurements_total.
Qed.

(** X28.  A cycle of [poll_data] never raises and never reports success:
    it runs the three fetches one after the other, whatever each of them
    returns, and then always logs "Error fetching data", because what it
    hands to [asyncio.gather] are the values the fetches returned and not
    awaitables. *)
Theorem poll_data_always_logs_an_error :
  forall (env : Env) (s : State),
    exists s3 msg,
      poll_fetches env s = (Ok tt, s3)
      /\ poll_data env s
         = (Ok tt, after s3 [EvLog ERROR ("Error fetching data: " ++ msg)]).
Proof.
  intros env s. unfold poll_fetches.
  destruct (get_info_total env s) as (info & s1 & H1).
  destruct (proj1 (list_girth_quiet env s1)) as (girths & s2 & H2).
  destruct (proj1 (list_girth_goal_quiet env s2)) as (goals & s3 & H3).
  exists s3. eexists. split.
  - step_by (exact H1). step_by (exact H2). step_by (exact H3). reflexivity.
  - unfold poll_data, try_except.
    step_by (exact H1). step_by (exact H2). step_by (exact H3).
    reflexivity.
Qed.

(** ** The remaining fetchers *)

(** As [quiet], from the point where the fetcher sends its request. *)
Ltac quiet_request :=
  let E := fresh "E" in
  let Hd := fresh "Hd" in
  let d := fresh "d" in
  let kv := fresh "kv" in
  let e := fresh "e" in
  let s1 := fresh "s" in
  unfold try_except;
  match goal with
  | |- context [fetch ?env ?url ?s] =>
      destruct (fetch env url s) as [[[d|]|e] s1] eqn:E
  end;
  [ intros Hd; erewrite bind_ok by exact E; cbv beta;
    destruct d as [|kv d]; [eexists; reflexivity|];
    destruct Hd as [Hd|Hd]; [discriminate|];
    cbn [no_body body_of];
    rewrite ?Hd, ?(status_not_20000 _ Hd); cbn [andb];
    eexists; reflexivity
  | erewrite bind_ok by exact E; eexists; reflexivity
  | erewrite bind_raise by exact E; eexists; reflexivity ].

Lemma request_user_quiet (env : Env) (s : State) :
  fails_quietly env (request_user env)
    (fetch_url env USER_REQUEST_URL "last_updated_at" (client s)) s.
Proof.
  unfold fails_quietly, request_user. split.
  - step. cbv zeta. apply try_except_total.
    intros ? ?. eexists. eexists. reflexivity.
  - step. cbv zeta. quiet_request.
Qed.

Lemma reach_goal_quiet (env : Env) (s : State) :
  fails_quietly env (reach_goal env)
    (fetch_url env USERS_REACH_GOAL "last_updated_at" (client s)) s.
Proof.
  unfold fails_quietly, reach_goal. split.
  - step. cbv zeta. apply try_except_total.
    intros ? ?. eexists. eexists. reflexivity.
  - step. cbv zeta. quiet_request.
Qed.

Lemma list_latest_model_quiet (env : Env) (s : State) (info : MeasurementDetail)
    (model : pyval) :
  weight_info (client s) = Some info ->
  dict_get info "internal_model" = Some model ->
  fails_quietly env (list_latest_model env)
    (fetch_url env LATEST_MODEL_URL "last_updated_at" (client s)
     ++ "$internal_model_json=%5B%22" ++ py_str env model ++ "%22%5D") s.
Proof.
  intros Hi Hm. unfold fails_quietly, list_latest_model. split.
  - step. rewrite Hi. step. unfold obj_attr. rewrite Hm. step. cbv zeta.
    apply try_except_total. intros ? ?. eexists. eexists. reflexivity.
  - step. rewrite Hi. step. unfold obj_attr. rewrite Hm. step. cbv zeta.
    quiet_request.
Qed.

(** X29.  [request_user] and [reach_goal] fail quietly like the six other
    fetchers: they always return, and log one error and return [None] when
    the request raises, returns no body or returns a body without the
    success status.  So does [list_latest_model] on a client that holds a
    measurement with its model; on a client without a measurement it
    raises [AttributeError] instead, before it touches the network,
    because it builds its URL outside the [try] statement. *)
Theorem remaining_fetchers_fail_quietly :
  forall (env : Env) (s : State),
    fails_quietly env (request_user env)
      (fetch_url env USER_REQUEST_URL "last_updated_at" (client s)) s
    /\ fails_quietly env (reach_goal env)
         (fetch_url env USERS_REACH_GOAL "last_updated_at" (client s)) s
    /\ (forall info model,
           weight_info (client s) = Some info ->
           dict_get info "internal_model" = Some model ->
           fails_quietly env (list_latest_model env)
             (fetch_url env LATEST_MODEL_URL "last_updated_at" (client s)
              ++ "$internal_model_json=%5B%22" ++ py_str env model ++ "%22%5D") s)
    /\ (weight_info (client s) = None ->
        exists e,
          list_latest_model env s = (Raise e, s)
          /\ exn_cls e = PyException "AttributeError").
Proof.
  intros env s. split; [|split; [|split]].
  - apply request_user_quiet.
  - apply reach_goal_quiet.
  - intros info model. apply list_latest_model_quiet.
  - intros H.
    exists (Exn (PyException "AttributeError")
              "'NoneType' object has no attribute 'internal_model'").
    split; [|reflexivity].
    unfold list_latest_model. step. now rewrite H.
Qed.

(** On a client that never fetched a measurement. *)
Example list_latest_model_raises :
  fst (list_latest_model Examples.offline (Demo.fresh "a@b.c" "secret"))
  = Raise (Exn (PyException "AttributeError")
             "'NoneType' object has no attribute 'internal_model'")
  /\ trace (snd (list_latest_model Examples.offline (Demo.fresh "a@b.c" "secret")))
     = [].
Proof. split; reflexivity. Qed.

(** ** The girth caches *)

(** X30.  [list_girth] and [list_girth_goal] change their cache only when
    they succeed: when one of them returns a list, the cache holds that
    list and a timestamp; when it returns [None], for whatever reason, the
    cached list and its timestamp are what they were before the call. *)
Theorem girth_caches_change_on_success_only :
  forall (env : Env) (s : State),
    match list_girth env s with
    | (Ok (Some l), s') =>
        girth_info (client s') = Some l
        /\ exists t, _last_updated_girth (client s') = Some t
    | (Ok None, s') => girth_cache (client s') = girth_cache (client s)
    | (Raise _, _) => False
    end
    /\ match list_girth_goal env s with
       | (Ok (Some l), s') =>
           girth_goal (client s') = Some l
           /\ exists t, _last_updated_girth_goal (client s') = Some t
       | (Ok None, s') => goal_cache (client s') = goal_cache (client s)
       | (Raise _, _) => False
       end.
Proof.
  intros env s.
  assert (Hgirth : forall url r s1,
             fetch env url s = (r, s1) ->
             girth_cache (client s1) = girth_cache (client s)).
  { intros url r s1 E.
    apply (fetch_kept env (fun c => girth_cache c = girth_cache (client s)))
      with (url := url) (s := s) (r := r); auto. }
  assert (Hgoal : forall url r s1,
             fetch env url s = (r, s1) ->
             goal_cache (client s1) = goal_cache (client s)).
  { intros url r s1 E.
    apply (fetch_kept env (fun c => goal_cache c = goal_cache (client s)))
      with (url := url) (s := s) (r := r); auto. }
  split.
  - unfold list_girth. step. cbv zeta. unfold try_except.
    destruct (fetch env (fetch_url env GIRTH_URL "last_updated_at" (client s)) s)
      as [[[d|]|e] s1] eqn:E;
      pose proof (Hgirth _ _ _ E) as Hk.
    + erewrite bind_ok by exact E. cbv beta.
      destruct (no_body (Some d)); [exact Hk|]. cbn [body_of].
      destruct (status_20000 d); [|exact Hk].
      destruct (GirthResponse_girths env d) as [e|girths]; run; [exact Hk|].
      split; [reflexivity | eexists; reflexivity].
    + erewrite bind_ok by exact E. exact Hk.
    + erewrite bind_raise by exact E. exact Hk.
  - unfold list_girth_goal. step. cbv zeta. unfold try_except.
    destruct (fetch env (fetch_url env GIRTH_GOAL_URL "last_updated_at" (client s))
                s) as [[[d|]|e] s1] eqn:E;
      pose proof (Hgoal _ _ _ E) as Hk.
    + erewrite bind_ok by exact E. cbv beta.
      destruct (no_body (Some d)); [exact Hk|]. cbn [body_of].
      destruct (status_20000 d); [|exact Hk].
      destruct (GirthGoalsResponse_girth_goals env d) as [e|goals]; run;
        [exact Hk|].
      split; [reflexivity | eexists; reflexivity].
    + erewrite bind_ok by exact E. exact Hk.
    + erewrite bind_raise by exact E. exact Hk.
Qed.
